(** * HAProxy Kubernetes ingress controller: reconciliation core

    A shallow embedding of the reconciliation and rule-synthesis code of
    the controller (ingress admission, annotation-to-rule pipeline,
    global/defaults synchronisation, default service, and the HTTPS
    handler with client TLS authentication and SSL passthrough), together
    with the properties its specification states about it.

    Go structs are records, Go maps are [gmap]s, slices are lists, the
    [error] interface is an optional message, and a run-time panic (nil
    dereference, index out of range, [logger.Panic] on a non-nil error) is
    an explicit outcome of the state-passing functions. *)

From Stdlib Require Import ZArith Ascii.
From stdpp Require Import base option list strings gmap.

Local Open Scope string_scope.
Local Open Scope Z_scope.
Local Open Scope list_scope.

(** ** Outcomes and state passing *)

(** Go's [error]: [None] is [nil]. *)
Abbreviation error := (option string).

(** A call either returns a value and the updated state, or panics in
    some state. *)
Inductive Res (S A : Type) : Type :=
| Ret (a : A) (s : S)
| Panic (s : S).
Arguments Ret {S A} a s.
Arguments Panic {S A} s.

Definition M (S A : Type) : Type := S → Res S A.

Definition ret {S A} (a : A) : M S A := λ s, Ret a s.

Definition bind {S A B} (m : M S A) (f : A → M S B) : M S B :=
  λ s, match m s with
       | Ret a s' => f a s'
       | Panic s' => Panic s'
       end.

Notation "'let*' x ':=' m 'in' k" := (bind m (λ x, k))
  (at level 10, x pattern, m at level 100, k at level 200).

Definition get {S} : M S S := λ s, Ret s s.
Definition modify {S} (f : S → S) : M S unit := λ s, Ret tt (f s).
Definition panic {S A} : M S A := λ s, Panic s.

(** The state in which a computation stops, whether it returned or not. *)
Definition final {S A} (r : Res S A) : S :=
  match r with Ret _ s => s | Panic s => s end.

Definition returned {S A} (r : Res S A) : option A :=
  match r with Ret a _ => Some a | Panic _ => None end.

(** [logger.Panic(err)], of package [utils], logs, and panics exactly when
    [err] is not nil. *)
Definition logger_Panic {S} (err : error) : M S unit :=
  match err with
  | None => ret tt
  | Some _ => panic
  end.

(** ** The observed store *)

(** Modelled from the spec: the lifecycle status of store objects, whose
    constants are declared in package [store]; the values are those of
    the data model, EMPTY, MODIFIED and DELETED. *)
Inductive Status := EMPTY | MODIFIED | DELETED.

Global Instance Status_eq_dec : EqDecision Status.
Proof. solve_decision. Defined.

Record IngressClass := {
  IngressClass_Controller : string;
  IngressClass_Status : Status;
}.

Record IngressPath := {
  IngressPath_SvcName : string;
  IngressPath_SvcPortInt : Z;
  IngressPath_IsDefaultBackend : bool;
}.

Global Instance IngressPath_eq_dec : EqDecision IngressPath.
Proof. solve_decision. Defined.

Record Ingress := {
  Ingress_Namespace : string;
  Ingress_Name : string;
  Ingress_Class : string;
  Ingress_Annotations : gmap string string;
  Ingress_DefaultBackend : option IngressPath;
  Ingress_Status : Status;
}.

Global Instance Ingress_eq_dec : EqDecision Ingress.
Proof. solve_decision. Defined.

Definition Ingress_set_Status (st : Status) (i : Ingress) : Ingress :=
  {| Ingress_Namespace := Ingress_Namespace i;
     Ingress_Name := Ingress_Name i;
     Ingress_Class := Ingress_Class i;
     Ingress_Annotations := Ingress_Annotations i;
     Ingress_DefaultBackend := Ingress_DefaultBackend i;
     Ingress_Status := st |}.

(** [store.Ingress{}], the zero value.  Modelled from the spec:
    [ingress.Equal(&store.Ingress{})] holds of the empty, zero-valued
    ingress, the sentinel of the config-map scope. *)
Definition zeroIngress : Ingress :=
  {| Ingress_Namespace := EmptyString;
     Ingress_Name := EmptyString;
     Ingress_Class := EmptyString;
     Ingress_Annotations := ∅;
     Ingress_DefaultBackend := None;
     Ingress_Status := EMPTY |}.

Record ServicePort := { ServicePort_Port : Z }.

Record Service := {
  Service_Name : string;
  Service_Annotations : gmap string string;
  Service_Ports : list ServicePort;
}.

Record Namespace := {
  Namespace_Name : string;
  Namespace_Services : gmap string Service;
}.

Record ConfigMap := { ConfigMap_Annotations : gmap string string }.
Record ConfigMaps := { ConfigMaps_Main : ConfigMap }.

Record K8s := {
  K8s_Namespaces : gmap string Namespace;
  K8s_IngressClasses : gmap string IngressClass;
  K8s_ConfigMaps : ConfigMaps;
}.

Definition mainAnnotations (k : K8s) : gmap string string :=
  ConfigMap_Annotations (ConfigMaps_Main (K8s_ConfigMaps k)).

(** Modelled from the spec: [annotations.GetValue], the annotation source
    resolution of package [annotations].  It returns the first
    non-empty value found by trying the sources in the given order, and
    the empty string if there is none. *)
Fixpoint GetValue (name : string) (sources : list (gmap string string)) : string :=
  match sources with
  | [] => EmptyString
  | a :: rest =>
      match a !! name with
      | Some v => if decide (v = EmptyString) then GetValue name rest else v
      | None => GetValue name rest
      end
  end.

(** ** Rules *)

Inductive RuleType :=
| REQ_ACCEPT_CONTENT | REQ_INSPECT_DELAY | REQ_SET_VAR | REQ_REDIRECT
| REQ_DENY | REQ_CAPTURE | REQ_RATELIMIT | REQ_OTHER.

(** The rule variants that the handlers build or inspect (package
    [rules]).  Fields they do not read are kept as one opaque [content]
    string, so that two rules of a variant can still differ. *)
Inductive Rule :=
| ReqAcceptContent
| ReqInspectDelay (Timeout : Z)
| ReqSetVar (Name Scope Expression CondTest : string)
| RequestRedirect (SSLRedirect : bool) (content : string)
| ReqDeny (content : string)
| ReqCapture (content : string)
| ReqRateLimit (TableName : string) (content : string)
| OtherRule (content : string).

Global Instance Rule_eq_dec : EqDecision Rule.
Proof. solve_decision. Defined.

Definition GetType (r : Rule) : RuleType :=
  match r with
  | ReqAcceptContent => REQ_ACCEPT_CONTENT
  | ReqInspectDelay _ => REQ_INSPECT_DELAY
  | ReqSetVar _ _ _ _ => REQ_SET_VAR
  | RequestRedirect _ _ => REQ_REDIRECT
  | ReqDeny _ => REQ_DENY
  | ReqCapture _ => REQ_CAPTURE
  | ReqRateLimit _ _ => REQ_RATELIMIT
  | OtherRule _ => REQ_OTHER
  end.

(** The rule registry [cfg.HAProxyRules] is implemented in package
    [haproxy].  It is represented by the sequence of operations applied
    to it. *)
Inductive RuleOp :=
| AddRule (rule : Rule) (ingressRule : bool) (frontend : string)
| DeleteFrontend (frontend : string).

Global Instance RuleOp_eq_dec : EqDecision RuleOp.
Proof. solve_decision. Defined.

(** Modelled from the spec: the content of the rule registry, an ordered,
    deduplicated per-frontend collection of rules; removing a frontend
    drops its rules. *)
Fixpoint rulesOf (frontend : string) (ops : list RuleOp) (acc : list Rule) : list Rule :=
  match ops with
  | [] => acc
  | AddRule r _ f :: ops' =>
      if decide (f = frontend)
      then rulesOf frontend ops' (if decide (r ∈ acc) then acc else acc ++ [r])
      else rulesOf frontend ops' acc
  | DeleteFrontend f :: ops' =>
      rulesOf frontend ops' (if decide (f = frontend) then [] else acc)
  end.

(** ** Controller configuration *)

Inductive SecretType := CA_CERT | FT_DEFAULT_CERT.

Record SecretCtx := {
  SecretCtx_DefaultNS : string;
  SecretCtx_SecretPath : string;
  SecretCtx_SecretType : SecretType;
}.

(** Errors of the certificate collaborator: the distinguished
    [ErrCertNotFound], or any other failure. *)
Inductive CertError := ErrCertNotFound | ErrCertOther (msg : string).

(** The certificates manager is owned by package [haproxy]; the
    controller only queries it. *)
Record Certificates := {
  FrontendCertsEnabled : bool;
  Updated : bool;
  HandleTLSSecret : K8s → SecretCtx → string * option CertError;
}.

Record ControllerCfg := {
  Cfg_FrontHTTP : string;
  Cfg_FrontHTTPS : string;
  Cfg_FrontSSL : string;
  Cfg_BackSSL : string;
  Cfg_HTTPS : bool;
  Cfg_SSLPassthrough : bool;
  Cfg_HAProxyRules : list RuleOp;
  Cfg_RateLimitTables : list string;
  Cfg_ActiveBackends : gset string;
  Cfg_Certificates : Certificates;
}.

Definition set_HTTPS (b : bool) (c : ControllerCfg) : ControllerCfg :=
  {| Cfg_FrontHTTP := Cfg_FrontHTTP c; Cfg_FrontHTTPS := Cfg_FrontHTTPS c; Cfg_FrontSSL := Cfg_FrontSSL c;
     Cfg_BackSSL := Cfg_BackSSL c; Cfg_HTTPS := b; Cfg_SSLPassthrough := Cfg_SSLPassthrough c;
     Cfg_HAProxyRules := Cfg_HAProxyRules c; Cfg_RateLimitTables := Cfg_RateLimitTables c;
     Cfg_ActiveBackends := Cfg_ActiveBackends c; Cfg_Certificates := Cfg_Certificates c |}.

Definition set_SSLPassthrough (b : bool) (c : ControllerCfg) : ControllerCfg :=
  {| Cfg_FrontHTTP := Cfg_FrontHTTP c; Cfg_FrontHTTPS := Cfg_FrontHTTPS c; Cfg_FrontSSL := Cfg_FrontSSL c;
     Cfg_BackSSL := Cfg_BackSSL c; Cfg_HTTPS := Cfg_HTTPS c; Cfg_SSLPassthrough := b;
     Cfg_HAProxyRules := Cfg_HAProxyRules c; Cfg_RateLimitTables := Cfg_RateLimitTables c;
     Cfg_ActiveBackends := Cfg_ActiveBackends c; Cfg_Certificates := Cfg_Certificates c |}.

Definition set_HAProxyRules (ops : list RuleOp) (c : ControllerCfg) : ControllerCfg :=
  {| Cfg_FrontHTTP := Cfg_FrontHTTP c; Cfg_FrontHTTPS := Cfg_FrontHTTPS c; Cfg_FrontSSL := Cfg_FrontSSL c;
     Cfg_BackSSL := Cfg_BackSSL c; Cfg_HTTPS := Cfg_HTTPS c; Cfg_SSLPassthrough := Cfg_SSLPassthrough c;
     Cfg_HAProxyRules := ops; Cfg_RateLimitTables := Cfg_RateLimitTables c;
     Cfg_ActiveBackends := Cfg_ActiveBackends c; Cfg_Certificates := Cfg_Certificates c |}.

Definition set_RateLimitTables (t : list string) (c : ControllerCfg) : ControllerCfg :=
  {| Cfg_FrontHTTP := Cfg_FrontHTTP c; Cfg_FrontHTTPS := Cfg_FrontHTTPS c; Cfg_FrontSSL := Cfg_FrontSSL c;
     Cfg_BackSSL := Cfg_BackSSL c; Cfg_HTTPS := Cfg_HTTPS c; Cfg_SSLPassthrough := Cfg_SSLPassthrough c;
     Cfg_HAProxyRules := Cfg_HAProxyRules c; Cfg_RateLimitTables := t;
     Cfg_ActiveBackends := Cfg_ActiveBackends c; Cfg_Certificates := Cfg_Certificates c |}.

Definition set_ActiveBackends (a : gset string) (c : ControllerCfg) : ControllerCfg :=
  {| Cfg_FrontHTTP := Cfg_FrontHTTP c; Cfg_FrontHTTPS := Cfg_FrontHTTPS c; Cfg_FrontSSL := Cfg_FrontSSL c;
     Cfg_BackSSL := Cfg_BackSSL c; Cfg_HTTPS := Cfg_HTTPS c; Cfg_SSLPassthrough := Cfg_SSLPassthrough c;
     Cfg_HAProxyRules := Cfg_HAProxyRules c; Cfg_RateLimitTables := Cfg_RateLimitTables c;
     Cfg_ActiveBackends := a; Cfg_Certificates := Cfg_Certificates c |}.

(** [cfg.HAProxyRules.AddRule(rule, ingressRule, frontend)]; its error is
    only ever logged by the callers. *)
Definition HAProxyRules_AddRule (rule : Rule) (ingressRule : bool) (frontend : string)
  : M ControllerCfg unit :=
  modify (λ c, set_HAProxyRules (Cfg_HAProxyRules c ++ [AddRule rule ingressRule frontend]) c).

Definition HAProxyRules_DeleteFrontend (frontend : string) : M ControllerCfg unit :=
  modify (λ c, set_HAProxyRules (Cfg_HAProxyRules c ++ [DeleteFrontend frontend]) c).

(** ** Ingress admission and the annotation-to-rule pipeline *)

Record OSArgs := {
  OSArgs_EmptyIngressClass : bool;
  OSArgs_IngressClass : string;
}.

(** A frontend annotation handler: its name, and its processing function
    that appends zero or more rules to the working result list. *)
Record FrontendAnnotation := {
  GetName : string;
  Process : string → list Rule → list Rule * error;
}.

Section Controller.

(** Declared in other packages of the controller: the class constant,
    the boolean parser of [utils], the catalogue of frontend annotation
    handlers, and the content-derived rule identity. *)
Variable CONTROLLER_CLASS : string.
Variable GetBoolValue : string → string → bool * error.
Variable GetFrontendAnnotations : Ingress → K8s → list FrontendAnnotation.
Variable RuleID : Type.
Variable GetID : Rule → RuleID.

Variable OSArgs_ : OSArgs.
Variable Store : K8s.

(** [igClassIsSupported]: the verdict, and the ingress whose status the
    function may have set to [MODIFIED]. *)
Definition igClassIsSupported (ingress : Ingress) : bool * Ingress :=
  let igClassAnn := GetValue "ingress.class" [Ingress_Annotations ingress] in
  if bool_decide (igClassAnn = EmptyString) && OSArgs_EmptyIngressClass OSArgs_
  then (true, ingress)
  else
    let byClass :=
      if bool_decide (igClassAnn = EmptyString)
         || bool_decide (igClassAnn ≠ OSArgs_IngressClass OSArgs_)
      then
        match K8s_IngressClasses Store !! Ingress_Class ingress with
        | Some igClass =>
            if bool_decide (IngressClass_Status igClass ≠ DELETED)
               && bool_decide (IngressClass_Controller igClass = CONTROLLER_CLASS)
            then Some (if bool_decide (IngressClass_Status igClass ≠ EMPTY)
                       then Ingress_set_Status MODIFIED ingress
                       else ingress)
            else None
        | None => None
        end
      else None in
    match byClass with
    | Some ingress' => (true, ingress')
    | None =>
        if bool_decide (igClassAnn = OSArgs_IngressClass OSArgs_)
        then (true, ingress)
        else (false, ingress)
    end.

(** [sslPassthroughEnabled].  [Store.Namespaces] maps to pointers, so
    with a path and a namespace missing from the store the selector
    [.Services] dereferences nil. *)
Definition sslPassthroughEnabled (ingress : Ingress) (path : option IngressPath)
  : M ControllerCfg bool :=
  let* service :=
    match path with
    | Some p =>
        match K8s_Namespaces Store !! Ingress_Namespace ingress with
        | Some ns => ret (Namespace_Services ns !! IngressPath_SvcName p)
        | None => panic
        end
    | None => ret None
    end in
  let annSSLPassthrough :=
    match service with
    | Some svc =>
        GetValue "ssl-passthrough"
          [Service_Annotations svc; Ingress_Annotations ingress; mainAnnotations Store]
    | None =>
        GetValue "ssl-passthrough" [Ingress_Annotations ingress; mainAnnotations Store]
    end in
  if bool_decide (annSSLPassthrough = EmptyString) then ret false
  else
    let '(enabled, err) := GetBoolValue annSSLPassthrough "ssl-passthrough" in
    match err with
    | Some _ => ret false
    | None =>
        if enabled
        then let* _ := modify (set_SSLPassthrough true) in ret true
        else ret false
    end.

(** First loop of [handleIngressAnnotations]: every handler of the
    catalogue processes its resolved value; errors are logged only. *)
Definition processAnnotations (annList : gmap string string)
    (handlers : list FrontendAnnotation) (result : list Rule) : list Rule :=
  foldl (λ res a, fst (Process a (GetValue (GetName a) [annList]) res)) result handlers.

Fixpoint addToFrontends (rule : Rule) (ingressRule : bool) (frontends : list string)
  : M ControllerCfg unit :=
  match frontends with
  | [] => ret tt
  | frontend :: rest =>
      let* _ := HAProxyRules_AddRule rule ingressRule frontend in
      addToFrontends rule ingressRule rest
  end.

(** The [switch] on the rule type: the frontends the rule is to be
    attached to, given the ones left by the previous iteration. *)
Definition ruleFrontends (ingress : Ingress) (rule : Rule) (frontends : list string)
  : M ControllerCfg (list string) :=
  match GetType rule with
  | REQ_REDIRECT =>
      match rule with
      | RequestRedirect SSLRedirect _ =>
          let* c := get in
          if SSLRedirect then ret [Cfg_FrontHTTP c] else ret [Cfg_FrontHTTP c; Cfg_FrontHTTPS c]
      | _ => panic
      end
  | REQ_DENY | REQ_CAPTURE =>
      let* enabled := sslPassthroughEnabled ingress None in
      let* c := get in
      if enabled then ret [Cfg_FrontHTTP c; Cfg_FrontSSL c] else ret frontends
  | REQ_RATELIMIT =>
      match rule with
      | ReqRateLimit TableName _ =>
          let* _ := modify (λ c, set_RateLimitTables (Cfg_RateLimitTables c ++ [TableName]) c) in
          ret frontends
      | _ => panic
      end
  | _ => ret frontends
  end.

(** One iteration of the second loop of [handleIngressAnnotations]: the
    rule is added to each of its frontends.  The frontends are handed
    on, because [frontends] is declared before the loop. *)
Definition attachRule (ingress : Ingress) (ingressRule : bool) (rule : Rule)
    (frontends : list string) : M ControllerCfg (list string) :=
  let* frontends' := ruleFrontends ingress rule frontends in
  let* _ := addToFrontends rule ingressRule frontends' in
  ret frontends'.

Fixpoint attachRules (ingress : Ingress) (ingressRule : bool) (result : list Rule)
    (frontends : list string) (ids : list RuleID) : M ControllerCfg (list RuleID) :=
  match result with
  | [] => ret ids
  | rule :: rest =>
      let* frontends' := attachRule ingress ingressRule rule frontends in
      attachRules ingress ingressRule rest frontends' (ids ++ [GetID rule])
  end.

Definition handleIngressAnnotations (ingress : Ingress) : M ControllerCfg (list RuleID) :=
  let '(annList, ingressRule) :=
    if bool_decide (ingress = zeroIngress)
    then (mainAnnotations Store, false)
    else (Ingress_Annotations ingress, true) in
  let* c := get in
  let frontends := [Cfg_FrontHTTP c; Cfg_FrontHTTPS c] in
  let result := processAnnotations annList (GetFrontendAnnotations ingress Store) [] in
  attachRules ingress ingressRule result frontends [].

End Controller.

(** ** The configuration-API client *)

Record Bind := {
  Bind_Address : string;
  Bind_Port : Z;
  Bind_Name : string;
  Bind_AcceptProxy : bool;
  Bind_V4v6 : bool;
  Bind_Ssl : bool;
  Bind_SslCertificate : string;
  Bind_Alpn : string;
  Bind_SslCafile : string;
  Bind_Verify : string;
}.

Global Instance Bind_eq_dec : EqDecision Bind.
Proof. solve_decision. Defined.

Record Frontend := {
  Frontend_Name : string;
  Frontend_Mode : string;
  Frontend_LogFormat : string;
  Frontend_DefaultBackend : string;
}.

Global Instance Frontend_eq_dec : EqDecision Frontend.
Proof. solve_decision. Defined.

Record Backend := {
  Backend_Name : string;
  Backend_Mode : string;
}.

Global Instance Backend_eq_dec : EqDecision Backend.
Proof. solve_decision. Defined.

Record Server := {
  Server_Name : string;
  Server_Address : string;
  Server_Port : Z;
  Server_SendProxyV2 : string;
}.

Global Instance Server_eq_dec : EqDecision Server.
Proof. solve_decision. Defined.

Record BackendSwitchingRule := {
  BackendSwitchingRule_Index : Z;
  BackendSwitchingRule_Name : string;
}.

Global Instance BackendSwitchingRule_eq_dec : EqDecision BackendSwitchingRule.
Proof. solve_decision. Defined.

Definition zeroFrontend : Frontend :=
  {| Frontend_Name := EmptyString; Frontend_Mode := EmptyString;
     Frontend_LogFormat := EmptyString; Frontend_DefaultBackend := EmptyString |}.

(** The calls of [api.HAProxyClient] that the handlers issue. *)
Inductive Call :=
| FrontendGet (name : string)
| FrontendBindsGet (frontend : string)
| FrontendCreate (f : Frontend)
| FrontendEdit (f : Frontend)
| FrontendDelete (name : string)
| FrontendBindCreate (frontend : string) (b : Bind)
| FrontendBindEdit (frontend : string) (b : Bind)
| FrontendEnableSSLOffload (frontend certDir alpn : string)
| FrontendDisableSSLOffload (frontend : string)
| BackendCreate (b : Backend)
| BackendDelete (name : string)
| BackendServerCreate (backend : string) (s : Server)
| BackendSwitchingRuleCreate (frontend : string) (r : BackendSwitchingRule).

Global Instance Call_eq_dec : EqDecision Call.
Proof. solve_decision. Defined.

(** The calls that change the proxy configuration. *)
Definition mutating (c : Call) : bool :=
  match c with
  | FrontendGet _ | FrontendBindsGet _ => false
  | _ => true
  end.

Record FrontendSection := {
  Section_Frontend : Frontend;
  Section_Binds : list Bind;
  Section_SwitchingRules : list BackendSwitchingRule;
}.

Record BackendSection := {
  Section_Backend : Backend;
  Section_Servers : list Server;
}.

(** Modelled from the spec: the configuration-API client, which lives
    in package [api].  It offers get/create/edit/delete per
    object; each call is atomic for its object and returns an error on
    failure.  The live configuration is held in memory.  A call fails when
    [Fault] says so (a transport or transaction failure), when it reads,
    edits or deletes an object that does not exist, or when it creates one
    that does; a failed call changes nothing.  Every call issued is
    appended to [Calls]. *)
Record HAProxy := {
  Frontends : gmap string FrontendSection;
  Backends : gmap string BackendSection;
  Calls : list Call;
  Fault : Call → bool;
}.

Definition logCall (c : Call) (h : HAProxy) : HAProxy :=
  {| Frontends := Frontends h; Backends := Backends h;
     Calls := Calls h ++ [c]; Fault := Fault h |}.

Definition set_Frontends (fs : gmap string FrontendSection) (h : HAProxy) : HAProxy :=
  {| Frontends := fs; Backends := Backends h; Calls := Calls h; Fault := Fault h |}.

Definition set_Backends (bs : gmap string BackendSection) (h : HAProxy) : HAProxy :=
  {| Frontends := Frontends h; Backends := bs; Calls := Calls h; Fault := Fault h |}.

(** A read: the answer, or an error. *)
Definition request {A} (c : Call) (serve : HAProxy → option A) : M HAProxy (option A) :=
  λ h, if Fault h c then Ret None (logCall c h) else Ret (serve h) (logCall c h).

(** A write: the new configuration, or an error and no change. *)
Definition command (c : Call) (apply : HAProxy → option HAProxy) : M HAProxy error :=
  λ h, if Fault h c then Ret (Some "client: call failed") (logCall c h)
       else match apply (logCall c h) with
            | Some h' => Ret None h'
            | None => Ret (Some "client: no such object, or object exists") (logCall c h)
            end.

Definition api_FrontendGet (name : string) : M HAProxy (Frontend * error) :=
  let* r := request (FrontendGet name) (λ h, Section_Frontend <$> Frontends h !! name) in
  match r with
  | Some f => ret (f, None)
  | None => ret (zeroFrontend, Some "client: frontend not found")
  end.

Definition api_FrontendBindsGet (frontend : string) : M HAProxy (list Bind * error) :=
  let* r := request (FrontendBindsGet frontend)
              (λ h, Section_Binds <$> Frontends h !! frontend) in
  match r with
  | Some binds => ret (binds, None)
  | None => ret ([], Some "client: frontend not found")
  end.

Definition api_FrontendCreate (f : Frontend) : M HAProxy error :=
  command (FrontendCreate f) (λ h,
    match Frontends h !! Frontend_Name f with
    | Some _ => None
    | None =>
        Some (set_Frontends
                (<[Frontend_Name f :=
                     {| Section_Frontend := f; Section_Binds := [];
                        Section_SwitchingRules := [] |}]> (Frontends h)) h)
    end).

Definition api_FrontendEdit (f : Frontend) : M HAProxy error :=
  command (FrontendEdit f) (λ h,
    match Frontends h !! Frontend_Name f with
    | Some s =>
        Some (set_Frontends
                (<[Frontend_Name f :=
                     {| Section_Frontend := f; Section_Binds := Section_Binds s;
                        Section_SwitchingRules := Section_SwitchingRules s |}]>
                   (Frontends h)) h)
    | None => None
    end).

Definition api_FrontendDelete (name : string) : M HAProxy error :=
  command (FrontendDelete name) (λ h,
    match Frontends h !! name with
    | Some _ => Some (set_Frontends (delete name (Frontends h)) h)
    | None => None
    end).

Definition hasBind (name : string) (binds : list Bind) : bool :=
  existsb (λ b, bool_decide (Bind_Name b = name)) binds.

Definition replaceBind (b : Bind) (binds : list Bind) : list Bind :=
  map (λ x, if bool_decide (Bind_Name x = Bind_Name b) then b else x) binds.

Definition set_Binds (binds : list Bind) (s : FrontendSection) : FrontendSection :=
  {| Section_Frontend := Section_Frontend s; Section_Binds := binds;
     Section_SwitchingRules := Section_SwitchingRules s |}.

Definition api_FrontendBindCreate (frontend : string) (b : Bind) : M HAProxy error :=
  command (FrontendBindCreate frontend b) (λ h,
    match Frontends h !! frontend with
    | Some s =>
        if hasBind (Bind_Name b) (Section_Binds s) then None
        else Some (set_Frontends
                     (<[frontend := set_Binds (Section_Binds s ++ [b]) s]> (Frontends h)) h)
    | None => None
    end).

Definition api_FrontendBindEdit (frontend : string) (b : Bind) : M HAProxy error :=
  command (FrontendBindEdit frontend b) (λ h,
    match Frontends h !! frontend with
    | Some s =>
        if hasBind (Bind_Name b) (Section_Binds s)
        then Some (set_Frontends
                     (<[frontend := set_Binds (replaceBind b (Section_Binds s)) s]>
                        (Frontends h)) h)
        else None
    | None => None
    end).

Definition set_offload (ssl : bool) (certDir alpn : string) (b : Bind) : Bind :=
  {| Bind_Address := Bind_Address b; Bind_Port := Bind_Port b; Bind_Name := Bind_Name b;
     Bind_AcceptProxy := Bind_AcceptProxy b; Bind_V4v6 := Bind_V4v6 b;
     Bind_Ssl := ssl; Bind_SslCertificate := certDir; Bind_Alpn := alpn;
     Bind_SslCafile := Bind_SslCafile b; Bind_Verify := Bind_Verify b |}.

(** Offload is a property of the binds of the frontend: enabling it sets
    the certificate directory and the negotiated-protocol list on each. *)
Definition api_FrontendEnableSSLOffload (frontend certDir alpn : string) : M HAProxy error :=
  command (FrontendEnableSSLOffload frontend certDir alpn) (λ h,
    match Frontends h !! frontend with
    | Some s =>
        Some (set_Frontends
                (<[frontend := set_Binds (map (set_offload true certDir alpn) (Section_Binds s)) s]>
                   (Frontends h)) h)
    | None => None
    end).

Definition api_FrontendDisableSSLOffload (frontend : string) : M HAProxy error :=
  command (FrontendDisableSSLOffload frontend) (λ h,
    match Frontends h !! frontend with
    | Some s =>
        Some (set_Frontends
                (<[frontend := set_Binds
                                 (map (set_offload false EmptyString EmptyString) (Section_Binds s)) s]>
                   (Frontends h)) h)
    | None => None
    end).

Definition api_BackendCreate (b : Backend) : M HAProxy error :=
  command (BackendCreate b) (λ h,
    match Backends h !! Backend_Name b with
    | Some _ => None
    | None =>
        Some (set_Backends
                (<[Backend_Name b := {| Section_Backend := b; Section_Servers := [] |}]>
                   (Backends h)) h)
    end).

Definition api_BackendDelete (name : string) : M HAProxy error :=
  command (BackendDelete name) (λ h,
    match Backends h !! name with
    | Some _ => Some (set_Backends (delete name (Backends h)) h)
    | None => None
    end).

Definition api_BackendServerCreate (backend : string) (srv : Server) : M HAProxy error :=
  command (BackendServerCreate backend srv) (λ h,
    match Backends h !! backend with
    | Some s =>
        if existsb (λ x, bool_decide (Server_Name x = Server_Name srv)) (Section_Servers s)
        then None
        else Some (set_Backends
                     (<[backend := {| Section_Backend := Section_Backend s;
                                      Section_Servers := Section_Servers s ++ [srv] |}]>
                        (Backends h)) h)
    | None => None
    end).

Definition api_BackendSwitchingRuleCreate (frontend : string) (r : BackendSwitchingRule)
  : M HAProxy error :=
  command (BackendSwitchingRuleCreate frontend r) (λ h,
    match Frontends h !! frontend with
    | Some s =>
        Some (set_Frontends
                (<[frontend := {| Section_Frontend := Section_Frontend s;
                                  Section_Binds := Section_Binds s;
                                  Section_SwitchingRules := r :: Section_SwitchingRules s |}]>
                   (Frontends h)) h)
    | None => None
    end).

(** The handlers work on the controller configuration and the client. *)
Definition World : Type := ControllerCfg * HAProxy.

Definition onCfg {A} (m : M ControllerCfg A) : M World A :=
  λ w, match m w.1 with
       | Ret a c => Ret a (c, w.2)
       | Panic c => Panic (c, w.2)
       end.

Definition onApi {A} (m : M HAProxy A) : M World A :=
  λ w, match m w.2 with
       | Ret a h => Ret a (w.1, h)
       | Panic h => Panic (w.1, h)
       end.

(** ** The HTTPS handler *)

Record HTTPS := {
  HTTPS_Enabled : bool;
  HTTPS_IPv4 : bool;
  HTTPS_IPv6 : bool;
  HTTPS_Port : Z;
  HTTPS_AddrIPv4 : string;
  HTTPS_AddrIPv6 : string;
  HTTPS_CertDir : string;
  HTTPS_Alpn : string;
}.

Definition set_Alpn (alpn : string) (h : HTTPS) : HTTPS :=
  {| HTTPS_Enabled := HTTPS_Enabled h; HTTPS_IPv4 := HTTPS_IPv4 h; HTTPS_IPv6 := HTTPS_IPv6 h;
     HTTPS_Port := HTTPS_Port h; HTTPS_AddrIPv4 := HTTPS_AddrIPv4 h;
     HTTPS_AddrIPv6 := HTTPS_AddrIPv6 h; HTTPS_CertDir := HTTPS_CertDir h;
     HTTPS_Alpn := alpn |}.

(** A [models.Bind] literal: the fields not listed are zero. *)
Definition mkBind (address : string) (port : Z) (name : string) (acceptProxy v4v6 : bool) : Bind :=
  {| Bind_Address := address; Bind_Port := port; Bind_Name := name;
     Bind_AcceptProxy := acceptProxy; Bind_V4v6 := v4v6;
     Bind_Ssl := false; Bind_SslCertificate := EmptyString; Bind_Alpn := EmptyString;
     Bind_SslCafile := EmptyString; Bind_Verify := EmptyString |}.

Definition bindList (h : HTTPS) (passhthrough : bool) : list Bind :=
  (if HTTPS_IPv4 h
   then [mkBind (if passhthrough then "127.0.0.1" else HTTPS_AddrIPv4 h)
           (HTTPS_Port h) "v4" passhthrough false]
   else [])
  ++
  (if HTTPS_IPv6 h
   then [mkBind (if passhthrough then "::1" else HTTPS_AddrIPv6 h)
           (HTTPS_Port h) "v6" passhthrough true]
   else []).

Definition set_clientAuth (caFile verify : string) (b : Bind) : Bind :=
  {| Bind_Address := Bind_Address b; Bind_Port := Bind_Port b; Bind_Name := Bind_Name b;
     Bind_AcceptProxy := Bind_AcceptProxy b; Bind_V4v6 := Bind_V4v6 b;
     Bind_Ssl := Bind_Ssl b; Bind_SslCertificate := Bind_SslCertificate b;
     Bind_Alpn := Bind_Alpn b;
     Bind_SslCafile := caFile; Bind_Verify := verify |}.

(** [utils.Errors]: [Add] collects the errors that are not nil, [Result]
    is nil when none was collected. *)
Definition errors_Result (errs : list error) : error :=
  match omap id errs with
  | [] => None
  | msgs => Some (foldr String.append EmptyString msgs)
  end.

Section Handler.

(** Declared in other packages of the controller: the boolean and duration
    parsers of [utils], and the path of the SNI map file. *)
Variable GetBoolValue : string → string → bool * error.
Variable ParseTime : string → Z * error.
Variable GetMapPath_MAP_SNI : string.

(** The two [for i := range binds] loops of [handleClientTLSAuth]: set
    the CA file and the verify mode on a bind, push it, and return at
    the first error. *)
Fixpoint editClientAuth (frontend caFile verify : string) (binds : list Bind)
  : M HAProxy error :=
  match binds with
  | [] => ret None
  | b :: rest =>
      let* err := api_FrontendBindEdit frontend (set_clientAuth caFile verify b) in
      match err with
      | Some e => ret (Some e)
      | None => editClientAuth frontend caFile verify rest
      end
  end.

Definition handleClientTLSAuth (h : HTTPS) (k : K8s) : M World (bool * error) :=
  let annTLSAuth := GetValue "client-ca" [mainAnnotations k] in
  let annTLSVerify := GetValue "client-crt-optional" [mainAnnotations k] in
  if bool_decide (annTLSAuth = EmptyString) then ret (false, None)
  else
    let* cfg := onCfg get in
    let* (binds, err) := onApi (api_FrontendBindsGet (Cfg_FrontHTTPS cfg)) in
    match err with
    | Some e => ret (false, Some e)
    | None =>
        let '(caFile, certErr) :=
          HandleTLSSecret (Cfg_Certificates cfg) k
            {| SecretCtx_DefaultNS := EmptyString;
               SecretCtx_SecretPath := annTLSAuth;
               SecretCtx_SecretType := CA_CERT |} in
        let err : error :=
          match certErr with
          | None => None
          | Some ErrCertNotFound => None
          | Some (ErrCertOther msg) => Some msg
          end in
        let '(enabled, annErr) := GetBoolValue annTLSVerify "client-crt-optional" in
        let verify := if enabled then "optional" else "required" in
        match binds with
        | [] => panic
        | b0 :: _ =>
            if bool_decide (Bind_SslCafile b0 = caFile) && bool_decide (Bind_Verify b0 = verify)
            then ret (false, err)
            else if bool_decide (caFile = EmptyString)
            then
              let* err := onApi (editClientAuth (Cfg_FrontHTTPS cfg)
                                   EmptyString EmptyString binds) in
              match err with
              | Some e => ret (false, Some e)
              | None => ret (true, None)
              end
            else
              let* err := onApi (editClientAuth (Cfg_FrontHTTPS cfg) caFile verify binds) in
              match err with
              | Some e => ret (false, Some e)
              | None => ret (true, None)
              end
        end
    end.

Fixpoint editBinds (frontend : string) (binds : list Bind) : M HAProxy error :=
  match binds with
  | [] => ret None
  | b :: rest =>
      let* err := api_FrontendBindEdit frontend b in
      match err with
      | Some e => ret (Some e)
      | None => editBinds frontend rest
      end
  end.

Definition toggleSSLPassthrough (h : HTTPS) (passthrough : bool) : M World error :=
  let* cfg := onCfg get in
  let* err := onApi (editBinds (Cfg_FrontHTTPS cfg) (bindList h passthrough)) in
  match err with
  | Some e => ret (Some e)
  | None =>
      if Cfg_HTTPS cfg
      then
        let* e := onApi (api_FrontendEnableSSLOffload (Cfg_FrontHTTPS cfg)
                           (HTTPS_CertDir h) (HTTPS_Alpn h)) in
        let* _ := logger_Panic e in
        ret None
      else ret None
  end.

Fixpoint createBinds (frontend : string) (binds : list Bind) : M HAProxy error :=
  match binds with
  | [] => ret None
  | b :: rest =>
      let* err := api_FrontendBindCreate frontend b in
      match err with
      | Some e => ret (Some ("cannot create bind for SSL Passthrough: " +:+ e))
      | None => createBinds frontend rest
      end
  end.

Definition enableSSLPassthrough (h : HTTPS) : M World error :=
  let* cfg := onCfg get in
  let frontend :=
    {| Frontend_Name := Cfg_FrontSSL cfg;
       Frontend_Mode := "tcp";
       Frontend_LogFormat :=
         "'%ci:%cp [%t] %ft %b/%s %Tw/%Tc/%Tt %B %ts %ac/%fc/%bc/%sc/%rc %sq/%bq %hr %hs haproxy.MAP_SNI: %[var(sess.sni)]'";
       Frontend_DefaultBackend := Cfg_BackSSL cfg |} in
  let* err := onApi (api_FrontendCreate frontend) in
  match err with
  | Some e => ret (Some e)
  | None =>
      let* err := onApi (createBinds (Cfg_FrontSSL cfg) (bindList h false)) in
      match err with
      | Some e => ret (Some e)
      | None =>
          let* e1 := onApi (api_BackendCreate
                              {| Backend_Name := Cfg_BackSSL cfg; Backend_Mode := "tcp" |}) in
          let* e2 := onApi (api_BackendServerCreate (Cfg_BackSSL cfg)
                              {| Server_Name := Cfg_FrontHTTPS cfg;
                                 Server_Address := "127.0.0.1";
                                 Server_Port := HTTPS_Port h;
                                 Server_SendProxyV2 := "enabled" |}) in
          let* e3 := onApi (api_BackendSwitchingRuleCreate (Cfg_FrontSSL cfg)
                              {| BackendSwitchingRule_Index := 0;
                                 BackendSwitchingRule_Name :=
                                   "%[var(txn.sni_match),field(1,.)]" |}) in
          let* e4 := toggleSSLPassthrough h true in
          ret (errors_Result [e1; e2; e3; e4])
      end
  end.

Definition disableSSLPassthrough (h : HTTPS) : M World error :=
  let* cfg := onCfg get in
  let* err := onApi (api_FrontendDelete (Cfg_FrontSSL cfg)) in
  match err with
  | Some e => ret (Some e)
  | None =>
      let* _ := onCfg (HAProxyRules_DeleteFrontend (Cfg_FrontSSL cfg)) in
      let* err := onApi (api_BackendDelete (Cfg_BackSSL cfg)) in
      match err with
      | Some e => ret (Some e)
      | None => toggleSSLPassthrough h false
      end
  end.

Definition sslPassthroughRules (h : HTTPS) (k : K8s) : M World error :=
  let annTimeout := GetValue "timeout-client" [mainAnnotations k] in
  let inspectTimeout :=
    if bool_decide (annTimeout ≠ EmptyString)
    then match ParseTime annTimeout with
         | (value, None) => value
         | (_, Some _) => 5000
         end
    else 5000 in
  let* cfg := onCfg get in
  let* _ := onCfg (HAProxyRules_AddRule ReqAcceptContent false (Cfg_FrontSSL cfg)) in
  let* _ := onCfg (HAProxyRules_AddRule (ReqInspectDelay inspectTimeout) false
                     (Cfg_FrontSSL cfg)) in
  let* _ := onCfg (HAProxyRules_AddRule
                     (ReqSetVar "sni" "sess" "req_ssl_sni" EmptyString) false
                     (Cfg_FrontSSL cfg)) in
  let* _ := onCfg (HAProxyRules_AddRule
                     (ReqSetVar "sni_match" "txn"
                        ("req_ssl_sni,map(" +:+ GetMapPath_MAP_SNI +:+ ")") EmptyString)
                     false (Cfg_FrontSSL cfg)) in
  let* _ := onCfg (HAProxyRules_AddRule
                     (ReqSetVar "sni_match" "txn"
                        ("req_ssl_sni,regsub(^[^.]*,,),map(" +:+ GetMapPath_MAP_SNI +:+ ")")
                        "!{ var(txn.sni_match) -m found }")
                     false (Cfg_FrontSSL cfg)) in
  ret None.

(** [HTTPS.Update].  The first part (ssl-offload) either returns early
    with the error of the client-authentication step, or yields the
    reload flag so far. *)
Definition updateOffload (h : HTTPS) (k : K8s) : M World ((bool * error) + bool) :=
  let* cfg := onCfg get in
  if FrontendCertsEnabled (Cfg_Certificates cfg)
  then
    let* reload :=
      if negb (Cfg_HTTPS cfg)
      then
        let* e := onApi (api_FrontendEnableSSLOffload (Cfg_FrontHTTPS cfg)
                           (HTTPS_CertDir h) (HTTPS_Alpn h)) in
        let* _ := logger_Panic e in
        let* _ := onCfg (modify (set_HTTPS true)) in
        ret true
      else ret false in
    let* (r, err) := handleClientTLSAuth h k in
    match err with
    | Some e => ret (inl (r, Some e))
    | None => ret (inr (reload || r))
    end
  else if Cfg_HTTPS cfg
  then
    let* e := onApi (api_FrontendDisableSSLOffload (Cfg_FrontHTTPS cfg)) in
    let* _ := logger_Panic e in
    let* _ := onCfg (modify (set_HTTPS false)) in
    ret (inr true)
  else ret (inr false).

Definition updatePassthrough (h : HTTPS) (k : K8s) (reload : bool) : M World bool :=
  let* cfg := onCfg get in
  let* (_, errFtSSL) := onApi (api_FrontendGet (Cfg_FrontSSL cfg)) in
  if Cfg_SSLPassthrough cfg
  then
    let* reload :=
      match errFtSSL with
      | Some _ =>
          let* _ := enableSSLPassthrough h in
          let* _ := onCfg (modify (set_SSLPassthrough true)) in
          ret true
      | None => ret reload
      end in
    let* _ := sslPassthroughRules h k in
    ret reload
  else
    match errFtSSL with
    | None =>
        let* _ := disableSSLPassthrough h in
        let* _ := onCfg (modify (set_SSLPassthrough false)) in
        ret true
    | Some _ => ret reload
    end.

Definition Update (h : HTTPS) (k : K8s) : M World (bool * error) :=
  if negb (HTTPS_Enabled h) then ret (false, None)
  else
    let h := set_Alpn (GetValue "tls-alpn" [mainAnnotations k]) h in
    let* r := updateOffload h k in
    match r with
    | inl early => ret early
    | inr reload =>
        let* reload := updatePassthrough h k reload in
        let* cfg := onCfg get in
        if Updated (Cfg_Certificates cfg) then ret (true, None) else ret (reload, None)
    end.

End Handler.

(** ** Global and defaults synchronisation *)

Section Sections.

(** [models.Global], [models.Defaults] and [models.LogTarget] are
    declared in the client library; [deep.Equal] compares them
    structurally. *)
Context {Global Defaults LogTarget Env : Type}.
Context `{EqDecision Global, EqDecision Defaults, EqDecision LogTarget}.

Inductive SectionCall :=
| GlobalGetConfiguration
| GlobalGetLogTargets
| GlobalPushConfiguration (g : Global)
| GlobalDeleteLogTargets
| GlobalCreateLogTargets (lg : list LogTarget)
| DefaultsGetConfiguration
| DefaultsPushConfiguration (d : Defaults).

(** Modelled from the spec: the part of the configuration-API client
    that serves the Global section, the log targets and the Defaults
    section.  A call fails when [SectionFault] says so and then changes
    nothing; every call issued is appended to [SectionCalls]. *)
Record SectionsClient := {
  LiveGlobal : Global;
  LiveLogTargets : list LogTarget;
  LiveDefaults : Defaults;
  SectionCalls : list SectionCall;
  SectionFault : SectionCall → bool;
}.

Definition logSectionCall (c : SectionCall) (h : SectionsClient) : SectionsClient :=
  {| LiveGlobal := LiveGlobal h; LiveLogTargets := LiveLogTargets h;
     LiveDefaults := LiveDefaults h; SectionCalls := SectionCalls h ++ [c];
     SectionFault := SectionFault h |}.

Definition set_LiveGlobal (g : Global) (h : SectionsClient) : SectionsClient :=
  {| LiveGlobal := g; LiveLogTargets := LiveLogTargets h;
     LiveDefaults := LiveDefaults h; SectionCalls := SectionCalls h;
     SectionFault := SectionFault h |}.

Definition set_LiveLogTargets (lg : list LogTarget) (h : SectionsClient) : SectionsClient :=
  {| LiveGlobal := LiveGlobal h; LiveLogTargets := lg;
     LiveDefaults := LiveDefaults h; SectionCalls := SectionCalls h;
     SectionFault := SectionFault h |}.

Definition set_LiveDefaults (d : Defaults) (h : SectionsClient) : SectionsClient :=
  {| LiveGlobal := LiveGlobal h; LiveLogTargets := LiveLogTargets h;
     LiveDefaults := d; SectionCalls := SectionCalls h;
     SectionFault := SectionFault h |}.

Definition sectionRequest {A} (c : SectionCall) (serve : SectionsClient → A)
  : M SectionsClient (option A) :=
  λ h, if SectionFault h c then Ret None (logSectionCall c h)
       else Ret (Some (serve h)) (logSectionCall c h).

Definition sectionCommand (c : SectionCall) (apply : SectionsClient → SectionsClient)
  : M SectionsClient error :=
  λ h, if SectionFault h c then Ret (Some "client: call failed") (logSectionCall c h)
       else Ret None (apply (logSectionCall c h)).

Definition api_GlobalGetConfiguration : M SectionsClient (option Global) :=
  sectionRequest GlobalGetConfiguration LiveGlobal.
Definition api_GlobalGetLogTargets : M SectionsClient (option (list LogTarget)) :=
  sectionRequest GlobalGetLogTargets LiveLogTargets.
Definition api_GlobalPushConfiguration (g : Global) : M SectionsClient error :=
  sectionCommand (GlobalPushConfiguration g) (set_LiveGlobal g).
Definition api_GlobalDeleteLogTargets : M SectionsClient error :=
  sectionCommand GlobalDeleteLogTargets (set_LiveLogTargets []).
Definition api_GlobalCreateLogTargets (lg : list LogTarget) : M SectionsClient error :=
  sectionCommand (GlobalCreateLogTargets lg)
    (λ h, set_LiveLogTargets (LiveLogTargets h ++ lg) h).
Definition api_DefaultsGetConfiguration : M SectionsClient (option Defaults) :=
  sectionRequest DefaultsGetConfiguration LiveDefaults.
Definition api_DefaultsPushConfiguration (d : Defaults) : M SectionsClient error :=
  sectionCommand (DefaultsPushConfiguration d) (set_LiveDefaults d).

Definition sectionMutating (c : SectionCall) : bool :=
  match c with
  | GlobalGetConfiguration | GlobalGetLogTargets | DefaultsGetConfiguration => false
  | _ => true
  end.

(** An annotation handler of the Global section: a field setter on the
    desired object and the desired log targets. *)
Record GlobalAnnotation := {
  Global_GetName : string;
  Global_Process : string → Global * list LogTarget → (Global * list LogTarget) * error;
}.

Record DefaultsAnnotation := {
  Defaults_GetName : string;
  Defaults_Process : string → Defaults → Defaults * error;
}.

(** The custom resources of the store. *)
Record CR := {
  CR_Global : option Global;
  CR_Defaults : option Defaults;
}.

(** Declared in other packages of the controller: the zero values of the models,
    the handler catalogues, the enforced settings of [configuration],
    and the two snippet updaters, of which only the result is used (the
    snippets they push are not part of the client model). *)
Variable zeroGlobal : Global.
Variable zeroDefaults : Defaults.
Variable GetGlobalAnnotations : list GlobalAnnotation.
Variable GetDefaultsAnnotations : list DefaultsAnnotation.
Variable SetGlobal : Global → Env → Global.
Variable SetDefaults : Defaults → Defaults.
Variable UpdateGlobalCfgSnippet : bool * error.
Variable UpdateFrontendCfgSnippet : list string → bool * error.

Variable Store : K8s.
Variable StoreCR : CR.
Variable Cfg_Env : Env.

(** The desired Global object and log targets, before the enforced
    settings are applied. *)
Definition desiredGlobal : Global * list LogTarget :=
  match CR_Global StoreCR with
  | Some g => (g, [])
  | None =>
      foldl (λ acc a,
               fst (Global_Process a (GetValue (Global_GetName a) [mainAnnotations Store]) acc))
            (zeroGlobal, []) GetGlobalAnnotations
  end.

Definition desiredDefaults : Defaults :=
  match CR_Defaults StoreCR with
  | Some d => d
  | None =>
      foldl (λ acc a,
               fst (Defaults_Process a
                      (GetValue (Defaults_GetName a) [mainAnnotations Store]) acc))
            zeroDefaults GetDefaultsAnnotations
  end.

(** [globalCfg] returns [(reload, restart)]. *)
Definition globalCfg : M SectionsClient (bool * bool) :=
  let* global := api_GlobalGetConfiguration in
  match global with
  | None => ret (false, false)
  | Some global =>
      let* lg := api_GlobalGetLogTargets in
      match lg with
      | None => ret (false, false)
      | Some lg =>
          let newGlobal := SetGlobal desiredGlobal.1 Cfg_Env in
          let newLg := desiredGlobal.2 in
          let* restart :=
            if bool_decide (newGlobal ≠ global)
            then let* _ := api_GlobalPushConfiguration newGlobal in ret true
            else ret false in
          let* restart :=
            if bool_decide (newLg ≠ lg)
            then
              let* _ := api_GlobalDeleteLogTargets in
              let* _ := api_GlobalCreateLogTargets newLg in
              ret true
            else ret restart in
          let restart := if UpdateGlobalCfgSnippet.1 then true else restart in
          let reload :=
            if (UpdateFrontendCfgSnippet ["http"; "https"; "stats"]).1 then true else false in
          ret (reload, restart)
      end
  end.

Definition defaultsCfg : M SectionsClient bool :=
  let* defaults := api_DefaultsGetConfiguration in
  match defaults with
  | None => ret false
  | Some defaults =>
      let newDefaults := SetDefaults desiredDefaults in
      if bool_decide (newDefaults ≠ defaults)
      then
        let* err := api_DefaultsPushConfiguration newDefaults in
        match err with
        | Some _ => ret false
        | None => ret true
        end
      else ret false
  end.

End Sections.

(** ** Default service *)

(** [strings.Split(s, sep)] for a one-character separator. *)
Fixpoint Split (s : string) (sep : Ascii.ascii) : list string :=
  match s with
  | EmptyString => [EmptyString]
  | String c rest =>
      if Ascii.eqb c sep then EmptyString :: Split rest sep
      else match Split rest sep with
           | part :: parts => String c part :: parts
           | [] => [String c EmptyString]
           end
  end.

Section DefaultService.

(** Declared in other packages of the controller: the service subsystem, and the
    value of the command-line parameter [default-backend-service], which
    [GetValue] resolves when it is given no annotation source. *)
Variable ServiceCtx : Type.
Variable NewCtx : K8s → Ingress → option IngressPath → bool → ServiceCtx * error.
Variable GetStatus : ServiceCtx → Status.
Variable HandleBackend : ServiceCtx → K8s → M HAProxy (bool * string * error).
Variable HandleEndpoints : ServiceCtx → K8s → Certificates → M HAProxy bool.
Variable defaultBackendService : string.

Variable Store : K8s.

(** The loop of [setDefaultService] over the frontend names. *)
Fixpoint editDefaultBackend (backendName : string) (frontends : list string)
    (ftReload : bool) : M HAProxy (bool * error) :=
  match frontends with
  | [] => ret (ftReload, None)
  | frontendName :: rest =>
      let* (frontend, _) := api_FrontendGet frontendName in
      let frontend :=
        {| Frontend_Name := Frontend_Name frontend;
           Frontend_Mode := Frontend_Mode frontend;
           Frontend_LogFormat := Frontend_LogFormat frontend;
           Frontend_DefaultBackend := backendName |} in
      let* err := api_FrontendEdit frontend in
      match err with
      | Some e => ret (ftReload, Some e)
      | None => editDefaultBackend backendName rest true
      end
  end.

Definition setDefaultService (ingress : Ingress) (frontends : list string)
  : M World (bool * error) :=
  match frontends with
  | [] => panic
  | frontend0 :: _ =>
      let* (frontend, err) := onApi (api_FrontendGet frontend0) in
      match err with
      | Some e => ret (false, Some e)
      | None =>
          let tcpService := bool_decide (Frontend_Mode frontend = "tcp") in
          let '(svc, err) := NewCtx Store ingress (Ingress_DefaultBackend ingress) tcpService in
          match err with
          | Some e => ret (false, Some e)
          | None =>
              if bool_decide (GetStatus svc = DELETED) then ret (false, None)
              else
                let* (bdReload, backendName, err) := onApi (HandleBackend svc Store) in
                match err with
                | Some e => ret (false, Some e)
                | None =>
                    let* (ftReload, err) :=
                      if bool_decide (Frontend_DefaultBackend frontend ≠ backendName)
                      then onApi (editDefaultBackend backendName frontends false)
                      else ret (false, None) in
                    match err with
                    | Some e => ret (false, Some e)
                    | None =>
                        let* _ := onCfg (modify (λ c,
                                    set_ActiveBackends ({[backendName]} ∪ Cfg_ActiveBackends c) c)) in
                        let* cfg := onCfg get in
                        let* endpointsReload :=
                          onApi (HandleEndpoints svc Store (Cfg_Certificates cfg)) in
                        ret (bdReload || ftReload || endpointsReload, None)
                    end
                end
          end
      end
  end.

(** [handleDefaultService].  [service.Ports[0]] is an index expression
    on a slice: it panics when the slice is empty. *)
Definition handleDefaultService : M World bool :=
  let dsvcData := defaultBackendService in
  if bool_decide (dsvcData = EmptyString) then ret false
  else
    match Split dsvcData "/"%char with
    | [dsvc0; dsvc1] =>
        if bool_decide (dsvc0 = EmptyString) || bool_decide (dsvc1 = EmptyString)
        then ret false
        else
          match K8s_Namespaces Store !! dsvc0 with
          | None => ret false
          | Some namespace =>
              match Namespace_Services namespace !! dsvc1 with
              | None => ret false
              | Some service =>
                  match Service_Ports service with
                  | [] => panic
                  | port0 :: _ =>
                      let ingress :=
                        {| Ingress_Namespace := Namespace_Name namespace;
                           Ingress_Name := "DefaultService";
                           Ingress_Class := EmptyString;
                           Ingress_Annotations := ∅;
                           Ingress_DefaultBackend :=
                             Some {| IngressPath_SvcName := Service_Name service;
                                     IngressPath_SvcPortInt := ServicePort_Port port0;
                                     IngressPath_IsDefaultBackend := true |};
                           Ingress_Status := EMPTY |} in
                      let* cfg := onCfg get in
                      let* (reload, err) :=
                        setDefaultService ingress [Cfg_FrontHTTP cfg; Cfg_FrontHTTPS cfg] in
                      ret reload
                  end
              end
          end
    | _ => ret false
    end.

End DefaultService.

(** ** The global pass *)

(** [handleDefaultCert]: the secret named by the [ssl-certificate]
    annotation is handed to the certificates manager as the default
    certificate; its error is logged only.  The answer is the request
    made, if any. *)
Definition handleDefaultCert (k : K8s) : M World (option (string * option CertError)) :=
  let secretAnn := GetValue "ssl-certificate" [mainAnnotations k] in
  if bool_decide (secretAnn = EmptyString) then ret None
  else
    let* cfg := onCfg get in
    ret (Some (HandleTLSSecret (Cfg_Certificates cfg) k
                 {| SecretCtx_DefaultNS := EmptyString;
                    SecretCtx_SecretPath := secretAnn;
                    SecretCtx_SecretType := FT_DEFAULT_CERT |})).

Section GlobalPass.

Context {Global Defaults LogTarget Env : Type}.
Context `{EqDecision Global, EqDecision Defaults, EqDecision LogTarget}.

Variable zeroGlobal : Global.
Variable zeroDefaults : Defaults.
Variable GetGlobalAnnotations : list (@GlobalAnnotation Global LogTarget).
Variable GetDefaultsAnnotations : list (@DefaultsAnnotation Defaults).
Variable SetGlobal : Global → Env → Global.
Variable SetDefaults : Defaults → Defaults.
Variable UpdateGlobalCfgSnippet : bool * error.
Variable UpdateFrontendCfgSnippet : list string → bool * error.
Variable ServiceCtx : Type.
Variable NewCtx : K8s → Ingress → option IngressPath → bool → ServiceCtx * error.
Variable GetStatus : ServiceCtx → Status.
Variable HandleBackend : ServiceCtx → K8s → M HAProxy (bool * string * error).
Variable HandleEndpoints : ServiceCtx → K8s → Certificates → M HAProxy bool.
Variable defaultBackendService : string.
Variable GetBoolValue : string → string → bool * error.
Variable GetFrontendAnnotations : Ingress → K8s → list FrontendAnnotation.
Variable RuleID : Type.
Variable GetID : Rule → RuleID.

Variable Store : K8s.
Variable StoreCR : @CR Global Defaults.
Variable Cfg_Env : Env.

(** The global pass works on both parts of the client and on the
    controller configuration. *)
Definition Pass : Type := @SectionsClient Global Defaults LogTarget * World.

Definition onSections {A} (m : M (@SectionsClient Global Defaults LogTarget) A) : M Pass A :=
  λ p, match m p.1 with
       | Ret a c => Ret a (c, p.2)
       | Panic c => Panic (c, p.2)
       end.

Definition onWorld {A} (m : M World A) : M Pass A :=
  λ p, match m p.2 with
       | Ret a w => Ret a (p.1, w)
       | Panic w => Panic (p.1, w)
       end.

(** [handleGlobalConfig] returns [(reload, restart)]. *)
Definition handleGlobalConfig : M Pass (bool * bool) :=
  let* (reload, restart) :=
    onSections (globalCfg zeroGlobal GetGlobalAnnotations SetGlobal UpdateGlobalCfgSnippet
                  UpdateFrontendCfgSnippet Store StoreCR Cfg_Env) in
  let* r := onSections (defaultsCfg zeroDefaults GetDefaultsAnnotations SetDefaults
                          Store StoreCR) in
  let reload := r || reload in
  let* _ := onWorld (handleDefaultCert Store) in
  let* r := onWorld (handleDefaultService ServiceCtx NewCtx GetStatus HandleBackend
                       HandleEndpoints defaultBackendService Store) in
  let reload := r || reload in
  let* _ := onWorld (onCfg (handleIngressAnnotations GetBoolValue GetFrontendAnnotations
                              RuleID GetID Store zeroIngress)) in
  ret (reload, restart).

End GlobalPass.

(** ** One path of an ingress *)

Section IngressPathHandling.

(** Declared in other packages of the controller: the service subsystem,
    the boolean parser, and the route subsystem with its map files and its
    registry [route.CustomRoutes] of custom routes, keyed by backend
    name. *)
Variable ServiceCtx : Type.
Variable NewCtx : K8s → Ingress → option IngressPath → bool → ServiceCtx * error.
Variable GetStatus : ServiceCtx → Status.
Variable GetService : ServiceCtx → Service.
Variable HandleBackend : ServiceCtx → K8s → M HAProxy (bool * string * error).
Variable HandleEndpoints : ServiceCtx → K8s → Certificates → M HAProxy bool.
Variable GetBoolValue : string → string → bool * error.
Variable RuleID : Type.
Variable Maps : Type.
Variable CustomRoute : Type.

Record Route := {
  Route_Host : string;
  Route_Path : option IngressPath;
  Route_HAProxyRules : list RuleID;
  Route_BackendName : string;
  Route_SSLPassthrough : bool;
}.

(** What [handleIngressPath] works on: the controller configuration and
    the client, the custom routes, and the map files. *)
Record PathState := {
  Path_World : World;
  Path_CustomRoutes : gmap string CustomRoute;
  Path_MapFiles : Maps;
}.

Variable AddHostPathRoute : Route → Maps → Maps * error.
Variable AddCustomRoute :
  Route → string → gmap string CustomRoute * HAProxy →
  (gmap string CustomRoute * HAProxy) * (bool * error).

Variable Store : K8s.

Definition onPathWorld {A} (m : M World A) : M PathState A :=
  λ s, match m (Path_World s) with
       | Ret a w =>
           Ret a {| Path_World := w; Path_CustomRoutes := Path_CustomRoutes s;
                    Path_MapFiles := Path_MapFiles s |}
       | Panic w =>
           Panic {| Path_World := w; Path_CustomRoutes := Path_CustomRoutes s;
                    Path_MapFiles := Path_MapFiles s |}
       end.

(** The route step of [handleIngressPath]: the route reload flag and the
    error. *)
Definition routeStep (svc : ServiceCtx) (ingRoute : Route) : M PathState (bool * error) :=
  let backendName := Route_BackendName ingRoute in
  let routeACLAnn := GetValue "route-acl" [Service_Annotations (GetService svc)] in
  if bool_decide (routeACLAnn = EmptyString)
  then
    λ s,
      let '(routes, routeReload) :=
        match Path_CustomRoutes s !! backendName with
        | Some _ => (delete backendName (Path_CustomRoutes s), true)
        | None => (Path_CustomRoutes s, false)
        end in
      let '(maps, err) := AddHostPathRoute ingRoute (Path_MapFiles s) in
      Ret (routeReload, err)
        {| Path_World := Path_World s; Path_CustomRoutes := routes; Path_MapFiles := maps |}
  else
    λ s,
      let '((routes, api), (routeReload, err)) :=
        AddCustomRoute ingRoute routeACLAnn (Path_CustomRoutes s, (Path_World s).2) in
      Ret (routeReload, err)
        {| Path_World := ((Path_World s).1, api); Path_CustomRoutes := routes;
           Path_MapFiles := Path_MapFiles s |}.

Definition handleIngressPath (ingress : Ingress) (host : string)
    (path : option IngressPath) (ruleIDs : list RuleID) : M PathState (bool * error) :=
  let* sslPassthrough :=
    onPathWorld (onCfg (sslPassthroughEnabled GetBoolValue Store ingress path)) in
  let '(svc, err) := NewCtx Store ingress path sslPassthrough in
  match err with
  | Some e => ret (false, Some e)
  | None =>
      if bool_decide (GetStatus svc = DELETED) then ret (false, None)
      else
        let* (backendReload, backendName, err) :=
          onPathWorld (onApi (HandleBackend svc Store)) in
        match err with
        | Some e => ret (false, Some e)
        | None =>
            let ingRoute :=
              {| Route_Host := host; Route_Path := path; Route_HAProxyRules := ruleIDs;
                 Route_BackendName := backendName;
                 Route_SSLPassthrough := sslPassthrough |} in
            let* (routeReload, err) := routeStep svc ingRoute in
            match err with
            | Some e => ret (false, Some e)
            | None =>
                let* _ := onPathWorld (onCfg (modify (λ c,
                            set_ActiveBackends ({[backendName]} ∪ Cfg_ActiveBackends c) c))) in
                let* cfg := onPathWorld (onCfg get) in
                let* endpointsReload :=
                  onPathWorld (onApi (HandleEndpoints svc Store (Cfg_Certificates cfg))) in
                ret (backendReload || endpointsReload || routeReload, None)
            end
        end
  end.

End IngressPathHandling.

Arguments Build_Route {RuleID}.
Arguments Route_Host {RuleID}.
Arguments Route_Path {RuleID}.
Arguments Route_HAProxyRules {RuleID}.
Arguments Route_BackendName {RuleID}.
Arguments Route_SSLPassthrough {RuleID}.
Arguments Build_PathState {Maps CustomRoute}.
Arguments Path_World {Maps CustomRoute}.
Arguments Path_CustomRoutes {Maps CustomRoute}.
Arguments Path_MapFiles {Maps CustomRoute}.

(** * Vocabulary of the properties *)

(** The IngressClass resource that the ingress refers to exists, is not
    deleted, and is controlled by this controller. *)
Definition classControlled (cc : string) (store : K8s) (ingress : Ingress) : Prop :=
  ∃ igClass, K8s_IngressClasses store !! Ingress_Class ingress = Some igClass
             ∧ IngressClass_Status igClass ≠ DELETED
             ∧ IngressClass_Controller igClass = cc.

(** The ssl-passthrough option resolves to true over the given annotation
    sources: its first non-empty value parses, without error, as true. *)
Definition resolvesTrue (GetBoolValue : string → string → bool * error)
    (sources : list (gmap string string)) : bool :=
  let v := GetValue "ssl-passthrough" sources in
  if bool_decide (v = EmptyString) then false
  else match GetBoolValue v "ssl-passthrough" with
       | (enabled, None) => enabled
       | (_, Some _) => false
       end.

(** The annotation sources [sslPassthroughEnabled] consults, in order;
    none when the namespace of the ingress is missing from the store. *)
Definition passthroughSources (store : K8s) (ingress : Ingress) (path : option IngressPath)
  : option (list (gmap string string)) :=
  match path with
  | Some p =>
      match K8s_Namespaces store !! Ingress_Namespace ingress with
      | Some ns =>
          match Namespace_Services ns !! IngressPath_SvcName p with
          | Some svc =>
              Some [Service_Annotations svc; Ingress_Annotations ingress; mainAnnotations store]
          | None => Some [Ingress_Annotations ingress; mainAnnotations store]
          end
      | None => None
      end
  | None => Some [Ingress_Annotations ingress; mainAnnotations store]
  end.

Definition sameFrontends (c c' : ControllerCfg) : Prop :=
  Cfg_FrontHTTP c' = Cfg_FrontHTTP c ∧ Cfg_FrontHTTPS c' = Cfg_FrontHTTPS c
  ∧ Cfg_FrontSSL c' = Cfg_FrontSSL c.

(** The frontends a rule is attached to, by kind of rule. *)
Definition targeted (cfg : ControllerCfg) (passthrough : bool) (rule : Rule)
    (frontends : list string) : Prop :=
  (∀ c, rule = RequestRedirect true c → frontends = [Cfg_FrontHTTP cfg])
  ∧ (∀ c, rule = RequestRedirect false c →
         frontends = [Cfg_FrontHTTP cfg; Cfg_FrontHTTPS cfg])
  ∧ (GetType rule = REQ_DENY ∨ GetType rule = REQ_CAPTURE → passthrough = true →
       frontends = [Cfg_FrontHTTP cfg; Cfg_FrontSSL cfg]
       ∧ Cfg_FrontHTTPS cfg ∉ frontends).

(** The rule is of a kind that leaves the frontends as it finds them. *)
Definition keepsFrontends (passthrough : bool) (rule : Rule) : Prop :=
  GetType rule ≠ REQ_REDIRECT
  ∧ (GetType rule = REQ_DENY ∨ GetType rule = REQ_CAPTURE → passthrough = false).

(** The live configuration after the binds of a frontend were replaced
    and some calls issued. *)
Definition withBinds (frontend : string) (s : FrontendSection) (binds : list Bind)
    (calls : list Call) (h : HAProxy) : HAProxy :=
  {| Frontends := <[frontend := set_Binds binds s]> (Frontends h);
     Backends := Backends h;
     Calls := Calls h ++ calls;
     Fault := Fault h |}.

(** What the client-authentication step asks of the HTTPS binds. *)
Record ClientAuth := {
  Auth_reference : string;   (* the client-ca annotation *)
  Auth_caFile : string;      (* the CA file the certificate handling resolves *)
  Auth_certErr : option CertError;
  Auth_verify : string;      (* the verify mode *)
}.

Definition clientAuth (GetBoolValue : string → string → bool * error)
    (k : K8s) (cfg : ControllerCfg) : ClientAuth :=
  let reference := GetValue "client-ca" [mainAnnotations k] in
  let resolved :=
    HandleTLSSecret (Cfg_Certificates cfg) k
      {| SecretCtx_DefaultNS := EmptyString; SecretCtx_SecretPath := reference;
         SecretCtx_SecretType := CA_CERT |} in
  {| Auth_reference := reference;
     Auth_caFile := resolved.1;
     Auth_certErr := resolved.2;
     Auth_verify :=
       if (GetBoolValue (GetValue "client-crt-optional" [mainAnnotations k])
             "client-crt-optional").1
       then "optional" else "required" |}.

(** The first live bind already carries the CA file and verify mode. *)
Definition authUnchanged (a : ClientAuth) (binds : list Bind) : Prop :=
  ∃ b0 rest, binds = b0 :: rest
             ∧ Bind_SslCafile b0 = Auth_caFile a ∧ Bind_Verify b0 = Auth_verify a.

(** The edit of a bind: clear both fields when no CA file was resolved,
    set them otherwise. *)
Definition authEdit (a : ClientAuth) : Bind → Bind :=
  if bool_decide (Auth_caFile a = EmptyString)
  then set_clientAuth EmptyString EmptyString
  else set_clientAuth (Auth_caFile a) (Auth_verify a).


(** ** Vocabulary of the passthrough lifecycle *)

(** The TCP frontend of SSL passthrough, its chaining server and its
    backend-switching rule, as [enableSSLPassthrough] builds them. *)
Definition passthroughFrontend (cfg : ControllerCfg) : Frontend :=
  {| Frontend_Name := Cfg_FrontSSL cfg;
     Frontend_Mode := "tcp";
     Frontend_LogFormat :=
       "'%ci:%cp [%t] %ft %b/%s %Tw/%Tc/%Tt %B %ts %ac/%fc/%bc/%sc/%rc %sq/%bq %hr %hs haproxy.MAP_SNI: %[var(sess.sni)]'";
     Frontend_DefaultBackend := Cfg_BackSSL cfg |}.

Definition chainingBackend (cfg : ControllerCfg) : Backend :=
  {| Backend_Name := Cfg_BackSSL cfg; Backend_Mode := "tcp" |}.

Definition chainingServer (h : HTTPS) (cfg : ControllerCfg) : Server :=
  {| Server_Name := Cfg_FrontHTTPS cfg; Server_Address := "127.0.0.1";
     Server_Port := HTTPS_Port h; Server_SendProxyV2 := "enabled" |}.

Definition sniSwitchingRule : BackendSwitchingRule :=
  {| BackendSwitchingRule_Index := 0;
     BackendSwitchingRule_Name := "%[var(txn.sni_match),field(1,.)]" |}.

(** The binds of the HTTPS frontend after a toggle: offload is applied
    again when it is enabled. *)
Definition toggledBinds (h : HTTPS) (cfg : ControllerCfg) (passthrough : bool) : list Bind :=
  if Cfg_HTTPS cfg
  then set_offload true (HTTPS_CertDir h) (HTTPS_Alpn h) <$> bindList h passthrough
  else bindList h passthrough.

Definition toggleCalls (h : HTTPS) (cfg : ControllerCfg) (passthrough : bool) : list Call :=
  (FrontendBindEdit (Cfg_FrontHTTPS cfg) <$> bindList h passthrough)
  ++ (if Cfg_HTTPS cfg
      then [FrontendEnableSSLOffload (Cfg_FrontHTTPS cfg) (HTTPS_CertDir h) (HTTPS_Alpn h)]
      else []).

(** The inspect delay: the timeout-client option of the config map when
    it parses, else 5000 ms. *)
Definition inspectTimeout (ParseTime : string → Z * error) (k : K8s) : Z :=
  let annTimeout := GetValue "timeout-client" [mainAnnotations k] in
  if bool_decide (annTimeout ≠ EmptyString)
  then match ParseTime annTimeout with
       | (value, None) => value
       | (_, Some _) => 5000
       end
  else 5000.

(** The rules of the passthrough frontend. *)
Definition passthroughRules (ParseTime : string → Z * error) (mapPath : string) (k : K8s)
  : list Rule :=
  [ ReqAcceptContent;
    ReqInspectDelay (inspectTimeout ParseTime k);
    ReqSetVar "sni" "sess" "req_ssl_sni" EmptyString;
    ReqSetVar "sni_match" "txn" ("req_ssl_sni,map(" +:+ mapPath +:+ ")") EmptyString;
    ReqSetVar "sni_match" "txn" ("req_ssl_sni,regsub(^[^.]*,,),map(" +:+ mapPath +:+ ")")
      "!{ var(txn.sni_match) -m found }" ].

(** A computation respects a relation on states when the state in which
    it stops is related to the one in which it starts. *)
Definition respects {A} (R : relation World) (m : M World A) : Prop :=
  ∀ w, R w (final (m w)).

(** The passthrough flag, when it is [b], stays [b]. *)
Definition keepsFlag (b : bool) : relation World :=
  λ w w', Cfg_SSLPassthrough w.1 = b → Cfg_SSLPassthrough w'.1 = b.

(** ** Concrete inputs *)

Module Example.

(** A boolean parser in the manner of [utils.GetBoolValue]. *)
Definition parseBool (value name : string) : bool * error :=
  if bool_decide (value = "true") then (true, None)
  else if bool_decide (value = "false") then (false, None)
  else (false, Some (name +:+ " annotation: unrecognized boolean value")).

Definition CONTROLLER_CLASS : string := "haproxy.org/ingress-controller".

Definition cfg0 : ControllerCfg :=
  {| Cfg_FrontHTTP := "http"; Cfg_FrontHTTPS := "https"; Cfg_FrontSSL := "ssl";
     Cfg_BackSSL := "ssl"; Cfg_HTTPS := false; Cfg_SSLPassthrough := false;
     Cfg_HAProxyRules := []; Cfg_RateLimitTables := []; Cfg_ActiveBackends := ∅;
     Cfg_Certificates :=
       {| FrontendCertsEnabled := false; Updated := false;
          HandleTLSSecret := λ _ _, (EmptyString, Some ErrCertNotFound) |} |}.

Definition configMap (annotations : gmap string string) : ConfigMaps :=
  {| ConfigMaps_Main := {| ConfigMap_Annotations := annotations |} |}.

(** Admission: an ingress without class annotation whose IngressClass
    resource is controlled by this controller. *)
Definition classStore : K8s :=
  {| K8s_Namespaces := ∅;
     K8s_IngressClasses :=
       {[ "haproxy" := {| IngressClass_Controller := CONTROLLER_CLASS;
                          IngressClass_Status := EMPTY |} ]};
     K8s_ConfigMaps := configMap ∅ |}.

Definition classedIngress : Ingress :=
  {| Ingress_Namespace := "default"; Ingress_Name := "web"; Ingress_Class := "haproxy";
     Ingress_Annotations := ∅; Ingress_DefaultBackend := None; Ingress_Status := EMPTY |}.

Definition annotatedIngress : Ingress :=
  {| Ingress_Namespace := "default"; Ingress_Name := "web"; Ingress_Class := EmptyString;
     Ingress_Annotations := {[ "ingress.class" := "haproxy" ]};
     Ingress_DefaultBackend := None; Ingress_Status := EMPTY |}.

Definition strictArgs : OSArgs :=
  {| OSArgs_EmptyIngressClass := false; OSArgs_IngressClass := "haproxy" |}.

(** Rule pipeline: handlers that produce an SSL redirect, a deny rule
    and a header rule from the annotations of the same names. *)
Definition handlers (ingress : Ingress) (store : K8s) : list FrontendAnnotation :=
  [ {| GetName := "ssl-redirect";
       Process := λ v result,
         if bool_decide (v = EmptyString) then (result, None)
         else (result ++ [RequestRedirect (parseBool v "ssl-redirect").1 "302"], None) |};
    {| GetName := "blacklist";
       Process := λ v result,
         if bool_decide (v = EmptyString) then (result, None)
         else (result ++ [ReqDeny v], None) |};
    {| GetName := "request-set-header";
       Process := λ v result,
         if bool_decide (v = EmptyString) then (result, None)
         else (result ++ [OtherRule v], None) |} ].

Definition webPath : IngressPath :=
  {| IngressPath_SvcName := "web-svc"; IngressPath_SvcPortInt := 80;
     IngressPath_IsDefaultBackend := false |}.

Definition webService (annotations : gmap string string) (ports : list ServicePort)
  : Service :=
  {| Service_Name := "web-svc"; Service_Annotations := annotations;
     Service_Ports := ports |}.

Definition webStore (svcAnnotations cmAnnotations : gmap string string)
    (ports : list ServicePort) : K8s :=
  {| K8s_Namespaces :=
       {[ "default" :=
            {| Namespace_Name := "default";
               Namespace_Services := {[ "web-svc" := webService svcAnnotations ports ]} |} ]};
     K8s_IngressClasses := ∅;
     K8s_ConfigMaps := configMap cmAnnotations |}.

Definition webIngress (annotations : gmap string string) : Ingress :=
  {| Ingress_Namespace := "default"; Ingress_Name := "web"; Ingress_Class := EmptyString;
     Ingress_Annotations := annotations;
     Ingress_DefaultBackend := None; Ingress_Status := EMPTY |}.

End Example.

Module PipelineExample.
Import Example.

(** An ingress that asks for an SSL redirect and a blacklist, with
    ssl-passthrough set on the ingress itself. *)
Definition passthroughIngress : Ingress :=
  webIngress {[ "ssl-redirect" := "true"; "blacklist" := "10.0.0.0/8";
                "ssl-passthrough" := "true" ]}.

(** An ingress with a blacklist, whose service carries the
    ssl-passthrough annotation. *)
Definition blacklistIngress : Ingress := webIngress {[ "blacklist" := "10.0.0.0/8" ]}.
Definition passthroughServiceStore : K8s :=
  webStore {[ "ssl-passthrough" := "true" ]} ∅ [ {| ServicePort_Port := 80 |} ].

(** An ingress that asks for an SSL redirect and sets a header. *)
Definition redirectHeaderIngress : Ingress :=
  webIngress {[ "ssl-redirect" := "true"; "request-set-header" := "X-Env prod" ]}.

Definition plainStore : K8s := webStore ∅ ∅ [ {| ServicePort_Port := 80 |} ].

Definition run (store : K8s) (ingress : Ingress) : Res ControllerCfg (list Rule) :=
  handleIngressAnnotations parseBool handlers Rule id store ingress cfg0.

End PipelineExample.

Module HandlerExample.
Import Example.

(** A duration parser in the manner of [utils.ParseTime]: seconds with
    the suffix [s], in milliseconds. *)
Definition parseTime (value : string) : Z * error :=
  if bool_decide (value = "5s") then (5000, None)
  else if bool_decide (value = "50s") then (50000, None)
  else (0, Some "unable to parse time").

Definition sniMap : string := "/etc/haproxy/maps/sni.map".

Definition https : HTTPS :=
  {| HTTPS_Enabled := true; HTTPS_IPv4 := true; HTTPS_IPv6 := true; HTTPS_Port := 443;
     HTTPS_AddrIPv4 := "0.0.0.0"; HTTPS_AddrIPv6 := "::";
     HTTPS_CertDir := "/etc/haproxy/certs"; HTTPS_Alpn := EmptyString |}.

Definition httpFrontend (name : string) : Frontend :=
  {| Frontend_Name := name; Frontend_Mode := "http";
     Frontend_LogFormat := EmptyString; Frontend_DefaultBackend := EmptyString |}.

Definition frontendSection (name : string) (binds : list Bind) : FrontendSection :=
  {| Section_Frontend := httpFrontend name; Section_Binds := binds;
     Section_SwitchingRules := [] |}.

Definition noFault : Call → bool := λ _, false.

(** The live configuration of a proxy with the HTTP and HTTPS
    frontends, the latter with the given binds. *)
Definition live (httpsBinds : list Bind) (fault : Call → bool) : HAProxy :=
  {| Frontends := {[ "http" := frontendSection "http" [];
                     "https" := frontendSection "https" httpsBinds ]};
     Backends := ∅; Calls := []; Fault := fault |}.

Definition certificates (enabled : bool) (caFile : string) (err : option CertError)
  : Certificates :=
  {| FrontendCertsEnabled := enabled; Updated := false;
     HandleTLSSecret := λ _ _, (caFile, err) |}.

Definition cfg (offload passthrough : bool) (certs : Certificates) : ControllerCfg :=
  {| Cfg_FrontHTTP := "http"; Cfg_FrontHTTPS := "https"; Cfg_FrontSSL := "ssl";
     Cfg_BackSSL := "ssl"; Cfg_HTTPS := offload; Cfg_SSLPassthrough := passthrough;
     Cfg_HAProxyRules := []; Cfg_RateLimitTables := []; Cfg_ActiveBackends := ∅;
     Cfg_Certificates := certs |}.

Definition store (cmAnnotations : gmap string string) : K8s :=
  {| K8s_Namespaces := ∅; K8s_IngressClasses := ∅;
     K8s_ConfigMaps := configMap cmAnnotations |}.

Definition update (k : K8s) (w : World) : Res World (bool * error) :=
  Update parseBool parseTime sniMap https k w.

Definition runClientAuth (k : K8s) (w : World) : Res World (bool * error) :=
  handleClientTLSAuth parseBool https k w.

(** The binds of the HTTPS frontend in the live configuration. *)
Definition httpsBinds (w : World) : list Bind :=
  default [] (Section_Binds <$> Frontends w.2 !! "https").

Definition caPath : string := "/etc/haproxy/certs/ca/secret_ca-bundle.pem".

(** The scenario of the specification: the config map names a CA
    bundle that resolves to [caPath]; the live HTTPS binds carry no
    client authentication. *)
Definition caStore : K8s := store {[ "client-ca" := "secret/ca-bundle" ]}.
Definition caWorld (fault : Call → bool) : World :=
  (cfg true false (certificates true caPath None), live (bindList https false) fault).

(** The reverse situation: no client-ca annotation (any more), while the
    live binds still carry client authentication. *)
Definition staleWorld : World :=
  (cfg true false (certificates true EmptyString (Some ErrCertNotFound)),
   live (set_clientAuth caPath "required" <$> bindList https false) noFault).

(** Pushes of the bind of the given name fail. *)
Definition faultOnBind (name : string) : Call → bool :=
  λ c, match c with
       | FrontendBindEdit _ b => bool_decide (Bind_Name b = name)
       | _ => false
       end.

Definition authFields (b : Bind) : string * string * string :=
  (Bind_Name b, Bind_SslCafile b, Bind_Verify b).

(** Passthrough asked for by some ingress of the pass, on a proxy that
    has no passthrough frontend yet. *)
Definition passthroughOnWorld : World :=
  (cfg false true (certificates false EmptyString None),
   live (bindList https false) noFault).

(** The config map names a CA secret that does not exist; offload is
    on, in the controller configuration and on the live binds, which
    carry no client authentication. *)
Definition missingCAStore : K8s := store {[ "client-ca" := "default/missing" ]}.
Definition missingCAWorld : World :=
  (cfg true false (certificates true EmptyString (Some ErrCertNotFound)),
   live (set_offload true "/etc/haproxy/certs" EmptyString <$> bindList https false)
     noFault).

(** The calls a run issued, after those of the world it started in. *)
Definition newCalls (w : World) (r : Res World (bool * error)) : list Call :=
  drop (length (Calls w.2)) (Calls (final r).2).

End HandlerExample.

Module SectionsExample.
Import Example.

(** The Global and Defaults sections reduced to one setting each, and
    log targets given by their address. *)
Definition client (global : string) (logTargets : list string) (defaults : string)
    (fault : @SectionCall string string string → bool)
  : @SectionsClient string string string :=
  {| LiveGlobal := global; LiveLogTargets := logTargets; LiveDefaults := defaults;
     SectionCalls := []; SectionFault := fault |}.

Definition noFault : @SectionCall string string string → bool := λ _, false.

Definition pushFails : @SectionCall string string string → bool :=
  λ c, match c with DefaultsPushConfiguration _ => true | _ => false end.

(** Handlers that set the one setting from an annotation, and add a
    log target. *)
Definition globalHandlers : list (@GlobalAnnotation string string) :=
  [ {| Global_GetName := "maxconn";
       Global_Process := λ v acc,
         if bool_decide (v = EmptyString) then (acc, None) else ((v, acc.2), None) |};
    {| Global_GetName := "syslog-server";
       Global_Process := λ v acc,
         if bool_decide (v = EmptyString) then (acc, None)
         else ((acc.1, acc.2 ++ [v]), None) |} ].

Definition defaultsHandlers : list (@DefaultsAnnotation string) :=
  [ {| Defaults_GetName := "timeout-client";
       Defaults_Process := λ v acc,
         if bool_decide (v = EmptyString) then (acc, None) else (v, None) |} ].

Definition annotations : gmap string string :=
  {[ "maxconn" := "2000"; "syslog-server" := "127.0.0.1"; "timeout-client" := "50s" ]}.

Definition store : K8s :=
  {| K8s_Namespaces := ∅; K8s_IngressClasses := ∅;
     K8s_ConfigMaps := configMap annotations |}.

Definition noCR : @CR string string := {| CR_Global := None; CR_Defaults := None |}.

Definition runGlobal (cr : @CR string string) (snippet frontendSnippet : bool)
    (c : @SectionsClient string string string) :=
  globalCfg (Env := unit) EmptyString globalHandlers (λ g _, g)
    (snippet, None) (λ _, (frontendSnippet, None)) store cr tt c.

Definition runDefaults (cr : @CR string string)
    (c : @SectionsClient string string string) :=
  defaultsCfg EmptyString defaultsHandlers (λ d, d) store cr c.

End SectionsExample.

Module DefaultServiceExample.
Import Example.

(** A service without ports, as an ExternalName service may be. *)
Definition portlessStore : K8s := webStore ∅ ∅ [].

Definition world : World :=
  (cfg0, {| Frontends := ∅; Backends := ∅; Calls := []; Fault := λ _, false |}).

End DefaultServiceExample.

(** * Vocabulary of the further properties *)

(** The table a rate-limit rule declares. *)
Definition rateLimitTable (rule : Rule) : option string :=
  match rule with
  | ReqRateLimit TableName _ => Some TableName
  | _ => None
  end.

(** The rules whose attachment consults the ssl-passthrough option. *)
Definition consultsPassthrough (rule : Rule) : bool :=
  match rule with
  | ReqDeny _ | ReqCapture _ => true
  | _ => false
  end.

(** The frontends of a rule, given those the previous rule was attached
    to. *)
Definition nextFrontends (cfg : ControllerCfg) (passthrough : bool) (rule : Rule)
    (frontends : list string) : list string :=
  match rule with
  | RequestRedirect true _ => [Cfg_FrontHTTP cfg]
  | RequestRedirect false _ => [Cfg_FrontHTTP cfg; Cfg_FrontHTTPS cfg]
  | ReqDeny _ | ReqCapture _ =>
      if passthrough then [Cfg_FrontHTTP cfg; Cfg_FrontSSL cfg] else frontends
  | _ => frontends
  end.

(** The settings of the controller configuration that the annotation
    pipeline has no business with. *)
Definition otherSettings (c : ControllerCfg)
  : string * string * string * string * bool * gset string * Certificates :=
  (Cfg_FrontHTTP c, Cfg_FrontHTTPS c, Cfg_FrontSSL c, Cfg_BackSSL c, Cfg_HTTPS c,
   Cfg_ActiveBackends c, Cfg_Certificates c).

Module AdmissionExample.
Import Example.

(** An ingress annotated with the class of another controller, which
    refers to an IngressClass resource of this one. *)
Definition foreignIngress : Ingress :=
  {| Ingress_Namespace := "default"; Ingress_Name := "web"; Ingress_Class := "haproxy";
     Ingress_Annotations := {[ "ingress.class" := "nginx" ]};
     Ingress_DefaultBackend := None; Ingress_Status := EMPTY |}.

End AdmissionExample.

Module SectionsFaultExample.
Import SectionsExample.

(** The fetch of the log targets fails. *)
Definition logTargetsFetchFails : @SectionCall string string string → bool :=
  λ c, match c with GlobalGetLogTargets => true | _ => false end.

(** The creation of log targets fails. *)
Definition logTargetsCreateFails : @SectionCall string string string → bool :=
  λ c, match c with GlobalCreateLogTargets _ => true | _ => false end.

End SectionsFaultExample.

(** A small service subsystem: the context of a service is the name of
    its backend, which [HandleBackend] creates when the proxy does not
    have it; endpoints need no reload. *)
Module ServiceExample.
Import Example.

Definition ServiceCtx : Type := string.

Definition NewCtx (store : K8s) (ingress : Ingress) (path : option IngressPath)
    (tcpService : bool) : ServiceCtx * error :=
  match path with
  | Some p => (Ingress_Namespace ingress +:+ "-" +:+ IngressPath_SvcName p, None)
  | None => (EmptyString, Some "service: no path")
  end.

Definition GetStatus (svc : ServiceCtx) : Status := EMPTY.

Definition HandleBackend (svc : ServiceCtx) (store : K8s) : M HAProxy (bool * string * error) :=
  let* err := api_BackendCreate {| Backend_Name := svc; Backend_Mode := "http" |} in
  match err with
  | None => ret (true, svc, None)
  | Some _ => ret (false, svc, None)
  end.

Definition HandleEndpoints (svc : ServiceCtx) (store : K8s) (certs : Certificates)
  : M HAProxy bool := ret false.

Definition defaultIngress : Ingress :=
  {| Ingress_Namespace := "default"; Ingress_Name := "DefaultService";
     Ingress_Class := EmptyString; Ingress_Annotations := ∅;
     Ingress_DefaultBackend :=
       Some {| IngressPath_SvcName := "web-svc"; IngressPath_SvcPortInt := 80;
               IngressPath_IsDefaultBackend := true |};
     Ingress_Status := EMPTY |}.

Definition frontendWith (name defaultBackend : string) : FrontendSection :=
  {| Section_Frontend :=
       {| Frontend_Name := name; Frontend_Mode := "http";
          Frontend_LogFormat := EmptyString; Frontend_DefaultBackend := defaultBackend |};
     Section_Binds := []; Section_SwitchingRules := [] |}.

(** A proxy whose HTTP and HTTPS frontends have the given default
    backends. *)
Definition proxy (httpDefault httpsDefault : string) (fault : Call → bool) : HAProxy :=
  {| Frontends := {[ "http" := frontendWith "http" httpDefault;
                     "https" := frontendWith "https" httpsDefault ]};
     Backends := ∅; Calls := []; Fault := fault |}.

Definition emptyProxy : HAProxy :=
  {| Frontends := ∅; Backends := ∅; Calls := []; Fault := λ _, false |}.

Definition run (w : World) : Res World (bool * error) :=
  setDefaultService ServiceCtx NewCtx GetStatus HandleBackend HandleEndpoints
    (webStore ∅ ∅ [ {| ServicePort_Port := 80 |} ]) defaultIngress ["http"; "https"] w.

End ServiceExample.

(** A frontend section with another default backend. *)
Definition set_DefaultBackend (backendName : string) (s : FrontendSection) : FrontendSection :=
  {| Section_Frontend :=
       {| Frontend_Name := Frontend_Name (Section_Frontend s);
          Frontend_Mode := Frontend_Mode (Section_Frontend s);
          Frontend_LogFormat := Frontend_LogFormat (Section_Frontend s);
          Frontend_DefaultBackend := backendName |};
     Section_Binds := Section_Binds s;
     Section_SwitchingRules := Section_SwitchingRules s |}.

(** The frontend is in the live configuration, under its own name. *)
Definition hasFrontend (h : HAProxy) (name : string) : Prop :=
  ∃ s, Frontends h !! name = Some s ∧ Frontend_Name (Section_Frontend s) = name.

(** ** Vocabulary of the frame properties *)

(** A frontend section without its binds. *)
Definition sectionHead (s : FrontendSection) : Frontend * list BackendSwitchingRule :=
  (Section_Frontend s, Section_SwitchingRules s).

(** From [h] to [h'] at most the binds of one frontend changed: the
    backends, the other frontends, and the settings and switching rules
    of the frontend itself are the same. *)
Definition bindsOnly (frontend : string) : relation HAProxy :=
  λ h h',
    Backends h' = Backends h
    ∧ Fault h' = Fault h
    ∧ (∀ g, g ≠ frontend → Frontends h' !! g = Frontends h !! g)
    ∧ sectionHead <$> Frontends h' !! frontend = sectionHead <$> Frontends h !! frontend.

(** A setting of the controller configuration stays as it is. *)
Definition keepsSetting {A} (proj : ControllerCfg → A) : relation World :=
  λ w w', proj w'.1 = proj w.1.

(** The settings that the HTTPS handler has no business with. *)
Definition handlerFrame (c : ControllerCfg)
  : string * string * string * string * list string * gset string * Certificates :=
  (Cfg_FrontHTTP c, Cfg_FrontHTTPS c, Cfg_FrontSSL c, Cfg_BackSSL c,
   Cfg_RateLimitTables c, Cfg_ActiveBackends c, Cfg_Certificates c).

Module ClientAuthExample.
Import Example HandlerExample.

(** The HTTPS frontend has no bind, as when both address families are
    switched off. *)
Definition bindlessWorld : World :=
  (cfg true false (certificates true caPath None), live [] noFault).

End ClientAuthExample.

(** The call by which [Update] switches SSL offload over, when the
    controller configuration does not agree with the certificates. *)
Definition offloadSwitch (h : HTTPS) (k : K8s) (cfg : ControllerCfg) : Call :=
  if Cfg_HTTPS cfg
  then FrontendDisableSSLOffload (Cfg_FrontHTTPS cfg)
  else FrontendEnableSSLOffload (Cfg_FrontHTTPS cfg) (HTTPS_CertDir h)
         (GetValue "tls-alpn" [mainAnnotations k]).

Module OffloadExample.
Import Example HandlerExample.

(** Certificates are there, offload is not on yet, and the client
    refuses to switch it on. *)
Definition offloadFails : Call → bool :=
  λ c, match c with FrontendEnableSSLOffload _ _ _ => true | _ => false end.

Definition pendingWorld (fault : Call → bool) : World :=
  (cfg false false (certificates true EmptyString None), live (bindList https false) fault).

End OffloadExample.

Module PassthroughExample.
Import Example HandlerExample.

(** The creation of a frontend fails. *)
Definition createFails : Call → bool :=
  λ c, match c with FrontendCreate _ => true | _ => false end.

(** Passthrough is asked for, the proxy has no passthrough frontend, and
    the client refuses to create one. *)
Definition refusedWorld : World :=
  (cfg false true (certificates false EmptyString None),
   live (bindList https false) createFails).

End PassthroughExample.

(** A small route subsystem: the map files are the list of the hosts
    routed by host and path, a custom route is its ACL; a route without
    host is refused. *)
Module RouteExample.
Import Example.

Definition Maps : Type := list string.
Definition CustomRoute : Type := string.

Definition GetService (svc : ServiceExample.ServiceCtx) : Service :=
  webService ∅ [ {| ServicePort_Port := 80 |} ].

Definition AddHostPathRoute (route : @Route Rule) (maps : Maps) : Maps * error :=
  if bool_decide (Route_Host route = EmptyString)
  then (maps, Some "route: empty host")
  else (maps ++ [Route_Host route], None).

Definition AddCustomRoute (route : @Route Rule) (acl : string)
    (st : gmap string CustomRoute * HAProxy)
  : (gmap string CustomRoute * HAProxy) * (bool * error) :=
  ((<[Route_BackendName route := acl]> st.1, st.2), (true, None)).

Definition store : K8s := webStore ∅ ∅ [ {| ServicePort_Port := 80 |} ].

(** The backend of the service has a custom route left over from an
    earlier pass. *)
Definition staleState : @PathState Maps CustomRoute :=
  {| Path_World := (cfg0, ServiceExample.emptyProxy);
     Path_CustomRoutes := {[ "default-web-svc" := "path_beg /api" ]};
     Path_MapFiles := [] |}.

Definition run (host : string) (s : @PathState Maps CustomRoute)
  : Res (@PathState Maps CustomRoute) (bool * error) :=
  handleIngressPath ServiceExample.ServiceCtx ServiceExample.NewCtx ServiceExample.GetStatus
    GetService ServiceExample.HandleBackend ServiceExample.HandleEndpoints parseBool
    Rule Maps CustomRoute AddHostPathRoute AddCustomRoute store
    (webIngress ∅) host (Some webPath) [] s.

End RouteExample.

Module StrandedExample.
Import Example HandlerExample.

(** The HTTPS binds carry client authentication, and passthrough is
    about to be enabled. *)
Definition authenticatedWorld : World :=
  (cfg false true (certificates false EmptyString None),
   live (set_clientAuth caPath "required" <$> bindList https false) noFault).

(** The deletion of a backend fails. *)
Definition backendDeleteFails : Call → bool :=
  λ c, match c with BackendDelete _ => true | _ => false end.

(** Passthrough is in place (the passthrough frontend, the chaining
    backend, the HTTPS binds on loopback), it is not asked for any more,
    and the client refuses to delete the chaining backend. *)
Definition strandedWorld : World :=
  (cfg false false (certificates false EmptyString None),
   {| Frontends :=
        {[ "http" := frontendSection "http" [];
           "https" := frontendSection "https" (bindList https true);
           "ssl" := frontendSection "ssl" (bindList https false) ]};
      Backends := {[ "ssl" := {| Section_Backend := {| Backend_Name := "ssl";
                                                        Backend_Mode := "tcp" |};
                                 Section_Servers := [] |} ]};
      Calls := []; Fault := backendDeleteFails |}).

End StrandedExample.

(** * Properties *)

(** ** Ingress admission *)

Section AdmissionFacts.
Variable CONTROLLER_CLASS : string.
Variable args : OSArgs.
Variable Store : K8s.

Lemma igClassIsSupported_iff ingress :
  (igClassIsSupported CONTROLLER_CLASS args Store ingress).1 = true ↔
    (GetValue "ingress.class" [Ingress_Annotations ingress] = EmptyString
       ∧ OSArgs_EmptyIngressClass args = true)
    ∨ classControlled CONTROLLER_CLASS Store ingress
    ∨ GetValue "ingress.class" [Ingress_Annotations ingress] = OSArgs_IngressClass args.
Proof.
  unfold igClassIsSupported, classControlled.
  set (ann := GetValue _ _).
  destruct (decide (ann = EmptyString)) as [He|He];
  destruct (OSArgs_EmptyIngressClass args) eqn:Hf;
  destruct (decide (ann = OSArgs_IngressClass args)) as [Hc|Hc];
  repeat (rewrite ?bool_decide_eq_true_2, ?bool_decide_eq_false_2 by (auto; congruence));
  simpl; try (split; [intros _|intros _; reflexivity]; auto; fail);
  (destruct (K8s_IngressClasses Store !! Ingress_Class ingress) as [ic|] eqn:Hic;
   [ destruct (decide (IngressClass_Status ic ≠ DELETED)) as [Hs|Hs];
     destruct (decide (IngressClass_Controller ic = CONTROLLER_CLASS)) as [Hk|Hk];
     repeat (rewrite ?bool_decide_eq_true_2, ?bool_decide_eq_false_2
               by (auto; congruence)); simpl
   | ]);
  (split;
   [ intros Hr; try discriminate Hr; try (right; right; assumption; fail);
     right; left; exists ic; auto
   | intros [[? ?]|[(ic' & Hl & Hs' & Hk') | ?]]; try congruence; try reflexivity;
     try (simplify_eq; contradiction) ]).
Qed.

(** C3 (as amended).  An ingress that carries no class annotation is
    admitted exactly when the controller accepts unclassified
    ingresses, or the IngressClass resource it refers to exists, is not
    deleted and is controlled by this controller, or the controller has
    no class name configured; and an ingress whose class annotation
    equals the configured class name is always admitted. *)
Theorem igClassIsSupported_admission ingress :
  (GetValue "ingress.class" [Ingress_Annotations ingress] = EmptyString →
     ((igClassIsSupported CONTROLLER_CLASS args Store ingress).1 = true ↔
        OSArgs_EmptyIngressClass args = true
        ∨ classControlled CONTROLLER_CLASS Store ingress
        ∨ OSArgs_IngressClass args = EmptyString))
  ∧ (GetValue "ingress.class" [Ingress_Annotations ingress] = OSArgs_IngressClass args →
       (igClassIsSupported CONTROLLER_CLASS args Store ingress).1 = true).
Proof.
  split.
  - intros He. rewrite igClassIsSupported_iff, He. split.
    + intros [[_ ?]|[?|?]]; auto.
    + intros [?|[?|?]]; auto.
  - intros Hc. apply igClassIsSupported_iff. auto.
Qed.

End AdmissionFacts.

(** The class annotation of [annotatedIngress] is the configured class. *)
Lemma igClassIsSupported_admission_witness :
  (igClassIsSupported Example.CONTROLLER_CLASS Example.strictArgs Example.classStore
     Example.annotatedIngress).1 = true.
Proof.
  apply (proj2 (igClassIsSupported_admission Example.CONTROLLER_CLASS Example.strictArgs
                  Example.classStore Example.annotatedIngress)).
  vm_compute. reflexivity.
Defined.

(** C3 fails as stated: without a class annotation, and with the
    accept-unclassified flag unset, [classedIngress] is admitted all the
    same, through its IngressClass resource. *)
Lemma igClassIsSupported_unclassified_admitted :
  GetValue "ingress.class" [Ingress_Annotations Example.classedIngress] = EmptyString
  ∧ OSArgs_EmptyIngressClass Example.strictArgs = false
  ∧ (igClassIsSupported Example.CONTROLLER_CLASS Example.strictArgs Example.classStore
       Example.classedIngress).1 = true.
Proof. vm_compute. repeat split; reflexivity. Qed.

(** ** The annotation-to-rule pipeline *)

Section PipelineFacts.
Variable GetBoolValue : string → string → bool * error.
Variable GetFrontendAnnotations : Ingress → K8s → list FrontendAnnotation.
Variable RuleID : Type.
Variable GetID : Rule → RuleID.
Variable Store : K8s.

Lemma sslPassthroughEnabled_run ingress path cfg :
  sslPassthroughEnabled GetBoolValue Store ingress path cfg =
    match passthroughSources Store ingress path with
    | Some sources =>
        if resolvesTrue GetBoolValue sources
        then Ret true (set_SSLPassthrough true cfg)
        else Ret false cfg
    | None => Panic cfg
    end.
Proof.
  unfold sslPassthroughEnabled, passthroughSources, resolvesTrue, bind, ret, panic, modify.
  destruct path as [p|]; simpl.
  - destruct (K8s_Namespaces Store !! Ingress_Namespace ingress) as [ns|]; simpl; [|reflexivity].
    destruct (Namespace_Services ns !! IngressPath_SvcName p) as [svc|]; simpl;
      case_bool_decide; try reflexivity;
      destruct (GetBoolValue _ _) as [[] []]; reflexivity.
  - case_bool_decide; try reflexivity.
    destruct (GetBoolValue _ _) as [[] []]; reflexivity.
Qed.
Lemma sameFrontends_refl c : sameFrontends c c.
Proof. by repeat split. Qed.

Lemma sameFrontends_trans c1 c2 c3 :
  sameFrontends c1 c2 → sameFrontends c2 c3 → sameFrontends c1 c3.
Proof. unfold sameFrontends. intros (?&?&?) (?&?&?). repeat split; congruence. Qed.

Lemma addToFrontends_run rule ingressRule frontends cfg :
  addToFrontends rule ingressRule frontends cfg =
    Ret tt (set_HAProxyRules
              (Cfg_HAProxyRules cfg ++ (AddRule rule ingressRule <$> frontends)) cfg).
Proof.
  revert cfg. induction frontends as [|f fs IH]; intros cfg.
  - destruct cfg. simpl. unfold ret, set_HAProxyRules. simpl. by rewrite app_nil_r.
  - simpl. unfold bind, HAProxyRules_AddRule, modify. rewrite IH.
    unfold set_HAProxyRules. simpl. by rewrite <- app_assoc.
Qed.

Local Arguments addToFrontends : simpl never.

Lemma attachRule_spec ingress ingressRule rule frontends cfg :
  Cfg_FrontHTTPS cfg ≠ Cfg_FrontHTTP cfg →
  Cfg_FrontHTTPS cfg ≠ Cfg_FrontSSL cfg →
  let passthrough :=
    resolvesTrue GetBoolValue [Ingress_Annotations ingress; mainAnnotations Store] in
  ∃ fs cfg',
    attachRule GetBoolValue Store ingress ingressRule rule frontends cfg = Ret fs cfg'
    ∧ sameFrontends cfg cfg'
    ∧ Cfg_HAProxyRules cfg' = Cfg_HAProxyRules cfg ++ (AddRule rule ingressRule <$> fs)
    ∧ targeted cfg passthrough rule fs
    ∧ (keepsFrontends passthrough rule → fs = frontends).
Proof.
  intros Hh Hs passthrough.
  assert (Hnot : ∀ x y : string, Cfg_FrontHTTPS cfg ∉ [x; y] ↔
                   Cfg_FrontHTTPS cfg ≠ x ∧ Cfg_FrontHTTPS cfg ≠ y).
  { intros x y. rewrite !elem_of_cons, elem_of_nil. tauto. }
  unfold attachRule, ruleFrontends, bind.
  destruct rule as [ | t | n s e c | ssl c | c | c | t c | c ]; simpl;
    unfold bind, get, ret, modify; simpl;
    rewrite ?sslPassthroughEnabled_run; simpl; fold passthrough;
    clearbody passthrough;
    try destruct ssl; try destruct passthrough; simpl;
    rewrite ?addToFrontends_run.
  all: eexists _, _; split; [reflexivity|].
  all: split; [by repeat split|].
  all: split; [simpl; by rewrite <- ?app_assoc|].
  all: split.
  all: try (intros [H1 H2]; try reflexivity; try (by destruct H1);
       try (specialize (H2 (or_introl eq_refl)); discriminate);
       try (specialize (H2 (or_intror eq_refl)); discriminate); fail).
  all: unfold targeted; split; [ intros ? Heq; by inversion Heq |].
  all: split; [ intros ? Heq; by inversion Heq |].
  all: intros Hty Hpt; try discriminate Hpt; try (destruct Hty; discriminate).
  all: split; [reflexivity | apply Hnot; by split].
Qed.
Lemma targeted_sameFrontends c c' pt rule fs :
  sameFrontends c c' → targeted c' pt rule fs → targeted c pt rule fs.
Proof. unfold sameFrontends, targeted. intros (-> & -> & ->). tauto. Qed.

Lemma attachRules_spec ingress ingressRule result : ∀ frontends ids cfg,
  Cfg_FrontHTTPS cfg ≠ Cfg_FrontHTTP cfg →
  Cfg_FrontHTTPS cfg ≠ Cfg_FrontSSL cfg →
  let passthrough :=
    resolvesTrue GetBoolValue [Ingress_Annotations ingress; mainAnnotations Store] in
  ∃ targets cfg',
    attachRules GetBoolValue RuleID GetID Store ingress ingressRule result frontends ids cfg
      = Ret (ids ++ map GetID result) cfg'
    ∧ sameFrontends cfg cfg'
    ∧ Cfg_HAProxyRules cfg' =
        Cfg_HAProxyRules cfg
        ++ concat (zip_with (λ rule fs, AddRule rule ingressRule <$> fs) result targets)
    ∧ Forall2 (targeted cfg passthrough) result targets
    ∧ (∀ rule, head result = Some rule → keepsFrontends passthrough rule →
         head targets = Some frontends).
Proof.
  induction result as [|rule rest IH]; intros frontends ids cfg Hh Hs passthrough.
  - exists [], cfg. simpl. rewrite !app_nil_r.
    split; [reflexivity|]. split; [apply sameFrontends_refl|].
    split; [reflexivity|]. split; [constructor|]. intros ? [=].
  - simpl. unfold bind.
    destruct (attachRule_spec ingress ingressRule rule frontends cfg Hh Hs)
      as (fs & cfg1 & Hrun & Hsame & Hops & Htgt & Hkeep).
    rewrite Hrun.
    destruct Hsame as (H1 & H2 & H3).
    destruct (IH fs (ids ++ [GetID rule]) cfg1) as (targets & cfg' & Hrun' & Hsame' & Hops' & Htgt' & _).
    { congruence. } { congruence. }
    exists (fs :: targets), cfg'.
    split; [rewrite Hrun'; by rewrite <- app_assoc|].
    split; [eapply sameFrontends_trans; [|exact Hsame']; by repeat split|].
    split; [rewrite Hops', Hops; simpl; by rewrite <- app_assoc|].
    split.
    + constructor; [exact Htgt|].
      eapply Forall2_impl; [exact Htgt'|].
      intros r f. apply targeted_sameFrontends. by repeat split.
    + intros r [= <-] Hk. simpl. by rewrite (Hkeep Hk).
Qed.

(** C1 (as amended).  The rules produced for an ingress are added to
    the registry rule by rule, in order, each on its own frontends: a
    redirect rule with SSL-redirect set goes to the HTTP frontend only,
    a redirect rule without it to HTTP and HTTPS, and a deny or capture
    rule of an ingress whose ssl-passthrough option resolves to true
    (ingress annotations first, then the config map) to HTTP and the
    SSL-passthrough frontend, and not to HTTPS.  A first rule of another
    kind goes to the default, HTTP and HTTPS. *)
Theorem handleIngressAnnotations_targets ingress cfg :
  Cfg_FrontHTTPS cfg ≠ Cfg_FrontHTTP cfg →
  Cfg_FrontHTTPS cfg ≠ Cfg_FrontSSL cfg →
  let annList :=
    if bool_decide (ingress = zeroIngress)
    then mainAnnotations Store else Ingress_Annotations ingress in
  let ingressRule := negb (bool_decide (ingress = zeroIngress)) in
  let result := processAnnotations annList (GetFrontendAnnotations ingress Store) [] in
  let passthrough :=
    resolvesTrue GetBoolValue [Ingress_Annotations ingress; mainAnnotations Store] in
  ∃ targets cfg',
    handleIngressAnnotations GetBoolValue GetFrontendAnnotations RuleID GetID Store
      ingress cfg = Ret (map GetID result) cfg'
    ∧ Cfg_HAProxyRules cfg' =
        Cfg_HAProxyRules cfg
        ++ concat (zip_with (λ rule fs, AddRule rule ingressRule <$> fs) result targets)
    ∧ Forall2 (targeted cfg passthrough) result targets
    ∧ (∀ rule, head result = Some rule → keepsFrontends passthrough rule →
         head targets = Some [Cfg_FrontHTTP cfg; Cfg_FrontHTTPS cfg]).
Proof.
  intros Hh Hs annList ingressRule result passthrough.
  unfold handleIngressAnnotations.
  destruct (attachRules_spec ingress ingressRule result
              [Cfg_FrontHTTP cfg; Cfg_FrontHTTPS cfg] [] cfg Hh Hs)
    as (targets & cfg' & Hrun & _ & Hops & Htgt & Hhead).
  exists targets, cfg'.
  split; [|by repeat split].
  subst annList ingressRule result.
  case_bool_decide; simpl; unfold bind, get; simpl; exact Hrun.
Qed.

End PipelineFacts.

(** With the pipeline run on [passthroughIngress], the redirect goes to
    HTTP and the deny rule to HTTP and the SSL-passthrough frontend. *)
Lemma handleIngressAnnotations_targets_witness :
  ∃ targets cfg',
    PipelineExample.run PipelineExample.plainStore PipelineExample.passthroughIngress
      = Ret [RequestRedirect true "302"; ReqDeny "10.0.0.0/8"] cfg'
    ∧ Cfg_HAProxyRules cfg' =
        concat (zip_with (λ rule fs, AddRule rule true <$> fs)
                  [RequestRedirect true "302"; ReqDeny "10.0.0.0/8"] targets)
    ∧ Forall2 (targeted Example.cfg0 true)
        [RequestRedirect true "302"; ReqDeny "10.0.0.0/8"] targets.
Proof.
  destruct (handleIngressAnnotations_targets Example.parseBool Example.handlers Rule id
              PipelineExample.plainStore PipelineExample.passthroughIngress Example.cfg0)
    as (targets & cfg' & Hrun & Hops & Htgt & _).
  - discriminate.
  - discriminate.
  - exists targets, cfg'. repeat split; [exact Hrun | exact Hops | exact Htgt].
Defined.

(** C1 fails as stated: the service of the path of [blacklistIngress]
    carries ssl-passthrough, so that the option resolves to true when the
    service scope is looked up first; the pipeline, which looks up the
    ingress and the config map only, attaches the deny rule to HTTP and
    HTTPS. *)
Lemma handleIngressAnnotations_skips_service_scope :
  returned (sslPassthroughEnabled Example.parseBool PipelineExample.passthroughServiceStore
              PipelineExample.blacklistIngress (Some Example.webPath) Example.cfg0)
    = Some true
  ∧ Cfg_HAProxyRules
      (final (PipelineExample.run PipelineExample.passthroughServiceStore
                PipelineExample.blacklistIngress))
    = [AddRule (ReqDeny "10.0.0.0/8") true "http";
       AddRule (ReqDeny "10.0.0.0/8") true "https"].
Proof. vm_compute. split; reflexivity. Qed.

(** The frontends chosen for one rule are handed on to the next: after an
    SSL redirect, a header rule is attached to HTTP only. *)
Example frontends_carry_over :
  Cfg_HAProxyRules
    (final (PipelineExample.run PipelineExample.plainStore
              PipelineExample.redirectHeaderIngress))
  = [AddRule (RequestRedirect true "302") true "http";
     AddRule (OtherRule "X-Env prod") true "http"].
Proof. vm_compute. reflexivity. Qed.

(** ** The configuration-API client *)

Section ClientFacts.

Lemma hasBind_app name l1 l2 : hasBind name (l1 ++ l2) = hasBind name l1 || hasBind name l2.
Proof. unfold hasBind. apply existsb_app. Qed.

Lemma replaceBind_fresh b binds :
  Bind_Name b ∉ Bind_Name <$> binds → replaceBind b binds = binds.
Proof.
  induction binds as [|x xs IH]; [reflexivity|].
  rewrite fmap_cons, not_elem_of_cons. intros [Hx Hxs]. simpl.
  rewrite bool_decide_eq_false_2 by congruence. by rewrite IH.
Qed.

Lemma replaceBind_middle b b' l1 l2 :
  Bind_Name b' = Bind_Name b →
  NoDup (Bind_Name <$> (l1 ++ b :: l2)) →
  replaceBind b' (l1 ++ b :: l2) = l1 ++ b' :: l2.
Proof.
  intros Hn Hnd. rewrite fmap_app, fmap_cons in Hnd.
  apply NoDup_app in Hnd as (_ & H1 & H2). apply NoDup_cons in H2 as [H2 _].
  unfold replaceBind. rewrite map_app. simpl.
  rewrite bool_decide_eq_true_2 by congruence.
  f_equal; [|f_equal]; apply replaceBind_fresh; rewrite Hn; [|exact H2].
  intros Hin. apply (H1 _ Hin). left.
Qed.

Lemma api_FrontendBindEdit_ok frontend b h s :
  Fault h (FrontendBindEdit frontend b) = false →
  Frontends h !! frontend = Some s →
  hasBind (Bind_Name b) (Section_Binds s) = true →
  api_FrontendBindEdit frontend b h =
    Ret None (withBinds frontend s (replaceBind b (Section_Binds s))
                [FrontendBindEdit frontend b] h).
Proof.
  intros Hf Hs Hb. unfold api_FrontendBindEdit, command. rewrite Hf. simpl.
  by rewrite Hs, Hb.
Qed.

Lemma api_FrontendBindEdit_fault frontend b h :
  Fault h (FrontendBindEdit frontend b) = true →
  api_FrontendBindEdit frontend b h =
    Ret (Some "client: call failed") (logCall (FrontendBindEdit frontend b) h).
Proof. intros Hf. unfold api_FrontendBindEdit, command. by rewrite Hf. Qed.

Lemma withBinds_withBinds f s b1 c1 b2 c2 h :
  withBinds f (set_Binds b1 s) b2 c2 (withBinds f s b1 c1 h) = withBinds f s b2 (c1 ++ c2) h.
Proof.
  unfold withBinds. simpl. f_equal.
  - by rewrite insert_insert_eq.
  - by rewrite app_assoc.
Qed.

Lemma logCall_withBinds f s h c :
  Frontends h !! f = Some s →
  logCall c h = withBinds f s (Section_Binds s) [c] h.
Proof.
  intros Hs. unfold logCall, withBinds. f_equal.
  rewrite insert_id; [reflexivity|]. rewrite Hs. by destruct s.
Qed.

(** The edit loop: the binds [pre] are pushed; then either nothing is
    left, or the push of the next bind fails and the loop stops. *)
Lemma editLoop_run (edit : Bind → Bind) frontend s
    (loop : list Bind → M HAProxy error) :
  (∀ b, Bind_Name (edit b) = Bind_Name b) →
  (∀ b rest h, loop (b :: rest) h =
     match api_FrontendBindEdit frontend (edit b) h with
     | Ret (Some e) h' => Ret (Some e) h'
     | Ret None h' => loop rest h'
     | Panic h' => Panic h'
     end) →
  (∀ h, loop [] h = Ret None h) →
  ∀ pre done rest h calls,
    NoDup (Bind_Name <$> (done ++ pre ++ rest)) →
    Frontends h !! frontend = Some s →
    (∀ b, b ∈ pre → Fault h (FrontendBindEdit frontend (edit b)) = false) →
    match rest with
    | [] => True
    | b :: _ => Fault h (FrontendBindEdit frontend (edit b)) = true
    end →
    loop (pre ++ rest)
      (withBinds frontend s ((edit <$> done) ++ pre ++ rest) calls h) =
    Ret (match rest with [] => None | _ :: _ => Some "client: call failed" end)
      (withBinds frontend s ((edit <$> (done ++ pre)) ++ rest)
         (calls ++ (FrontendBindEdit frontend ∘ edit <$> pre)
            ++ match rest with
               | [] => []
               | b :: _ => [FrontendBindEdit frontend (edit b)]
               end) h).
Proof.
  intros Hname Hstep Hnil.
  induction pre as [|b pre IH]; intros done rest h calls Hnd Hs Hok Hrest.
  - simpl. rewrite app_nil_r. destruct rest as [|b rest].
    + rewrite Hnil. by rewrite !app_nil_r.
    + rewrite Hstep, api_FrontendBindEdit_fault by exact Hrest.
      unfold logCall, withBinds. simpl. by rewrite <- !app_assoc.
  - simpl. rewrite Hstep.
    rewrite (api_FrontendBindEdit_ok _ _ _ (set_Binds ((edit <$> done) ++ b :: pre ++ rest) s)).
    + simpl. rewrite withBinds_withBinds.
      rewrite (replaceBind_middle b).
      * replace ((edit <$> done) ++ edit b :: pre ++ rest)
          with ((edit <$> (done ++ [b])) ++ pre ++ rest)
          by (rewrite fmap_app, <- app_assoc; reflexivity).
        rewrite IH.
        -- rewrite <- !app_assoc. simpl. reflexivity.
        -- rewrite <- app_assoc. exact Hnd.
        -- exact Hs.
        -- intros x Hx. apply Hok. by right.
        -- exact Hrest.
      * apply Hname.
      * assert (Heq : Bind_Name <$> ((edit <$> done) ++ b :: pre ++ rest)
                      = Bind_Name <$> (done ++ (b :: pre) ++ rest)).
        { simpl. rewrite !fmap_app, <- list_fmap_compose.
          rewrite (list_fmap_ext (Bind_Name ∘ edit) Bind_Name done)
            by (intros i x _; simpl; apply Hname).
          reflexivity. }
        rewrite Heq. exact Hnd.
    + simpl. apply Hok. by left.
    + simpl. apply lookup_insert_eq.
    + simpl. rewrite hasBind_app. simpl. rewrite Hname.
      rewrite bool_decide_eq_true_2 by reflexivity. simpl. apply orb_true_r.
Qed.
End ClientFacts.

(** ** Client TLS authentication *)

Section HandlerFacts.
Variable GetBoolValue : string → string → bool * error.
Variable ParseTime : string → Z * error.
Variable GetMapPath_MAP_SNI : string.

Lemma editClientAuth_run frontend caFile verify s pre rest h calls :
  NoDup (Bind_Name <$> (pre ++ rest)) →
  Frontends h !! frontend = Some s →
  (∀ b, b ∈ pre →
     Fault h (FrontendBindEdit frontend (set_clientAuth caFile verify b)) = false) →
  match rest with
  | [] => True
  | b :: _ => Fault h (FrontendBindEdit frontend (set_clientAuth caFile verify b)) = true
  end →
  editClientAuth frontend caFile verify (pre ++ rest)
    (withBinds frontend s (pre ++ rest) calls h) =
  Ret (match rest with [] => None | _ :: _ => Some "client: call failed" end)
    (withBinds frontend s ((set_clientAuth caFile verify <$> pre) ++ rest)
       (calls ++ (FrontendBindEdit frontend ∘ set_clientAuth caFile verify <$> pre)
          ++ match rest with
             | [] => []
             | b :: _ => [FrontendBindEdit frontend (set_clientAuth caFile verify b)]
             end) h).
Proof.
  intros Hnd Hs Hok Hrest.
  apply (editLoop_run (set_clientAuth caFile verify) frontend s
           (editClientAuth frontend caFile verify)) with (done := []);
    try assumption; try reflexivity.
  intros b l h'. simpl. unfold bind.
  destruct (api_FrontendBindEdit _ _ h') as [[e|] h''|h'']; reflexivity.
Qed.

Lemma handleClientTLSAuth_edits h k cfg api s pre rest :
  let a := clientAuth GetBoolValue k cfg in
  Auth_reference a ≠ EmptyString →
  Frontends api !! Cfg_FrontHTTPS cfg = Some s →
  Section_Binds s = pre ++ rest →
  pre ++ rest ≠ [] →
  NoDup (Bind_Name <$> (pre ++ rest)) →
  ¬ authUnchanged a (Section_Binds s) →
  Fault api (FrontendBindsGet (Cfg_FrontHTTPS cfg)) = false →
  (∀ b, b ∈ pre → Fault api (FrontendBindEdit (Cfg_FrontHTTPS cfg) (authEdit a b)) = false) →
  match rest with
  | [] => True
  | b :: _ => Fault api (FrontendBindEdit (Cfg_FrontHTTPS cfg) (authEdit a b)) = true
  end →
  handleClientTLSAuth GetBoolValue h k (cfg, api) =
    Ret (match rest with
         | [] => (true, None)
         | _ :: _ => (false, Some "client: call failed")
         end)
      (cfg,
       withBinds (Cfg_FrontHTTPS cfg) s ((authEdit a <$> pre) ++ rest)
         (FrontendBindsGet (Cfg_FrontHTTPS cfg)
            :: (FrontendBindEdit (Cfg_FrontHTTPS cfg) ∘ authEdit a <$> pre)
            ++ match rest with
               | [] => []
               | b :: _ => [FrontendBindEdit (Cfg_FrontHTTPS cfg) (authEdit a b)]
               end) api).
Proof.
  intros a Href Hs Hbinds Hne Hnd Hchg Hget Hok Hrest.
  unfold handleClientTLSAuth.
  unfold a, clientAuth in Href; simpl in Href.
  rewrite bool_decide_eq_false_2 by exact Href.
  unfold bind at 1. unfold onCfg, get. simpl.
  unfold bind at 1. unfold onApi, api_FrontendBindsGet, bind, request. simpl.
  rewrite Hget, Hs. simpl.
  unfold authEdit, authUnchanged in *. unfold a, clientAuth in *. simpl in *.
  destruct (HandleTLSSecret _ _ _) as [caFile certErr]. simpl in *.
  destruct (GetBoolValue _ _) as [enabled annErr]. simpl in *.
  rewrite Hbinds in *.
  destruct (pre ++ rest) as [|b0 l] eqn:Hl; [done|].
  rewrite <- Hl.
  assert (Hm : bool_decide (Bind_SslCafile b0 = caFile)
               && bool_decide (Bind_Verify b0 = if enabled then "optional" else "required")
               = false).
  { apply not_true_is_false. intros Ht. apply andb_true_iff in Ht as [H1 H2].
    apply bool_decide_eq_true_1 in H1, H2. apply Hchg. eauto. }
  rewrite Hm.
  rewrite (logCall_withBinds (Cfg_FrontHTTPS cfg) s) by exact Hs.
  rewrite Hbinds, Hl. rewrite <- Hl.
  destruct (bool_decide (caFile = EmptyString)) eqn:Hca.
  - unfold bind, onApi. simpl.
    rewrite editClientAuth_run; try assumption; [|by rewrite Hl].
    destruct rest; reflexivity.
  - unfold bind, onApi. simpl.
    rewrite editClientAuth_run; try assumption; [|by rewrite Hl].
    destruct rest; reflexivity.
Qed.
Lemma authEdit_fields a b :
  Bind_SslCafile (authEdit a b) = Auth_caFile a
  ∧ Bind_Verify (authEdit a b) =
      (if bool_decide (Auth_caFile a = EmptyString) then EmptyString else Auth_verify a)
  ∧ Bind_Name (authEdit a b) = Bind_Name b
  ∧ Bind_Address (authEdit a b) = Bind_Address b.
Proof. unfold authEdit. case_bool_decide; simpl; auto. Qed.

Lemma handleClientTLSAuth_no_reference h k w :
  GetValue "client-ca" [mainAnnotations k] = EmptyString →
  handleClientTLSAuth GetBoolValue h k w = Ret (false, None) w.
Proof.
  intros He. unfold handleClientTLSAuth. rewrite He.
  by rewrite bool_decide_eq_true_2.
Qed.

Lemma handleClientTLSAuth_unchanged h k cfg api s :
  let a := clientAuth GetBoolValue k cfg in
  Auth_reference a ≠ EmptyString →
  Frontends api !! Cfg_FrontHTTPS cfg = Some s →
  Fault api (FrontendBindsGet (Cfg_FrontHTTPS cfg)) = false →
  authUnchanged a (Section_Binds s) →
  handleClientTLSAuth GetBoolValue h k (cfg, api) =
    Ret (false,
         match Auth_certErr a with
         | Some (ErrCertOther msg) => Some msg
         | _ => None
         end)
      (cfg, logCall (FrontendBindsGet (Cfg_FrontHTTPS cfg)) api).
Proof.
  intros a Href Hs Hget (b0 & rest & Hb & Hca & Hv).
  unfold handleClientTLSAuth.
  unfold a, clientAuth in *; simpl in *.
  rewrite bool_decide_eq_false_2 by exact Href.
  unfold bind at 1. unfold onCfg, get. simpl.
  unfold bind at 1. unfold onApi, api_FrontendBindsGet, bind, request. simpl.
  rewrite Hget, Hs. simpl.
  destruct (HandleTLSSecret _ _ _) as [caFile certErr]. simpl in *.
  destruct (GetBoolValue _ _) as [enabled annErr]. simpl in *.
  rewrite Hb. rewrite !bool_decide_eq_true_2 by assumption. simpl.
  destruct certErr as [[|msg]|]; reflexivity.
Qed.

Lemma handleClientTLSAuth_error_no_reload h k w reload e :
  returned (handleClientTLSAuth GetBoolValue h k w) = Some (reload, Some e) →
  reload = false.
Proof.
  unfold handleClientTLSAuth.
  case_bool_decide; [intros [=]; congruence|].
  unfold bind at 1. unfold onCfg, get. simpl.
  unfold bind at 1.
  destruct (onApi _ _) as [[binds [err|]] w'|w']; simpl; try (intros [=]; congruence).
  destruct (HandleTLSSecret _ _ _) as [caFile certErr].
  destruct (GetBoolValue _ _) as [enabled annErr].
  destruct binds as [|b0 rest]; [intros [=]|].
  destruct (_ && _); [intros [=]; congruence|].
  case_bool_decide; unfold bind;
    destruct (onApi _ _) as [[e'|] w''|w'']; simpl; intros [=]; congruence.
Qed.

(** C5 (as amended).  The step resolves the CA reference and the
    optional flag from the config map.  With an empty reference it does
    nothing at all, and clears nothing.  Otherwise it reads the live
    binds of the HTTPS frontend and does nothing more when the first
    bind already carries the resolved CA file and verify mode; else it
    pushes every bind, with CA file and verify mode cleared when no CA
    file was resolved, and set to the resolved file and to [required]
    (or [optional], when the flag is true) when one was, and signals
    reload. *)
Theorem handleClientTLSAuth_spec h k cfg api s :
  let a := clientAuth GetBoolValue k cfg in
  let front := Cfg_FrontHTTPS cfg in
  Frontends api !! front = Some s →
  Section_Binds s ≠ [] →
  NoDup (Bind_Name <$> Section_Binds s) →
  (∀ c, Fault api c = false) →
  (Auth_reference a = EmptyString →
     handleClientTLSAuth GetBoolValue h k (cfg, api) = Ret (false, None) (cfg, api))
  ∧ (Auth_reference a ≠ EmptyString → authUnchanged a (Section_Binds s) →
       handleClientTLSAuth GetBoolValue h k (cfg, api) =
         Ret (false,
              match Auth_certErr a with
              | Some (ErrCertOther msg) => Some msg
              | _ => None
              end)
           (cfg, logCall (FrontendBindsGet front) api))
  ∧ (Auth_reference a ≠ EmptyString → ¬ authUnchanged a (Section_Binds s) →
       handleClientTLSAuth GetBoolValue h k (cfg, api) =
         Ret (true, None)
           (cfg,
            withBinds front s (authEdit a <$> Section_Binds s)
              (FrontendBindsGet front
                 :: (FrontendBindEdit front ∘ authEdit a <$> Section_Binds s)) api))
  ∧ (∀ b, Bind_SslCafile (authEdit a b) = Auth_caFile a
          ∧ Bind_Verify (authEdit a b) =
              (if bool_decide (Auth_caFile a = EmptyString) then EmptyString
               else Auth_verify a))
  ∧ (Auth_verify a = "optional" ↔
       (GetBoolValue (GetValue "client-crt-optional" [mainAnnotations k])
          "client-crt-optional").1 = true).
Proof.
  intros a front Hs Hne Hnd Hok.
  split; [|split; [|split; [|split]]].
  - intros He. by apply handleClientTLSAuth_no_reference.
  - intros Href Hun. by apply (handleClientTLSAuth_unchanged h k cfg api s).
  - intros Href Hchg.
    pose proof (handleClientTLSAuth_edits h k cfg api s (Section_Binds s) []) as H.
    simpl in H. rewrite !app_nil_r in H. apply H; auto.
  - intros b. destruct (authEdit_fields a b) as (? & ? & _). auto.
  - unfold a, clientAuth. simpl. destruct (GetBoolValue _ _).1; split; done.
Qed.

(** C6 (as amended).  When the push of a bind fails, the step returns
    the error at once, without reload: the binds before it were pushed
    and stay as edited, the failing bind and those after it stay as
    they were.  No error is ever returned together with a reload
    signal. *)
Theorem handleClientTLSAuth_partial h k cfg api s pre b post :
  let a := clientAuth GetBoolValue k cfg in
  let front := Cfg_FrontHTTPS cfg in
  Auth_reference a ≠ EmptyString →
  Frontends api !! front = Some s →
  Section_Binds s = pre ++ b :: post →
  NoDup (Bind_Name <$> Section_Binds s) →
  ¬ authUnchanged a (Section_Binds s) →
  Fault api (FrontendBindsGet front) = false →
  (∀ x, x ∈ pre → Fault api (FrontendBindEdit front (authEdit a x)) = false) →
  Fault api (FrontendBindEdit front (authEdit a b)) = true →
  handleClientTLSAuth GetBoolValue h k (cfg, api) =
    Ret (false, Some "client: call failed")
      (cfg,
       withBinds front s ((authEdit a <$> pre) ++ b :: post)
         (FrontendBindsGet front
            :: (FrontendBindEdit front ∘ authEdit a <$> pre)
            ++ [FrontendBindEdit front (authEdit a b)]) api)
  ∧ (∀ w reload e,
       returned (handleClientTLSAuth GetBoolValue h k w) = Some (reload, Some e) →
       reload = false).
Proof.
  intros a front Href Hs Hb Hnd Hchg Hget Hok Hfail. split.
  - apply (handleClientTLSAuth_edits h k cfg api s pre (b :: post)); auto.
    + by destruct pre.
    + by rewrite <- Hb.
  - intros w reload e. apply handleClientTLSAuth_error_no_reload.
Qed.

End HandlerFacts.

(** The scenario of the specification: from binds without CA file, one
    pass leaves the v4 and v6 binds with the resolved CA file and verify
    mode [required], and signals reload. *)
Lemma handleClientTLSAuth_spec_witness :
  let r := HandlerExample.runClientAuth HandlerExample.caStore
             (HandlerExample.caWorld HandlerExample.noFault) in
  returned r = Some (true, None)
  ∧ HandlerExample.authFields <$> HandlerExample.httpsBinds (final r)
    = [("v4", HandlerExample.caPath, "required"); ("v6", HandlerExample.caPath, "required")].
Proof.
  pose proof (handleClientTLSAuth_spec Example.parseBool HandlerExample.https
                HandlerExample.caStore (HandlerExample.caWorld HandlerExample.noFault).1
                (HandlerExample.caWorld HandlerExample.noFault).2
                (HandlerExample.frontendSection "https"
                   (bindList HandlerExample.https false)))
    as H.
  destruct H as (_ & _ & H & _).
  - vm_compute. reflexivity.
  - discriminate.
  - apply (bool_decide_unpack _). vm_compute. exact I.
  - intros c. reflexivity.
  - unfold HandlerExample.runClientAuth, HandlerExample.caWorld in *. simpl in H.
    simpl. rewrite H.
    + vm_compute. split; reflexivity.
    + vm_compute. discriminate.
    + intros (b0 & rest & Hb & Hca & _). vm_compute in Hb, Hca.
      injection Hb as <- _. vm_compute in Hca. discriminate Hca.
Defined.

(** C5 fails as stated: with an empty CA reference nothing is cleared;
    the binds keep their CA file and verify mode, and no call is issued. *)
Lemma handleClientTLSAuth_keeps_stale_auth :
  let r := HandlerExample.runClientAuth (HandlerExample.store ∅) HandlerExample.staleWorld in
  GetValue "client-ca" [mainAnnotations (HandlerExample.store ∅)] = EmptyString
  ∧ returned r = Some (false, None)
  ∧ Calls (final r).2 = []
  ∧ HandlerExample.authFields <$> HandlerExample.httpsBinds (final r)
    = [("v4", HandlerExample.caPath, "required"); ("v6", HandlerExample.caPath, "required")].
Proof. vm_compute. repeat split; reflexivity. Qed.

(** When the push of the v6 bind fails, the v4 bind is left edited and
    the v6 bind as it was. *)
Lemma handleClientTLSAuth_partial_witness :
  let r := HandlerExample.runClientAuth HandlerExample.caStore
             (HandlerExample.caWorld (HandlerExample.faultOnBind "v6")) in
  returned r = Some (false, Some "client: call failed")
  ∧ HandlerExample.authFields <$> HandlerExample.httpsBinds (final r)
    = [("v4", HandlerExample.caPath, "required"); ("v6", EmptyString, EmptyString)].
Proof.
  pose proof (handleClientTLSAuth_partial Example.parseBool HandlerExample.https
                HandlerExample.caStore
                (HandlerExample.caWorld (HandlerExample.faultOnBind "v6")).1
                (HandlerExample.caWorld (HandlerExample.faultOnBind "v6")).2
                (HandlerExample.frontendSection "https"
                   (bindList HandlerExample.https false))
                [mkBind "0.0.0.0" 443 "v4" false false]
                (mkBind "::" 443 "v6" false true) [])
    as H.
  destruct H as [H _].
  - vm_compute. discriminate.
  - vm_compute. reflexivity.
  - reflexivity.
  - apply (bool_decide_unpack _). vm_compute. exact I.
  - intros (b0 & rest & Hb & Hca & _). vm_compute in Hb, Hca.
    injection Hb as <- _. vm_compute in Hca. discriminate Hca.
  - reflexivity.
  - intros x Hx. apply list_elem_of_singleton in Hx as ->. vm_compute. reflexivity.
  - vm_compute. reflexivity.
  - unfold HandlerExample.runClientAuth, HandlerExample.caWorld in *. simpl in H.
    simpl. rewrite H. vm_compute. split; reflexivity.
Defined.

(** C6 fails as stated: in that run a bind change was applied (the v4
    bind now carries the CA file), and reload is not signalled. *)
Lemma handleClientTLSAuth_partial_no_reload :
  let r := HandlerExample.runClientAuth HandlerExample.caStore
             (HandlerExample.caWorld (HandlerExample.faultOnBind "v6")) in
  (∃ e, returned r = Some (false, Some e))
  ∧ HandlerExample.authFields <$> HandlerExample.httpsBinds
                                  (HandlerExample.caWorld (HandlerExample.faultOnBind "v6"))
    = [("v4", EmptyString, EmptyString); ("v6", EmptyString, EmptyString)]
  ∧ HandlerExample.authFields <$> HandlerExample.httpsBinds (final r)
    = [("v4", HandlerExample.caPath, "required"); ("v6", EmptyString, EmptyString)].
Proof. vm_compute. split; [eexists; reflexivity|]. split; reflexivity. Qed.

(** ** Global and defaults synchronisation *)

Section SectionsFacts.
Context {Global Defaults LogTarget Env : Type}.
Context `{EqDecision Global, EqDecision Defaults, EqDecision LogTarget}.
Variable zeroGlobal : Global.
Variable zeroDefaults : Defaults.
Variable GetGlobalAnnotations : list (@GlobalAnnotation Global LogTarget).
Variable GetDefaultsAnnotations : list (@DefaultsAnnotation Defaults).
Variable SetGlobal : Global → Env → Global.
Variable SetDefaults : Defaults → Defaults.
Variable UpdateGlobalCfgSnippet : bool * error.
Variable UpdateFrontendCfgSnippet : list string → bool * error.
Variable Store : K8s.
Variable StoreCR : @CR Global Defaults.
Variable Cfg_Env : Env.

Lemma globalCfg_run (c : @SectionsClient Global Defaults LogTarget) :
  SectionFault c GlobalGetConfiguration = false →
  SectionFault c GlobalGetLogTargets = false →
  let newGlobal :=
    SetGlobal (desiredGlobal (LogTarget := LogTarget) zeroGlobal GetGlobalAnnotations
                 Store StoreCR).1 Cfg_Env in
  let newLg :=
    (desiredGlobal (Defaults := Defaults) zeroGlobal GetGlobalAnnotations
       Store StoreCR).2 in
  let r := globalCfg zeroGlobal GetGlobalAnnotations SetGlobal UpdateGlobalCfgSnippet
             UpdateFrontendCfgSnippet Store StoreCR Cfg_Env c in
  returned r =
    Some ((UpdateFrontendCfgSnippet ["http"; "https"; "stats"]).1,
          bool_decide (newGlobal ≠ LiveGlobal c)
          || bool_decide (newLg ≠ LiveLogTargets c)
          || UpdateGlobalCfgSnippet.1)
  ∧ SectionCalls (final r) =
      SectionCalls c
      ++ [GlobalGetConfiguration; GlobalGetLogTargets]
      ++ (if bool_decide (newGlobal ≠ LiveGlobal c)
          then [GlobalPushConfiguration newGlobal] else [])
      ++ (if bool_decide (newLg ≠ LiveLogTargets c)
          then [GlobalDeleteLogTargets; GlobalCreateLogTargets newLg] else []).
Proof.
  intros Hg Hl newGlobal newLg. unfold globalCfg.
  unfold api_GlobalGetConfiguration, api_GlobalGetLogTargets, api_GlobalPushConfiguration,
    api_GlobalDeleteLogTargets, api_GlobalCreateLogTargets,
    sectionRequest, sectionCommand, bind, ret. simpl.
  rewrite Hg. simpl. rewrite Hl. simpl.
  fold newGlobal. fold newLg.
  destruct (bool_decide (newGlobal ≠ LiveGlobal c)); simpl;
    destruct (SectionFault c (GlobalPushConfiguration newGlobal)); simpl;
    destruct (bool_decide (newLg ≠ LiveLogTargets c)); simpl;
    destruct (SectionFault c GlobalDeleteLogTargets); simpl;
    destruct (SectionFault c (GlobalCreateLogTargets newLg)); simpl;
    destruct UpdateGlobalCfgSnippet.1;
    destruct (UpdateFrontendCfgSnippet ["http"; "https"; "stats"]).1; simpl;
    rewrite <- ?app_assoc; split; reflexivity.
Qed.

Lemma defaultsCfg_run (c : @SectionsClient Global Defaults LogTarget) :
  SectionFault c DefaultsGetConfiguration = false →
  let newDefaults :=
    SetDefaults (desiredDefaults (Global := Global) zeroDefaults GetDefaultsAnnotations
                   Store StoreCR) in
  let r := defaultsCfg zeroDefaults GetDefaultsAnnotations SetDefaults Store StoreCR c in
  returned r =
    Some (bool_decide (newDefaults ≠ LiveDefaults c)
          && negb (SectionFault c (DefaultsPushConfiguration newDefaults)))
  ∧ SectionCalls (final r) =
      SectionCalls c
      ++ [DefaultsGetConfiguration]
      ++ (if bool_decide (newDefaults ≠ LiveDefaults c)
          then [DefaultsPushConfiguration newDefaults] else []).
Proof.
  intros Hg newDefaults. unfold defaultsCfg.
  unfold api_DefaultsGetConfiguration, api_DefaultsPushConfiguration,
    sectionRequest, sectionCommand, bind, ret. simpl.
  rewrite Hg. simpl. fold newDefaults.
  destruct (bool_decide (newDefaults ≠ LiveDefaults c)); simpl;
    destruct (SectionFault c (DefaultsPushConfiguration newDefaults)); simpl;
    rewrite <- ?app_assoc; split; reflexivity.
Qed.

(** C7 (as amended).  Once the live Global section and log targets are
    fetched, the Global synchroniser pushes the full desired object
    when it differs from the live one, deletes all log targets and
    creates the desired ones when the lists differ, and marks restart
    in both cases and when the global snippet changed; a frontend
    snippet change marks reload.  Once the live Defaults section is
    fetched, the Defaults synchroniser returns a reload flag only, and
    sets it when the section differs and the push of the desired one
    succeeds. *)
Theorem globalCfg_defaultsCfg_severity (c : @SectionsClient Global Defaults LogTarget) :
  (SectionFault c GlobalGetConfiguration = false →
   SectionFault c GlobalGetLogTargets = false →
   let newGlobal :=
     SetGlobal (desiredGlobal (LogTarget := LogTarget) zeroGlobal GetGlobalAnnotations
                  Store StoreCR).1 Cfg_Env in
   let newLg :=
     (desiredGlobal (Defaults := Defaults) zeroGlobal GetGlobalAnnotations
        Store StoreCR).2 in
   let r := globalCfg zeroGlobal GetGlobalAnnotations SetGlobal UpdateGlobalCfgSnippet
              UpdateFrontendCfgSnippet Store StoreCR Cfg_Env c in
   returned r =
     Some ((UpdateFrontendCfgSnippet ["http"; "https"; "stats"]).1,
           bool_decide (newGlobal ≠ LiveGlobal c)
           || bool_decide (newLg ≠ LiveLogTargets c)
           || UpdateGlobalCfgSnippet.1)
   ∧ SectionCalls (final r) =
       SectionCalls c
       ++ [GlobalGetConfiguration; GlobalGetLogTargets]
       ++ (if bool_decide (newGlobal ≠ LiveGlobal c)
           then [GlobalPushConfiguration newGlobal] else [])
       ++ (if bool_decide (newLg ≠ LiveLogTargets c)
           then [GlobalDeleteLogTargets; GlobalCreateLogTargets newLg] else []))
  ∧ (SectionFault c DefaultsGetConfiguration = false →
     let newDefaults :=
       SetDefaults (desiredDefaults (Global := Global) zeroDefaults GetDefaultsAnnotations
                      Store StoreCR) in
     let r := defaultsCfg zeroDefaults GetDefaultsAnnotations SetDefaults Store StoreCR c in
     returned r =
       Some (bool_decide (newDefaults ≠ LiveDefaults c)
             && negb (SectionFault c (DefaultsPushConfiguration newDefaults)))
     ∧ SectionCalls (final r) =
         SectionCalls c
         ++ [DefaultsGetConfiguration]
         ++ (if bool_decide (newDefaults ≠ LiveDefaults c)
             then [DefaultsPushConfiguration newDefaults] else [])).
Proof.
  split.
  - apply globalCfg_run.
  - apply defaultsCfg_run.
Qed.

End SectionsFacts.

(** With annotations that differ from the live sections: restart, by a
    push of the Global section and the re-creation of the log targets;
    and reload, by a push of the Defaults section. *)
Lemma globalCfg_defaultsCfg_severity_witness :
  returned (SectionsExample.runGlobal SectionsExample.noCR false false
              (SectionsExample.client EmptyString [] EmptyString SectionsExample.noFault))
    = Some (false, true)
  ∧ returned (SectionsExample.runDefaults SectionsExample.noCR
                (SectionsExample.client EmptyString [] EmptyString SectionsExample.noFault))
    = Some true.
Proof.
  pose proof (globalCfg_defaultsCfg_severity (Env := unit) EmptyString EmptyString
                SectionsExample.globalHandlers SectionsExample.defaultsHandlers
                (λ g _, g) (λ d, d) (false, None) (λ _, (false, None))
                SectionsExample.store SectionsExample.noCR tt
                (SectionsExample.client EmptyString [] EmptyString SectionsExample.noFault))
    as [Hg Hd].
  split.
  - destruct Hg as [Hg _]; [reflexivity | reflexivity |].
    unfold SectionsExample.runGlobal. rewrite Hg. vm_compute. reflexivity.
  - destruct Hd as [Hd _]; [reflexivity |].
    unfold SectionsExample.runDefaults. rewrite Hd. vm_compute. reflexivity.
Defined.

(** C7 fails as stated: the desired Defaults section differs from the
    live one, the push fails, and no reload is marked. *)
Lemma defaultsCfg_push_failure_no_reload :
  let c := SectionsExample.client EmptyString [] EmptyString SectionsExample.pushFails in
  desiredDefaults (Global := string) EmptyString SectionsExample.defaultsHandlers
    SectionsExample.store SectionsExample.noCR ≠ LiveDefaults c
  ∧ returned (SectionsExample.runDefaults SectionsExample.noCR c) = Some false.
Proof. vm_compute. split; [discriminate | reflexivity]. Qed.



(** ** Default service *)

Section DefaultServiceFacts.
Variable ServiceCtx : Type.
Variable NewCtx : K8s → Ingress → option IngressPath → bool → ServiceCtx * error.
Variable GetStatus : ServiceCtx → Status.
Variable HandleBackend : ServiceCtx → K8s → M HAProxy (bool * string * error).
Variable HandleEndpoints : ServiceCtx → K8s → Certificates → M HAProxy bool.

(** The validations of [handleDefaultService] that are guarded: an absent
    or malformed reference, a missing namespace and a missing service end
    the handler with no reload and no change. *)
Lemma handleDefaultService_fail_open dsvcData store w :
  dsvcData = EmptyString
  ∨ length (Split dsvcData "/"%char) ≠ 2%nat
  ∨ (∃ ns name, Split dsvcData "/"%char = [ns; name]
       ∧ (ns = EmptyString ∨ name = EmptyString
          ∨ K8s_Namespaces store !! ns = None
          ∨ ∃ namespace, K8s_Namespaces store !! ns = Some namespace
                         ∧ Namespace_Services namespace !! name = None)) →
  handleDefaultService ServiceCtx NewCtx GetStatus HandleBackend HandleEndpoints
    dsvcData store w = Ret false w.
Proof.
  unfold handleDefaultService. intros [He|[Hlen|(ns & name & Hsplit & Hcase)]].
  - by rewrite bool_decide_eq_true_2.
  - case_bool_decide; [reflexivity|].
    destruct (Split dsvcData "/"%char) as [|a [|b [|c l]]]; try reflexivity.
    by destruct Hlen.
  - case_bool_decide; [reflexivity|]. rewrite Hsplit.
    destruct Hcase as [->|[->|[Hns|(namespace & Hns & Hsvc)]]].
    + by rewrite (bool_decide_eq_true_2 (EmptyString = EmptyString)).
    + rewrite (bool_decide_eq_true_2 (EmptyString = EmptyString)) by reflexivity.
      by rewrite orb_true_r.
    + destruct (_ || _); [reflexivity|]. by rewrite Hns.
    + destruct (_ || _); [reflexivity|]. by rewrite Hns, Hsvc.
Qed.

End DefaultServiceFacts.

(** C9 is violated by the code.  The reference [default/web-svc] names a
    namespace and a service of the store, the service has no port, and
    [handleDefaultService] panics on [service.Ports[0]], whatever the
    service subsystem is. *)
Theorem handleDefaultService_empty_ports_panics
    (ServiceCtx : Type)
    (NewCtx : K8s → Ingress → option IngressPath → bool → ServiceCtx * error)
    (GetStatus : ServiceCtx → Status)
    (HandleBackend : ServiceCtx → K8s → M HAProxy (bool * string * error))
    (HandleEndpoints : ServiceCtx → K8s → Certificates → M HAProxy bool) :
  handleDefaultService ServiceCtx NewCtx GetStatus HandleBackend HandleEndpoints
    "default/web-svc" DefaultServiceExample.portlessStore DefaultServiceExample.world
  = Panic DefaultServiceExample.world.
Proof. vm_compute. reflexivity. Qed.

(** ** SSL passthrough lifecycle *)

Section LifecycleFacts.
Variable GetBoolValue : string → string → bool * error.
Variable ParseTime : string → Z * error.
Variable GetMapPath_MAP_SNI : string.

Lemma bind_onApi {A B} (m : M HAProxy A) (f : A → M World B) cfg h a h' :
  m h = Ret a h' → bind (onApi m) f (cfg, h) = f a (cfg, h').
Proof. intros Hm. unfold bind, onApi. simpl. by rewrite Hm. Qed.

Lemma bind_api {A B} (m : M HAProxy A) (f : A → M HAProxy B) h a h' :
  m h = Ret a h' → bind m f h = f a h'.
Proof. intros Hm. unfold bind. by rewrite Hm. Qed.

Lemma bind_get {B} (f : ControllerCfg → M World B) w :
  bind (onCfg get) f w = f w.1 w.
Proof. by destruct w. Qed.

Lemma bind_modify {B} g (f : unit → M World B) w :
  bind (onCfg (modify g)) f w = f tt (g w.1, w.2).
Proof. by destruct w. Qed.

Lemma bind_ret {S A B} (a : A) (f : A → M S B) s : bind (ret a) f s = f a s.
Proof. reflexivity. Qed.

Lemma bind_bind {S A B C} (m : M S A) (f : A → M S B) (g : B → M S C) s :
  bind (bind m f) g s = bind m (λ a, bind (f a) g) s.
Proof. unfold bind. by destruct (m s). Qed.

Lemma command_ok c apply h h' :
  Fault h c = false → apply (logCall c h) = Some h' → command c apply h = Ret None h'.
Proof. intros Hf Ha. unfold command. by rewrite Hf, Ha. Qed.

Ltac norm_state :=
  unfold set_Frontends, set_Backends, logCall; simpl;
  rewrite ?insert_insert_eq.

Ltac api_ok Hfault :=
  apply command_ok;
  [ simpl; apply Hfault
  | norm_state;
    rewrite ?lookup_insert_eq, ?lookup_insert_ne, ?lookup_delete_ne by congruence;
    simpl; try eassumption; try reflexivity ].

Lemma enableSSLPassthrough_run h cfg api s b4 b6 :
  Frontends api !! Cfg_FrontSSL cfg = None →
  Backends api !! Cfg_BackSSL cfg = None →
  Frontends api !! Cfg_FrontHTTPS cfg = Some s →
  Section_Binds s = [b4; b6] → Bind_Name b4 = "v4" → Bind_Name b6 = "v6" →
  HTTPS_IPv4 h = true → HTTPS_IPv6 h = true →
  (∀ c, Fault api c = false) →
  Cfg_FrontSSL cfg ≠ Cfg_FrontHTTPS cfg →
  ∀ calls,
  enableSSLPassthrough h
    (cfg, {| Frontends := Frontends api; Backends := Backends api;
             Calls := Calls api ++ calls; Fault := Fault api |}) =
  Ret None
    (cfg,
     {| Frontends :=
          <[Cfg_FrontHTTPS cfg := set_Binds (toggledBinds h cfg true) s]>
            (<[Cfg_FrontSSL cfg :=
                 {| Section_Frontend := passthroughFrontend cfg;
                    Section_Binds := bindList h false;
                    Section_SwitchingRules := [sniSwitchingRule] |}]> (Frontends api));
        Backends :=
          <[Cfg_BackSSL cfg :=
              {| Section_Backend := chainingBackend cfg;
                 Section_Servers := [chainingServer h cfg] |}]> (Backends api);
        Calls :=
          Calls api ++ calls
          ++ [FrontendCreate (passthroughFrontend cfg)]
          ++ (FrontendBindCreate (Cfg_FrontSSL cfg) <$> bindList h false)
          ++ [BackendCreate (chainingBackend cfg);
              BackendServerCreate (Cfg_BackSSL cfg) (chainingServer h cfg);
              BackendSwitchingRuleCreate (Cfg_FrontSSL cfg) sniSwitchingRule]
          ++ toggleCalls h cfg true;
        Fault := Fault api |}).
Proof.
  intros Hssl Hback Hhttps Hbinds Hn4 Hn6 Hv4 Hv6 Hfault Hne calls.
  destruct b4, b6; simpl in Hn4, Hn6; subst.
  unfold enableSSLPassthrough, toggleSSLPassthrough, toggledBinds, toggleCalls, bindList.
  rewrite Hv4, Hv6. simpl app.
  rewrite bind_get. cbn beta.
  erewrite bind_onApi; cycle 1.
  { api_ok Hfault. rewrite Hssl. reflexivity. }
  cbn beta iota.
  erewrite bind_onApi; cycle 1.
  { simpl createBinds.
    erewrite bind_api; cycle 1.
    { api_ok Hfault. }
    cbn beta iota.
    erewrite bind_api; cycle 1.
    { api_ok Hfault. }
    reflexivity. }
  cbn beta iota. norm_state.
  erewrite bind_onApi; cycle 1.
  { api_ok Hfault. rewrite Hback. reflexivity. }
  cbn beta iota. norm_state.
  erewrite bind_onApi; cycle 1.
  { api_ok Hfault. }
  cbn beta iota. norm_state.
  erewrite bind_onApi; cycle 1.
  { api_ok Hfault. }
  cbn beta iota. norm_state.
  rewrite bind_bind, bind_get. cbn beta. rewrite bind_bind.
  erewrite bind_onApi; cycle 1.
  { simpl editBinds.
    erewrite bind_api; cycle 1.
    { api_ok Hfault. rewrite Hhttps. rewrite Hbinds. simpl. reflexivity. }
    cbn beta iota.
    erewrite bind_api; cycle 1.
    { api_ok Hfault. }
    reflexivity. }
  cbn beta iota. norm_state.
  destruct (Cfg_HTTPS cfg).
  - rewrite bind_bind.
    erewrite bind_onApi; cycle 1.
    { api_ok Hfault. }
    norm_state. unfold bind, logger_Panic, ret. simpl.
    rewrite <- !app_assoc. reflexivity.
  - unfold bind, ret. simpl. rewrite <- !app_assoc. reflexivity.
Qed.

Lemma disableSSLPassthrough_run h cfg api s b4 b6 fs bs :
  Frontends api !! Cfg_FrontSSL cfg = Some fs →
  Backends api !! Cfg_BackSSL cfg = Some bs →
  Frontends api !! Cfg_FrontHTTPS cfg = Some s →
  Section_Binds s = [b4; b6] → Bind_Name b4 = "v4" → Bind_Name b6 = "v6" →
  HTTPS_IPv4 h = true → HTTPS_IPv6 h = true →
  (∀ c, Fault api c = false) →
  Cfg_FrontSSL cfg ≠ Cfg_FrontHTTPS cfg →
  ∀ calls,
  disableSSLPassthrough h
    (cfg, {| Frontends := Frontends api; Backends := Backends api;
             Calls := Calls api ++ calls; Fault := Fault api |}) =
  Ret None
    (set_HAProxyRules (Cfg_HAProxyRules cfg ++ [DeleteFrontend (Cfg_FrontSSL cfg)]) cfg,
     {| Frontends :=
          <[Cfg_FrontHTTPS cfg := set_Binds (toggledBinds h cfg false) s]>
            (delete (Cfg_FrontSSL cfg) (Frontends api));
        Backends := delete (Cfg_BackSSL cfg) (Backends api);
        Calls :=
          Calls api ++ calls
          ++ [FrontendDelete (Cfg_FrontSSL cfg); BackendDelete (Cfg_BackSSL cfg)]
          ++ toggleCalls h cfg false;
        Fault := Fault api |}).
Proof.
  intros Hssl Hback Hhttps Hbinds Hn4 Hn6 Hv4 Hv6 Hfault Hne calls.
  destruct b4, b6; simpl in Hn4, Hn6; subst.
  unfold disableSSLPassthrough, toggleSSLPassthrough, toggledBinds, toggleCalls, bindList.
  rewrite Hv4, Hv6. simpl app.
  rewrite bind_get. cbn beta.
  erewrite bind_onApi; cycle 1.
  { api_ok Hfault. rewrite Hssl. reflexivity. }
  cbn beta iota. norm_state.
  unfold HAProxyRules_DeleteFrontend. rewrite bind_modify. cbn beta. simpl fst. simpl snd.
  erewrite bind_onApi; cycle 1.
  { api_ok Hfault. rewrite Hback. reflexivity. }
  cbn beta iota. norm_state.
  rewrite bind_get. cbn beta. simpl.
  erewrite bind_onApi; cycle 1.
  { simpl editBinds.
    erewrite bind_api; cycle 1.
    { api_ok Hfault. rewrite Hhttps. rewrite Hbinds. simpl. reflexivity. }
    cbn beta iota.
    erewrite bind_api; cycle 1.
    { api_ok Hfault. }
    reflexivity. }
  cbn beta iota. norm_state.
  destruct (Cfg_HTTPS cfg).
  - erewrite bind_onApi; cycle 1.
    { api_ok Hfault. }
    norm_state. unfold bind, logger_Panic, ret. simpl.
    rewrite <- !app_assoc. reflexivity.
  - unfold ret. simpl. rewrite <- !app_assoc. reflexivity.
Qed.

Lemma sslPassthroughRules_run h k w :
  sslPassthroughRules ParseTime GetMapPath_MAP_SNI h k w =
    Ret None
      (set_HAProxyRules
         (Cfg_HAProxyRules w.1
          ++ ((λ r, AddRule r false (Cfg_FrontSSL w.1))
                <$> passthroughRules ParseTime GetMapPath_MAP_SNI k)) w.1,
       w.2).
Proof.
  destruct w as [cfg api]. unfold sslPassthroughRules, passthroughRules, inspectTimeout.
  rewrite bind_get. cbn beta.
  unfold HAProxyRules_AddRule. rewrite !bind_modify. simpl.
  unfold ret, set_HAProxyRules. simpl. rewrite <- !app_assoc. reflexivity.
Qed.

Lemma updateOffload_quiescent h k w :
  FrontendCertsEnabled (Cfg_Certificates w.1) = Cfg_HTTPS w.1 →
  GetValue "client-ca" [mainAnnotations k] = EmptyString →
  updateOffload GetBoolValue h k w = Ret (inr false) w.
Proof.
  intros Hq Hca. unfold updateOffload. rewrite bind_get. cbn beta.
  rewrite Hq. destruct (Cfg_HTTPS w.1) eqn:Hh; simpl.
  - rewrite bind_ret. unfold bind.
    rewrite handleClientTLSAuth_no_reference by exact Hca. reflexivity.
  - reflexivity.
Qed.

Lemma rulesOf_app frontend ops1 ops2 acc :
  rulesOf frontend (ops1 ++ ops2) acc = rulesOf frontend ops2 (rulesOf frontend ops1 acc).
Proof.
  revert acc. induction ops1 as [|[r i f|f] ops1 IH]; intros acc; simpl; auto.
  case_decide; auto.
Qed.

Lemma rulesOf_passthroughRules frontend k :
  rulesOf frontend
    ((λ r, AddRule r false frontend) <$> passthroughRules ParseTime GetMapPath_MAP_SNI k) []
  = passthroughRules ParseTime GetMapPath_MAP_SNI k.
Proof.
  unfold passthroughRules. simpl.
  rewrite !decide_True by reflexivity. simpl.
  repeat (rewrite decide_False;
          [|rewrite ?elem_of_cons, elem_of_nil; intros H;
            repeat (destruct H as [H|H]; [discriminate H|]); try done;
            injection H; discriminate]); simpl.
  reflexivity.
Qed.

Lemma api_FrontendGet_run name h :
  api_FrontendGet name h =
    Ret (if Fault h (FrontendGet name) then (zeroFrontend, Some "client: frontend not found")
         else match Frontends h !! name with
              | Some s => (Section_Frontend s, None)
              | None => (zeroFrontend, Some "client: frontend not found")
              end)
      (logCall (FrontendGet name) h).
Proof.
  unfold api_FrontendGet, request, bind, ret.
  destruct (Fault h (FrontendGet name)); simpl; [reflexivity|].
  by destruct (Frontends h !! name).
Qed.

(** C2 (as amended).  With nothing else to do on the HTTPS frontend
    (offload as it is, no client authentication) and a client that does
    not fail: when the passthrough flag is set and the proxy has neither
    the passthrough frontend nor the chaining backend, [Update] creates
    the TCP frontend with its binds on the external addresses, the
    chaining backend with one server, and the SNI switching rule, adds
    five rules to that frontend in the registry, moves both HTTPS binds
    to loopback addresses, and signals reload; when the flag is not set
    and the proxy has the frontend and the backend, it deletes both,
    drops the rules of the frontend from the registry, moves both HTTPS
    binds back to the external addresses, and signals reload. *)
Theorem passthrough_lifecycle h k cfg api s b4 b6 :
  HTTPS_Enabled h = true → HTTPS_IPv4 h = true → HTTPS_IPv6 h = true →
  FrontendCertsEnabled (Cfg_Certificates cfg) = Cfg_HTTPS cfg →
  GetValue "client-ca" [mainAnnotations k] = EmptyString →
  Frontends api !! Cfg_FrontHTTPS cfg = Some s →
  Section_Binds s = [b4; b6] → Bind_Name b4 = "v4" → Bind_Name b6 = "v6" →
  (∀ c, Fault api c = false) →
  Cfg_FrontSSL cfg ≠ Cfg_FrontHTTPS cfg →
  let h' := set_Alpn (GetValue "tls-alpn" [mainAnnotations k]) h in
  let r := Update GetBoolValue ParseTime GetMapPath_MAP_SNI h k (cfg, api) in
  let binds' := default [] (Section_Binds <$> Frontends (final r).2 !! Cfg_FrontHTTPS cfg) in
  (Cfg_SSLPassthrough cfg = true →
   Frontends api !! Cfg_FrontSSL cfg = None →
   Backends api !! Cfg_BackSSL cfg = None →
   rulesOf (Cfg_FrontSSL cfg) (Cfg_HAProxyRules cfg) [] = [] →
   returned r = Some (true, None)
   ∧ Calls (final r).2 =
       Calls api
       ++ [FrontendGet (Cfg_FrontSSL cfg); FrontendCreate (passthroughFrontend cfg)]
       ++ (FrontendBindCreate (Cfg_FrontSSL cfg) <$> bindList h' false)
       ++ [BackendCreate (chainingBackend cfg);
           BackendServerCreate (Cfg_BackSSL cfg) (chainingServer h' cfg);
           BackendSwitchingRuleCreate (Cfg_FrontSSL cfg) sniSwitchingRule]
       ++ toggleCalls h' cfg true
   ∧ Frontends (final r).2 !! Cfg_FrontSSL cfg =
       Some {| Section_Frontend := passthroughFrontend cfg;
               Section_Binds := bindList h' false;
               Section_SwitchingRules := [sniSwitchingRule] |}
   ∧ Backends (final r).2 !! Cfg_BackSSL cfg =
       Some {| Section_Backend := chainingBackend cfg;
               Section_Servers := [chainingServer h' cfg] |}
   ∧ rulesOf (Cfg_FrontSSL cfg) (Cfg_HAProxyRules (final r).1) []
       = passthroughRules ParseTime GetMapPath_MAP_SNI k
   ∧ length (rulesOf (Cfg_FrontSSL cfg) (Cfg_HAProxyRules (final r).1) []) = 5%nat
   ∧ Bind_Address <$> binds' = ["127.0.0.1"; "::1"]
   ∧ Cfg_SSLPassthrough (final r).1 = true)
  ∧ (Cfg_SSLPassthrough cfg = false →
     is_Some (Frontends api !! Cfg_FrontSSL cfg) →
     is_Some (Backends api !! Cfg_BackSSL cfg) →
     returned r = Some (true, None)
     ∧ Calls (final r).2 =
         Calls api
         ++ [FrontendGet (Cfg_FrontSSL cfg); FrontendDelete (Cfg_FrontSSL cfg);
             BackendDelete (Cfg_BackSSL cfg)]
         ++ toggleCalls h' cfg false
     ∧ Frontends (final r).2 !! Cfg_FrontSSL cfg = None
     ∧ Backends (final r).2 !! Cfg_BackSSL cfg = None
     ∧ rulesOf (Cfg_FrontSSL cfg) (Cfg_HAProxyRules (final r).1) [] = []
     ∧ Bind_Address <$> binds' = [HTTPS_AddrIPv4 h; HTTPS_AddrIPv6 h]
     ∧ Cfg_SSLPassthrough (final r).1 = false).
Proof.
  intros Hen Hv4 Hv6 Hq Hca Hhttps Hbinds Hn4 Hn6 Hfault Hne h' r binds'.
  assert (Hrun : r = bind (updatePassthrough ParseTime GetMapPath_MAP_SNI
                             h' k false)
                   (λ reload, bind (onCfg get) (λ cfg0,
                      if Updated (Cfg_Certificates cfg0)
                      then ret (true, None) else ret (reload, None)))
                   (cfg, api)).
  { unfold r, Update. rewrite Hen. change (negb true) with false. cbv iota. fold h'.
    unfold bind at 1. rewrite updateOffload_quiescent by assumption. reflexivity. }
  assert (Hupd : ∀ w (b : bool),
             bind (onCfg get) (λ cfg0 : ControllerCfg,
                if Updated (Cfg_Certificates cfg0)
                then ret (true, None) else ret (true, @None string)) w
             = Ret (true, None) w).
  { intros [c a] _. unfold bind, onCfg, get, ret. simpl.
    by destruct (Updated (Cfg_Certificates c)). }
  split.
  - intros Hflag Hssl Hback Hreg.
    assert (Hr : r = Ret (true, None)
              (set_HAProxyRules
                 (Cfg_HAProxyRules cfg
                  ++ ((λ r, AddRule r false (Cfg_FrontSSL cfg))
                        <$> passthroughRules ParseTime GetMapPath_MAP_SNI k))
                 (set_SSLPassthrough true cfg),
               {| Frontends :=
                    <[Cfg_FrontHTTPS cfg := set_Binds (toggledBinds h' cfg true) s]>
                      (<[Cfg_FrontSSL cfg :=
                           {| Section_Frontend := passthroughFrontend cfg;
                              Section_Binds := bindList h' false;
                              Section_SwitchingRules := [sniSwitchingRule] |}]>
                         (Frontends api));
                  Backends :=
                    <[Cfg_BackSSL cfg :=
                        {| Section_Backend := chainingBackend cfg;
                           Section_Servers := [chainingServer h' cfg] |}]> (Backends api);
                  Calls :=
                    Calls api ++ [FrontendGet (Cfg_FrontSSL cfg)]
                    ++ [FrontendCreate (passthroughFrontend cfg)]
                    ++ (FrontendBindCreate (Cfg_FrontSSL cfg) <$> bindList h' false)
                    ++ [BackendCreate (chainingBackend cfg);
                        BackendServerCreate (Cfg_BackSSL cfg) (chainingServer h' cfg);
                        BackendSwitchingRuleCreate (Cfg_FrontSSL cfg) sniSwitchingRule]
                    ++ toggleCalls h' cfg true;
                  Fault := Fault api |})).
    { rewrite Hrun. unfold updatePassthrough.
      rewrite !bind_bind, bind_get. cbn beta. simpl fst.
      rewrite bind_bind. erewrite bind_onApi; [|apply api_FrontendGet_run].
      rewrite Hfault, Hssl, Hflag. cbn beta iota.
      rewrite !bind_bind. unfold logCall.
      unfold bind at 1.
      rewrite (enableSSLPassthrough_run h' cfg api s b4 b6) by assumption.
      rewrite !bind_bind, bind_modify. cbn beta. simpl fst. simpl snd.
      rewrite bind_ret, !bind_bind. unfold bind at 1. rewrite sslPassthroughRules_run.
      simpl fst. simpl snd. rewrite bind_ret. rewrite Hupd by exact true.
      reflexivity. }
    unfold binds'. rewrite Hr.
    cbn [final returned fst snd Calls Frontends Backends Cfg_HAProxyRules
           set_HAProxyRules set_SSLPassthrough Cfg_SSLPassthrough Cfg_FrontSSL].
    split; [reflexivity|]. split; [reflexivity|].
    split; [by rewrite lookup_insert_ne, lookup_insert_eq by congruence|].
    split; [by rewrite lookup_insert_eq|].
    assert (Hrules : rulesOf (Cfg_FrontSSL cfg)
              (Cfg_HAProxyRules cfg
               ++ ((λ r, AddRule r false (Cfg_FrontSSL cfg))
                     <$> passthroughRules ParseTime GetMapPath_MAP_SNI k)) []
            = passthroughRules ParseTime GetMapPath_MAP_SNI k).
    { rewrite rulesOf_app, Hreg. apply rulesOf_passthroughRules. }
    split; [exact Hrules|]. split; [by rewrite Hrules|].
    split; [|reflexivity].
    rewrite lookup_insert_eq. simpl. unfold toggledBinds, bindList. simpl.
    rewrite Hv4, Hv6. by destruct (Cfg_HTTPS cfg).
  - intros Hflag [fs Hssl] [bs Hback].
    assert (Hr : r = Ret (true, None)
              (set_SSLPassthrough false
                 (set_HAProxyRules
                    (Cfg_HAProxyRules cfg ++ [DeleteFrontend (Cfg_FrontSSL cfg)]) cfg),
               {| Frontends :=
                    <[Cfg_FrontHTTPS cfg := set_Binds (toggledBinds h' cfg false) s]>
                      (delete (Cfg_FrontSSL cfg) (Frontends api));
                  Backends := delete (Cfg_BackSSL cfg) (Backends api);
                  Calls :=
                    Calls api ++ [FrontendGet (Cfg_FrontSSL cfg)]
                    ++ [FrontendDelete (Cfg_FrontSSL cfg); BackendDelete (Cfg_BackSSL cfg)]
                    ++ toggleCalls h' cfg false;
                  Fault := Fault api |})).
    { rewrite Hrun. unfold updatePassthrough.
      rewrite !bind_bind, bind_get. cbn beta. simpl fst.
      rewrite bind_bind. erewrite bind_onApi; [|apply api_FrontendGet_run].
      rewrite Hfault, Hssl, Hflag. cbn beta iota.
      rewrite !bind_bind. unfold logCall.
      unfold bind at 1.
      rewrite (disableSSLPassthrough_run h' cfg api s b4 b6 fs bs) by assumption.
      rewrite !bind_bind, bind_modify. cbn beta. simpl fst. simpl snd.
      rewrite bind_ret. rewrite Hupd by exact true.
      reflexivity. }
    unfold binds'. rewrite Hr.
    cbn [final returned fst snd Calls Frontends Backends Cfg_HAProxyRules
           set_HAProxyRules set_SSLPassthrough Cfg_SSLPassthrough Cfg_FrontSSL].
    split; [reflexivity|]. split; [reflexivity|].
    split; [by rewrite lookup_insert_ne, lookup_delete_eq by congruence|].
    split; [by rewrite lookup_delete_eq|].
    split; [rewrite rulesOf_app; simpl; by rewrite decide_True|].
    split; [|reflexivity].
    rewrite lookup_insert_eq. simpl. unfold toggledBinds, bindList. simpl.
    rewrite Hv4, Hv6. by destruct (Cfg_HTTPS cfg).
Qed.
End LifecycleFacts.

(** Toggling passthrough on in [passthroughOnWorld]: reload, five rules
    on the passthrough frontend, HTTPS binds on loopback addresses. *)
Lemma passthrough_lifecycle_witness :
  let r := HandlerExample.update (HandlerExample.store ∅) HandlerExample.passthroughOnWorld in
  returned r = Some (true, None)
  ∧ length (rulesOf "ssl" (Cfg_HAProxyRules (final r).1) []) = 5%nat
  ∧ Bind_Address <$> HandlerExample.httpsBinds (final r) = ["127.0.0.1"; "::1"].
Proof.
  pose proof (passthrough_lifecycle Example.parseBool HandlerExample.parseTime
                HandlerExample.sniMap HandlerExample.https (HandlerExample.store ∅)
                HandlerExample.passthroughOnWorld.1 HandlerExample.passthroughOnWorld.2
                (HandlerExample.frontendSection "https" (bindList HandlerExample.https false))
                (mkBind "0.0.0.0" 443 "v4" false false) (mkBind "::" 443 "v6" false true))
    as H.
  destruct H as [H _]; try reflexivity.
  - intros Heq. vm_compute in Heq. discriminate Heq.
  - destruct H as (Hret & _ & _ & _ & _ & Hlen & Haddr & _);
      try reflexivity; try (vm_compute; reflexivity).
    split; [exact Hret|]. split; [exact Hlen|exact Haddr].
Defined.

(** C2 fails as stated: the passthrough frontend gets five rules, not
    four; the lookup of the SNI without its first label is a rule of its
    own. *)
Lemma passthrough_frontend_has_five_rules :
  let r := HandlerExample.update (HandlerExample.store ∅) HandlerExample.passthroughOnWorld in
  rulesOf "ssl" (Cfg_HAProxyRules (final r).1) []
  = [ ReqAcceptContent;
      ReqInspectDelay 5000;
      ReqSetVar "sni" "sess" "req_ssl_sni" EmptyString;
      ReqSetVar "sni_match" "txn" "req_ssl_sni,map(/etc/haproxy/maps/sni.map)" EmptyString;
      ReqSetVar "sni_match" "txn"
        "req_ssl_sni,regsub(^[^.]*,,),map(/etc/haproxy/maps/sni.map)"
        "!{ var(txn.sni_match) -m found }" ]
  ∧ length (rulesOf "ssl" (Cfg_HAProxyRules (final r).1) []) ≠ 4%nat.
Proof. vm_compute. split; [reflexivity | discriminate]. Qed.

(** ** Idempotence of the HTTPS handler *)

Section IdempotenceFacts.
Variable GetBoolValue : string → string → bool * error.
Variable ParseTime : string → Z * error.
Variable GetMapPath_MAP_SNI : string.

(** With offload as it is, no client authentication asked for, no
    passthrough asked for and none in place, and no certificate update,
    [Update] only reads the passthrough frontend. *)
Lemma Update_quiescent h k cfg api :
  HTTPS_Enabled h = true →
  FrontendCertsEnabled (Cfg_Certificates cfg) = Cfg_HTTPS cfg →
  GetValue "client-ca" [mainAnnotations k] = EmptyString →
  Updated (Cfg_Certificates cfg) = false →
  Cfg_SSLPassthrough cfg = false →
  Frontends api !! Cfg_FrontSSL cfg = None →
  Update GetBoolValue ParseTime GetMapPath_MAP_SNI h k (cfg, api)
  = Ret (false, None) (cfg, logCall (FrontendGet (Cfg_FrontSSL cfg)) api).
Proof.
  intros Hen Hq Hca Hup Hflag Hssl.
  unfold Update. rewrite Hen. change (negb true) with false. cbv iota.
  unfold bind at 1. rewrite updateOffload_quiescent by assumption.
  unfold updatePassthrough.
  rewrite !bind_bind, bind_get. cbn beta. simpl fst.
  rewrite bind_bind. erewrite bind_onApi; [|apply api_FrontendGet_run].
  rewrite Hssl, Hflag.
  destruct (Fault api (FrontendGet (Cfg_FrontSSL cfg)));
    cbn beta iota; rewrite bind_ret, bind_get; simpl; by rewrite Hup.
Qed.
End IdempotenceFacts.

(** C4 is violated by the code.  The config map names a CA secret that
    is not found.  A first pass of [Update] clears the client
    authentication of the HTTPS binds, which leaves the live
    configuration as it was; a second pass, on the unchanged store and
    proxy, pushes both binds again and signals reload again. *)
Theorem Update_missing_ca_not_idempotent :
  let w := HandlerExample.missingCAWorld in
  let r1 := HandlerExample.update HandlerExample.missingCAStore w in
  let r2 := HandlerExample.update HandlerExample.missingCAStore (final r1) in
  returned r1 = Some (true, None)
  ∧ (final r1).1 = w.1
  ∧ Frontends (final r1).2 = Frontends w.2
  ∧ Backends (final r1).2 = Backends w.2
  ∧ returned r2 = Some (true, None)
  ∧ filter (λ c, mutating c = true) (HandlerExample.newCalls (final r1) r2)
    = [FrontendBindEdit "https"
         (set_offload true "/etc/haproxy/certs" EmptyString
            (mkBind "0.0.0.0" 443 "v4" false false));
       FrontendBindEdit "https"
         (set_offload true "/etc/haproxy/certs" EmptyString
            (mkBind "::" 443 "v6" false true))].
Proof. vm_compute. repeat split; reflexivity. Qed.

(** ** The passthrough flag *)

Section FlagFacts.
Variable GetBoolValue : string → string → bool * error.
Variable ParseTime : string → Z * error.
Variable GetMapPath_MAP_SNI : string.

Lemma keepsFlag_refl b w : keepsFlag b w w.
Proof. unfold keepsFlag. auto. Qed.

Lemma keepsFlag_ret {A} b (a : A) : respects (keepsFlag b) (ret a).
Proof. intros w. apply keepsFlag_refl. Qed.

Lemma keepsFlag_panic {A} b : respects (keepsFlag b) (@panic World A).
Proof. intros w. apply keepsFlag_refl. Qed.

Lemma keepsFlag_bind {A B} b (m : M World A) (f : A → M World B) :
  respects (keepsFlag b) m → (∀ a, respects (keepsFlag b) (f a)) →
  respects (keepsFlag b) (bind m f).
Proof.
  intros Hm Hf w. unfold bind. specialize (Hm w).
  destruct (m w) as [a w'|w']; simpl in *; [|exact Hm].
  intros Hb. apply (Hf a w'). by apply Hm.
Qed.

Lemma keepsFlag_onApi {A} b (m : M HAProxy A) : respects (keepsFlag b) (onApi m).
Proof. intros [c h] Hb. unfold onApi. simpl. by destruct (m h). Qed.

Lemma keepsFlag_get b : respects (keepsFlag b) (onCfg get).
Proof. intros [c h] Hb. exact Hb. Qed.

Lemma keepsFlag_modify b g :
  (∀ c, Cfg_SSLPassthrough c = b → Cfg_SSLPassthrough (g c) = b) →
  respects (keepsFlag b) (onCfg (modify g)).
Proof. intros Hg [c h] Hb. simpl. by apply Hg. Qed.

Lemma keepsFlag_logger_Panic b e : respects (keepsFlag b) (logger_Panic e).
Proof. destruct e; [apply keepsFlag_panic | apply keepsFlag_ret]. Qed.

Ltac keeps :=
  repeat first
    [ apply keepsFlag_onApi
    | apply keepsFlag_get
    | apply keepsFlag_logger_Panic
    | apply keepsFlag_ret
    | apply keepsFlag_panic
    | apply keepsFlag_modify; intros ? ?; simpl; first [assumption | reflexivity]
    | apply keepsFlag_bind; [| intros ?]
    | match goal with
      | |- respects _ (match ?x with _ => _ end) => destruct x
      | |- respects _ (let '(_, _) := ?x in _) => destruct x
      end ].

Lemma keepsFlag_handleClientTLSAuth b h k :
  respects (keepsFlag b) (handleClientTLSAuth GetBoolValue h k).
Proof. unfold handleClientTLSAuth. keeps. Qed.

Lemma keepsFlag_toggleSSLPassthrough b h p :
  respects (keepsFlag b) (toggleSSLPassthrough h p).
Proof. unfold toggleSSLPassthrough. keeps. Qed.

Lemma keepsFlag_enableSSLPassthrough b h :
  respects (keepsFlag b) (enableSSLPassthrough h).
Proof.
  unfold enableSSLPassthrough. keeps.
Qed.

Lemma keepsFlag_disableSSLPassthrough b h :
  respects (keepsFlag b) (disableSSLPassthrough h).
Proof.
  unfold disableSSLPassthrough, HAProxyRules_DeleteFrontend. keeps.
Qed.

Lemma keepsFlag_sslPassthroughRules b h k :
  respects (keepsFlag b) (sslPassthroughRules ParseTime GetMapPath_MAP_SNI h k).
Proof. unfold sslPassthroughRules, HAProxyRules_AddRule. keeps. Qed.

Lemma keepsFlag_updateOffload b h k :
  respects (keepsFlag b) (updateOffload GetBoolValue h k).
Proof.
  unfold updateOffload. keeps; try apply keepsFlag_handleClientTLSAuth; keeps.
Qed.

Lemma keepsFlag_updatePassthrough b h k reload :
  respects (keepsFlag b) (updatePassthrough ParseTime GetMapPath_MAP_SNI h k reload).
Proof.
  intros w Hb. unfold updatePassthrough. rewrite bind_get. cbn beta. rewrite Hb.
  revert Hb. generalize (Cfg_FrontSSL w.1). intros front. revert w.
  change (respects (keepsFlag b)
            (bind (onApi (api_FrontendGet front))
               (λ '(_, errFtSSL),
                  if b
                  then
                    bind (match errFtSSL with
                          | Some _ =>
                              bind (enableSSLPassthrough h) (λ _,
                                bind (onCfg (modify (set_SSLPassthrough true)))
                                  (λ _, ret true))
                          | None => ret reload
                          end)
                      (λ reload0,
                         bind (sslPassthroughRules ParseTime GetMapPath_MAP_SNI h k)
                           (λ _, ret reload0))
                  else
                    match errFtSSL with
                    | None =>
                        bind (disableSSLPassthrough h) (λ _,
                          bind (onCfg (modify (set_SSLPassthrough false)))
                            (λ _, ret true))
                    | Some _ => ret reload
                    end))).
  destruct b.
  - keeps; try apply keepsFlag_enableSSLPassthrough;
      try apply keepsFlag_sslPassthroughRules.
  - keeps; try apply keepsFlag_disableSSLPassthrough.
Qed.

Lemma keepsFlag_Update b h k :
  respects (keepsFlag b) (Update GetBoolValue ParseTime GetMapPath_MAP_SNI h k).
Proof.
  unfold Update. destruct (negb (HTTPS_Enabled h)); [apply keepsFlag_ret|].
  apply keepsFlag_bind; [apply keepsFlag_updateOffload |].
  intros [early|reload]; [apply keepsFlag_ret|].
  apply keepsFlag_bind; [apply keepsFlag_updatePassthrough |].
  intros reload'. keeps.
Qed.

Lemma Update_flag h k w :
  Cfg_SSLPassthrough (final (Update GetBoolValue ParseTime GetMapPath_MAP_SNI h k w)).1
  = Cfg_SSLPassthrough w.1.
Proof. by apply (keepsFlag_Update (Cfg_SSLPassthrough w.1) h k w). Qed.
End FlagFacts.

(** C10.  [sslPassthroughEnabled] sets the passthrough flag when the
    option resolves to true and otherwise leaves the configuration as it
    is (also when the value does not parse): it never clears the flag.
    [Update], whose one assignment of false is on the branch that deletes
    the passthrough frontend, taken only when the flag is false already,
    leaves the flag as it finds it. *)
Theorem SSLPassthrough_flag_monotone
    (GetBoolValue : string → string → bool * error)
    (ParseTime : string → Z * error) (GetMapPath_MAP_SNI : string) (Store : K8s) :
  (∀ ingress path cfg,
     let r := sslPassthroughEnabled GetBoolValue Store ingress path cfg in
     (returned r = Some true → Cfg_SSLPassthrough (final r) = true)
     ∧ (returned r ≠ Some true → final r = cfg)
     ∧ (Cfg_SSLPassthrough cfg = true → Cfg_SSLPassthrough (final r) = true)
     ∧ (∀ sources, passthroughSources Store ingress path = Some sources →
          returned r = Some (resolvesTrue GetBoolValue sources)))
  ∧ (∀ h k w,
       Cfg_SSLPassthrough
         (final (Update GetBoolValue ParseTime GetMapPath_MAP_SNI h k w)).1
       = Cfg_SSLPassthrough w.1).
Proof.
  split.
  - intros ingress path cfg r. unfold r.
    rewrite sslPassthroughEnabled_run.
    destruct (passthroughSources Store ingress path) as [sources|]; simpl.
    + destruct (resolvesTrue GetBoolValue sources) eqn:Hres; simpl;
        (split; [|split; [|split]]).
      * reflexivity.
      * intros Hne. by destruct Hne.
      * reflexivity.
      * intros ? [= <-]. by rewrite Hres.
      * intros [=].
      * reflexivity.
      * auto.
      * intros ? [= <-]. by rewrite Hres.
    + split; [|split; [|split]].
      * intros [=].
      * reflexivity.
      * auto.
      * intros ? [=].
  - intros h k w. apply Update_flag.
Qed.

(** A value that does not parse leaves a flag that is set as it is. *)
Lemma SSLPassthrough_flag_monotone_witness :
  let cfg := set_SSLPassthrough true Example.cfg0 in
  let r := sslPassthroughEnabled Example.parseBool PipelineExample.plainStore
             (Example.webIngress {[ "ssl-passthrough" := "maybe" ]}) None cfg in
  returned r = Some false ∧ Cfg_SSLPassthrough (final r) = true.
Proof.
  pose proof (proj1 (SSLPassthrough_flag_monotone Example.parseBool HandlerExample.parseTime
                       HandlerExample.sniMap PipelineExample.plainStore)
                (Example.webIngress {[ "ssl-passthrough" := "maybe" ]}) None
                (set_SSLPassthrough true Example.cfg0)) as (_ & _ & Hkeep & Hval).
  split.
  - rewrite (Hval _ eq_refl). vm_compute. reflexivity.
  - apply Hkeep. reflexivity.
Defined.

(** * Further properties of the code *)

(** ** The bind list of the HTTPS descriptor *)

(** X1.  [bindList] yields one bind per enabled IP family, named [v4] and
    [v6], on the port of the descriptor.  Under passthrough both are on
    loopback addresses and accept the proxy protocol; otherwise they are
    on the configured addresses and do not.  The binds carry no TLS
    setting at all. *)
Theorem bindList_shape h passthrough :
  Bind_Name <$> bindList h passthrough
    = (if HTTPS_IPv4 h then ["v4"] else []) ++ (if HTTPS_IPv6 h then ["v6"] else [])
  ∧ NoDup (Bind_Name <$> bindList h passthrough)
  ∧ ∀ b, b ∈ bindList h passthrough →
      Bind_Port b = HTTPS_Port h
      ∧ Bind_AcceptProxy b = passthrough
      ∧ Bind_Address b =
          (if bool_decide (Bind_Name b = "v4")
           then (if passthrough then "127.0.0.1" else HTTPS_AddrIPv4 h)
           else (if passthrough then "::1" else HTTPS_AddrIPv6 h))
      ∧ Bind_V4v6 b = negb (bool_decide (Bind_Name b = "v4"))
      ∧ Bind_Ssl b = false ∧ Bind_SslCertificate b = EmptyString
      ∧ Bind_Alpn b = EmptyString
      ∧ Bind_SslCafile b = EmptyString ∧ Bind_Verify b = EmptyString.
Proof.
  unfold bindList.
  destruct (HTTPS_IPv4 h), (HTTPS_IPv6 h); simpl;
    (split; [reflexivity|]);
    (split; [repeat constructor; rewrite ?elem_of_cons, ?elem_of_nil;
             intros H; repeat (destruct H as [H|H]; try discriminate H); done|]);
    intros b Hb; rewrite ?elem_of_cons, ?elem_of_nil in Hb;
    repeat (destruct Hb as [Hb|Hb]); try done; subst b; simpl;
    destruct passthrough; repeat split; reflexivity.
Qed.

(** ** Ingress admission *)

Section AdmissionExtra.
Variable CONTROLLER_CLASS : string.
Variable args : OSArgs.
Variable Store : K8s.

(** X2.  The ingress is marked [MODIFIED] exactly when it is admitted
    through an IngressClass resource that was itself freshly observed:
    not when it is admitted as unclassified, and not when its annotation
    names the class of the controller, since the resource is not looked
    up then.  In every other case the ingress is left as it is. *)
Theorem igClassIsSupported_status ingress :
  let ann := GetValue "ingress.class" [Ingress_Annotations ingress] in
  let r := igClassIsSupported CONTROLLER_CLASS args Store ingress in
  let fresh :=
    ¬ (ann = EmptyString ∧ OSArgs_EmptyIngressClass args = true)
    ∧ (ann = EmptyString ∨ ann ≠ OSArgs_IngressClass args)
    ∧ ∃ igClass, K8s_IngressClasses Store !! Ingress_Class ingress = Some igClass
                 ∧ IngressClass_Status igClass ≠ DELETED
                 ∧ IngressClass_Controller igClass = CONTROLLER_CLASS
                 ∧ IngressClass_Status igClass ≠ EMPTY in
  (fresh → r = (true, Ingress_set_Status MODIFIED ingress))
  ∧ (¬ fresh → r.2 = ingress).
Proof.
  intros ann r fresh. unfold r, fresh, igClassIsSupported. fold ann.
  destruct (decide (ann = EmptyString)) as [He|He];
  destruct (OSArgs_EmptyIngressClass args) eqn:Hf;
  destruct (decide (ann = OSArgs_IngressClass args)) as [Hc|Hc];
  repeat (rewrite ?bool_decide_eq_true_2, ?bool_decide_eq_false_2 by (auto; congruence));
  simpl;
  try (split; [intros (Hn & Ho & _); exfalso; first [by apply Hn | by destruct Ho]
              | intros _; reflexivity]; fail);
  (destruct (K8s_IngressClasses Store !! Ingress_Class ingress) as [ic|] eqn:Hic;
   [ destruct (decide (IngressClass_Status ic ≠ DELETED)) as [Hs|Hs];
     destruct (decide (IngressClass_Controller ic = CONTROLLER_CLASS)) as [Hk|Hk];
     destruct (decide (IngressClass_Status ic ≠ EMPTY)) as [Hm|Hm];
     repeat (rewrite ?bool_decide_eq_true_2, ?bool_decide_eq_false_2
               by (auto; congruence)); simpl
   | ]);
  (split;
   [ intros (_ & _ & ic' & Hl & Hs' & Hk' & Hm'); simplify_eq; try reflexivity;
     try contradiction
   | intros Hn; try reflexivity; try (by destruct (OSArgs_IngressClass args));
     exfalso; apply Hn;
     (split; [intros [? ?]; congruence|]);
     (split; [auto|]); exists ic; auto ]).
Qed.

(** X3.  An ingress whose class annotation names another class is
    admitted exactly when the IngressClass resource it refers to exists,
    is not deleted and is controlled by this controller: a mismatching
    annotation does not keep the ingress out. *)
Theorem igClassIsSupported_other_class ingress :
  GetValue "ingress.class" [Ingress_Annotations ingress] ≠ EmptyString →
  GetValue "ingress.class" [Ingress_Annotations ingress] ≠ OSArgs_IngressClass args →
  ((igClassIsSupported CONTROLLER_CLASS args Store ingress).1 = true
   ↔ classControlled CONTROLLER_CLASS Store ingress).
Proof.
  intros He Hc. rewrite igClassIsSupported_iff. split.
  - intros [[? _]|[?|?]]; [contradiction|assumption|contradiction].
  - auto.
Qed.

End AdmissionExtra.

Lemma igClassIsSupported_other_class_witness :
  (igClassIsSupported Example.CONTROLLER_CLASS Example.strictArgs Example.classStore
     AdmissionExample.foreignIngress).1 = true.
Proof.
  apply (proj2 (igClassIsSupported_other_class Example.CONTROLLER_CLASS Example.strictArgs
                  Example.classStore AdmissionExample.foreignIngress
                  ltac:(vm_compute; discriminate) ltac:(vm_compute; discriminate))).
  eexists. split; [vm_compute; reflexivity|]. split; [discriminate|reflexivity].
Defined.

(** ** The annotation pipeline *)

Section PipelineExtra.
Variable GetBoolValue : string → string → bool * error.
Variable GetFrontendAnnotations : Ingress → K8s → list FrontendAnnotation.
Variable RuleID : Type.
Variable GetID : Rule → RuleID.
Variable Store : K8s.

Local Arguments addToFrontends : simpl never.

Lemma attachRule_effect ingress ingressRule rule frontends cfg :
  let pt := resolvesTrue GetBoolValue [Ingress_Annotations ingress; mainAnnotations Store] in
  let fs := nextFrontends cfg pt rule frontends in
  ∃ cfg',
    attachRule GetBoolValue Store ingress ingressRule rule frontends cfg = Ret fs cfg'
    ∧ Cfg_HAProxyRules cfg' = Cfg_HAProxyRules cfg ++ (AddRule rule ingressRule <$> fs)
    ∧ Cfg_RateLimitTables cfg' =
        Cfg_RateLimitTables cfg ++ option_list (rateLimitTable rule)
    ∧ Cfg_SSLPassthrough cfg' = Cfg_SSLPassthrough cfg || (consultsPassthrough rule && pt)
    ∧ otherSettings cfg' = otherSettings cfg.
Proof.
  intros pt fs. unfold fs, attachRule, ruleFrontends. clear fs.
  destruct rule as [| | |ssl c|c|c|t c|c]; simpl;
    unfold bind, ret, get, modify;
    rewrite ?sslPassthroughEnabled_run; cbn [passthroughSources]; fold pt;
    try destruct ssl; try (clearbody pt; destruct pt); cbn beta iota;
    rewrite addToFrontends_run;
    eexists; (split; [reflexivity|]); simpl;
    rewrite ?app_nil_r, ?orb_false_r, ?orb_true_r; auto.
Qed.

Lemma attachRules_effect ingress ingressRule result : ∀ frontends ids cfg,
  let pt := resolvesTrue GetBoolValue [Ingress_Annotations ingress; mainAnnotations Store] in
  ∃ cfg',
    attachRules GetBoolValue RuleID GetID Store ingress ingressRule result frontends ids cfg
      = Ret (ids ++ (GetID <$> result)) cfg'
    ∧ Cfg_RateLimitTables cfg' = Cfg_RateLimitTables cfg ++ omap rateLimitTable result
    ∧ Cfg_SSLPassthrough cfg' =
        Cfg_SSLPassthrough cfg || (existsb consultsPassthrough result && pt)
    ∧ otherSettings cfg' = otherSettings cfg.
Proof.
  induction result as [|rule rest IH]; intros frontends ids cfg pt.
  - exists cfg. simpl. rewrite !app_nil_r, orb_false_r. auto.
  - destruct (attachRule_effect ingress ingressRule rule frontends cfg)
      as (cfg1 & Hrun & _ & Ht & Hf & Ho).
    destruct (IH (nextFrontends cfg pt rule frontends) (ids ++ [GetID rule]) cfg1)
      as (cfg' & Hrun' & Ht' & Hf' & Ho').
    exists cfg'. simpl attachRules. unfold bind at 1. fold pt in Hrun. rewrite Hrun, Hrun'.
    split; [by rewrite <- app_assoc|].
    split; [|split].
    + rewrite Ht', Ht. rewrite <- app_assoc. f_equal.
      simpl. by destruct (rateLimitTable rule).
    + rewrite Hf', Hf. simpl. fold pt.
      destruct (Cfg_SSLPassthrough cfg), (consultsPassthrough rule),
        (existsb consultsPassthrough rest), pt; reflexivity.
    + congruence.
Qed.

Lemma nextFrontends_keeps cfg pt rule frontends :
  keepsFrontends pt rule → nextFrontends cfg pt rule frontends = frontends.
Proof.
  intros [Hr Hp]. destruct rule; simpl in *; try reflexivity.
  - by destruct Hr.
  - by rewrite Hp by auto.
  - by rewrite Hp by auto.
Qed.

Lemma attachRules_app ingress ingressRule pre post : ∀ frontends ids cfg,
  ∃ fs1 cfg1 ops,
    attachRules GetBoolValue RuleID GetID Store ingress ingressRule (pre ++ post)
      frontends ids cfg
    = attachRules GetBoolValue RuleID GetID Store ingress ingressRule post
        fs1 (ids ++ (GetID <$> pre)) cfg1
    ∧ Cfg_HAProxyRules cfg1 = Cfg_HAProxyRules cfg ++ ops
    ∧ Forall (λ op, ∃ rule f, rule ∈ pre ∧ op = AddRule rule ingressRule f) ops
    ∧ otherSettings cfg1 = otherSettings cfg.
Proof.
  induction pre as [|rule pre IH]; intros frontends ids cfg.
  - exists frontends, cfg, []. simpl. rewrite !app_nil_r. auto.
  - destruct (attachRule_effect ingress ingressRule rule frontends cfg)
      as (cfg1 & Hrun & Hops & _ & _ & Ho).
    destruct (IH (nextFrontends cfg
                    (resolvesTrue GetBoolValue
                       [Ingress_Annotations ingress; mainAnnotations Store])
                    rule frontends) (ids ++ [GetID rule]) cfg1)
      as (fs1 & cfg2 & ops & Hrun' & Hops' & Hall & Ho').
    eexists fs1, cfg2, _. simpl app. simpl attachRules. unfold bind at 1.
    rewrite Hrun, Hrun'.
    split; [by rewrite <- app_assoc|].
    split; [rewrite Hops', Hops, <- app_assoc; reflexivity|].
    split; [|congruence].
    apply Forall_app. split.
    + apply Forall_fmap, Forall_forall. intros f _. simpl.
      exists rule, f. split; [left|reflexivity].
    + eapply Forall_impl; [exact Hall|]. simpl.
      intros op (r & f & Hin & ->). exists r, f. split; [by right|reflexivity].
Qed.

Lemma attachRules_kept ingress ingressRule post : ∀ fs ids cfg,
  Forall (keepsFrontends
            (resolvesTrue GetBoolValue
               [Ingress_Annotations ingress; mainAnnotations Store])) post →
  ∃ cfg',
    attachRules GetBoolValue RuleID GetID Store ingress ingressRule post fs ids cfg
      = Ret (ids ++ (GetID <$> post)) cfg'
    ∧ Cfg_HAProxyRules cfg' =
        Cfg_HAProxyRules cfg ++ concat ((λ rule, AddRule rule ingressRule <$> fs) <$> post).
Proof.
  induction post as [|rule post IH]; intros fs ids cfg Hall.
  - exists cfg. simpl. by rewrite !app_nil_r.
  - apply Forall_cons in Hall as [Hrule Hall].
    destruct (attachRule_effect ingress ingressRule rule fs cfg)
      as (cfg1 & Hrun & Hops & _).
    rewrite (nextFrontends_keeps _ _ _ _ Hrule) in Hrun, Hops.
    destruct (IH fs (ids ++ [GetID rule]) cfg1 Hall) as (cfg' & Hrun' & Hops').
    exists cfg'. simpl attachRules. unfold bind at 1. rewrite Hrun, Hrun'.
    split; [by rewrite <- app_assoc|].
    rewrite Hops', Hops. simpl. by rewrite <- app_assoc.
Qed.

Lemma handleIngressAnnotations_unfold ingress cfg :
  handleIngressAnnotations GetBoolValue GetFrontendAnnotations RuleID GetID Store ingress cfg
  = attachRules GetBoolValue RuleID GetID Store ingress
      (negb (bool_decide (ingress = zeroIngress)))
      (processAnnotations
         (if bool_decide (ingress = zeroIngress)
          then mainAnnotations Store else Ingress_Annotations ingress)
         (GetFrontendAnnotations ingress Store) [])
      [Cfg_FrontHTTP cfg; Cfg_FrontHTTPS cfg] [] cfg.
Proof. unfold handleIngressAnnotations. by case_bool_decide. Qed.

(** X4.  [handleIngressAnnotations] always returns, with one rule id per
    rule produced by the annotation handlers, in order.  Every rate-limit
    rule appends its table to [RateLimitTables], in rule order and
    without looking whether the table is listed already.  Apart from the
    rule registry and the passthrough flag, nothing else of the
    controller configuration changes. *)
Theorem handleIngressAnnotations_effects ingress cfg :
  let annList :=
    if bool_decide (ingress = zeroIngress)
    then mainAnnotations Store else Ingress_Annotations ingress in
  let result := processAnnotations annList (GetFrontendAnnotations ingress Store) [] in
  let r := handleIngressAnnotations GetBoolValue GetFrontendAnnotations RuleID GetID Store
             ingress cfg in
  returned r = Some (GetID <$> result)
  ∧ Cfg_RateLimitTables (final r) = Cfg_RateLimitTables cfg ++ omap rateLimitTable result
  ∧ otherSettings (final r) = otherSettings cfg.
Proof.
  intros annList result r. unfold r. rewrite handleIngressAnnotations_unfold.
  fold annList. fold result.
  destruct (attachRules_effect ingress (negb (bool_decide (ingress = zeroIngress))) result
              [Cfg_FrontHTTP cfg; Cfg_FrontHTTPS cfg] [] cfg)
    as (cfg' & -> & Ht & _ & Ho).
  simpl. auto.
Qed.

(** X5.  Processing the annotations of an ingress (or of the config map)
    turns the passthrough flag of the controller configuration on exactly
    when a deny or capture rule was produced and the ssl-passthrough
    option resolves to true over the ingress annotations and the config
    map; in every other case the flag stays as it was. *)
Theorem handleIngressAnnotations_flag ingress cfg :
  let annList :=
    if bool_decide (ingress = zeroIngress)
    then mainAnnotations Store else Ingress_Annotations ingress in
  let result := processAnnotations annList (GetFrontendAnnotations ingress Store) [] in
  let r := handleIngressAnnotations GetBoolValue GetFrontendAnnotations RuleID GetID Store
             ingress cfg in
  Cfg_SSLPassthrough (final r) =
    Cfg_SSLPassthrough cfg
    || (existsb consultsPassthrough result
        && resolvesTrue GetBoolValue [Ingress_Annotations ingress; mainAnnotations Store]).
Proof.
  intros annList result r. unfold r. rewrite handleIngressAnnotations_unfold.
  fold annList. fold result.
  destruct (attachRules_effect ingress (negb (bool_decide (ingress = zeroIngress))) result
              [Cfg_FrontHTTP cfg; Cfg_FrontHTTPS cfg] [] cfg)
    as (cfg' & -> & _ & Hf & _).
  exact Hf.
Qed.

(** X6.  The frontends of a rule are remembered from one rule to the
    next.  After a redirect rule with SSL-redirect set, which goes to the
    HTTP frontend only, every following rule that does not choose its
    frontends itself (no redirect, and no deny or capture rule under
    passthrough) is attached to the HTTP frontend only as well: it does
    not reach the HTTPS frontend. *)
Theorem handleIngressAnnotations_after_ssl_redirect ingress cfg pre c post :
  let annList :=
    if bool_decide (ingress = zeroIngress)
    then mainAnnotations Store else Ingress_Annotations ingress in
  let ingressRule := negb (bool_decide (ingress = zeroIngress)) in
  let result := processAnnotations annList (GetFrontendAnnotations ingress Store) [] in
  let passthrough :=
    resolvesTrue GetBoolValue [Ingress_Annotations ingress; mainAnnotations Store] in
  let r := handleIngressAnnotations GetBoolValue GetFrontendAnnotations RuleID GetID Store
             ingress cfg in
  result = pre ++ RequestRedirect true c :: post →
  Forall (keepsFrontends passthrough) post →
  ∃ ops,
    Cfg_HAProxyRules (final r) =
      Cfg_HAProxyRules cfg ++ ops
      ++ AddRule (RequestRedirect true c) ingressRule (Cfg_FrontHTTP cfg)
         :: ((λ rule, AddRule rule ingressRule (Cfg_FrontHTTP cfg)) <$> post)
    ∧ Forall (λ op, ∃ rule f, rule ∈ pre ∧ op = AddRule rule ingressRule f) ops.
Proof.
  intros annList ingressRule result passthrough r Hres Hpost.
  unfold r. rewrite handleIngressAnnotations_unfold.
  fold annList. fold result. fold ingressRule. rewrite Hres.
  destruct (attachRules_app ingress ingressRule pre (RequestRedirect true c :: post)
              [Cfg_FrontHTTP cfg; Cfg_FrontHTTPS cfg] [] cfg)
    as (fs1 & cfg1 & ops & -> & Hops & Hall & Ho).
  exists ops. split; [|exact Hall].
  simpl attachRules. unfold bind at 1.
  destruct (attachRule_effect ingress ingressRule (RequestRedirect true c) fs1 cfg1)
    as (cfg2 & -> & Hops2 & _).
  simpl nextFrontends in *.
  destruct (attachRules_kept ingress ingressRule post [Cfg_FrontHTTP cfg1]
              ([] ++ (GetID <$> pre) ++ [GetID (RequestRedirect true c)]) cfg2 Hpost)
    as (cfg' & Hrun & Hops').
  simpl app in Hrun. simpl app. rewrite Hrun. simpl final.
  rewrite Hops', Hops2, Hops.
  assert (Hh : Cfg_FrontHTTP cfg1 = Cfg_FrontHTTP cfg).
  { unfold otherSettings in Ho. congruence. }
  rewrite Hh.
  assert (Hc : ∀ l : list Rule,
             concat ((λ rule, AddRule rule ingressRule <$> [Cfg_FrontHTTP cfg]) <$> l)
             = (λ rule, AddRule rule ingressRule (Cfg_FrontHTTP cfg)) <$> l).
  { induction l as [|x l IH]; simpl in *; [reflexivity|]. by f_equal. }
  rewrite Hc. simpl. by rewrite <- !app_assoc.
Qed.

End PipelineExtra.

(** On [redirectHeaderIngress] the header rule follows the SSL redirect
    to the HTTP frontend. *)
Lemma handleIngressAnnotations_after_ssl_redirect_witness :
  ∃ ops,
    Cfg_HAProxyRules
      (final (PipelineExample.run PipelineExample.plainStore
                PipelineExample.redirectHeaderIngress))
    = ops ++ [AddRule (RequestRedirect true "302") true "http";
              AddRule (OtherRule "X-Env prod") true "http"]
    ∧ Forall (λ op, ∃ rule f, rule ∈ @nil Rule ∧ op = AddRule rule true f) ops.
Proof.
  destruct (handleIngressAnnotations_after_ssl_redirect Example.parseBool Example.handlers
              Rule id PipelineExample.plainStore PipelineExample.redirectHeaderIngress
              Example.cfg0 [] "302" [OtherRule "X-Env prod"])
    as (ops & Hops & Hall).
  - vm_compute. reflexivity.
  - constructor; [|constructor]. split; [discriminate|].
    intros [H|H]; discriminate H.
  - exists ops. split; [exact Hops|exact Hall].
Defined.

(** ** Global and defaults synchronisation *)

Section SectionsExtra.
Context {Global Defaults LogTarget Env : Type}.
Context `{EqDecision Global, EqDecision Defaults, EqDecision LogTarget}.
Variable zeroGlobal : Global.
Variable zeroDefaults : Defaults.
Variable GetGlobalAnnotations : list (@GlobalAnnotation Global LogTarget).
Variable GetDefaultsAnnotations : list (@DefaultsAnnotation Defaults).
Variable SetGlobal : Global → Env → Global.
Variable SetDefaults : Defaults → Defaults.
Variable UpdateGlobalCfgSnippet : bool * error.
Variable UpdateFrontendCfgSnippet : list string → bool * error.
Variable Store : K8s.
Variable StoreCR : @CR Global Defaults.
Variable Cfg_Env : Env.

(** X7.  [defaultsCfg] asks for a reload exactly when it changed the live
    Defaults section, whatever fails: a failed fetch, an up-to-date
    section and a failed push all leave the section as it was and give no
    reload.  A changed section is the desired one, and the Global section
    and the log targets are never touched. *)
Theorem defaultsCfg_reload_iff_changed (c : @SectionsClient Global Defaults LogTarget) :
  let r := defaultsCfg zeroDefaults GetDefaultsAnnotations SetDefaults Store StoreCR c in
  returned r = Some (bool_decide (LiveDefaults (final r) ≠ LiveDefaults c))
  ∧ (LiveDefaults (final r) ≠ LiveDefaults c →
       LiveDefaults (final r) =
         SetDefaults (desiredDefaults (Global := Global) zeroDefaults GetDefaultsAnnotations
                        Store StoreCR))
  ∧ LiveGlobal (final r) = LiveGlobal c
  ∧ LiveLogTargets (final r) = LiveLogTargets c.
Proof.
  intros r. unfold r, defaultsCfg.
  unfold api_DefaultsGetConfiguration, api_DefaultsPushConfiguration,
    sectionRequest, sectionCommand, bind, ret. simpl.
  destruct (SectionFault c DefaultsGetConfiguration); simpl.
  { rewrite bool_decide_eq_false_2 by auto. by repeat split. }
  case_bool_decide as Hne; simpl.
  - destruct (SectionFault c (DefaultsPushConfiguration _)); simpl.
    + rewrite bool_decide_eq_false_2 by auto. by repeat split.
    + rewrite bool_decide_eq_true_2 by exact Hne. by repeat split.
  - rewrite bool_decide_eq_false_2 by auto. by repeat split.
Qed.

(** X8.  When the fetch of the live Global section or of the live log
    targets fails, [globalCfg] gives up at once: it reports neither reload
    nor restart, whatever the configuration snippets would have
    reported, issues no call that changes the proxy, and leaves the live
    sections as they are. *)
Theorem globalCfg_fetch_failure (c : @SectionsClient Global Defaults LogTarget) :
  SectionFault c GlobalGetConfiguration = true
  ∨ SectionFault c GlobalGetLogTargets = true →
  let r := globalCfg zeroGlobal GetGlobalAnnotations SetGlobal UpdateGlobalCfgSnippet
             UpdateFrontendCfgSnippet Store StoreCR Cfg_Env c in
  returned r = Some (false, false)
  ∧ LiveGlobal (final r) = LiveGlobal c
  ∧ LiveLogTargets (final r) = LiveLogTargets c
  ∧ LiveDefaults (final r) = LiveDefaults c
  ∧ ∃ calls, SectionCalls (final r) = SectionCalls c ++ calls
             ∧ Forall (λ call, sectionMutating call = false) calls.
Proof.
  intros Hfault r. unfold r, globalCfg.
  unfold api_GlobalGetConfiguration, api_GlobalGetLogTargets,
    sectionRequest, bind, ret. simpl.
  destruct (SectionFault c GlobalGetConfiguration) eqn:Hg; simpl.
  - repeat (split; [reflexivity|]).
    exists [GlobalGetConfiguration]. split; [reflexivity|]. by repeat constructor.
  - destruct Hfault as [Hf|Hf]; [discriminate Hf|]. rewrite Hf. simpl.
    repeat (split; [reflexivity|]).
    exists [GlobalGetConfiguration; GlobalGetLogTargets].
    split; [by rewrite <- app_assoc|]. by repeat constructor.
Qed.

(** X9.  [globalCfg] converges: after a run in which no call of the
    client failed, the live Global section and the live log targets are
    the desired ones, and a second run, on the same store, only fetches
    the two again; what it reports is what the configuration snippets
    report. *)
Theorem globalCfg_converges (c : @SectionsClient Global Defaults LogTarget) :
  (∀ call, SectionFault c call = false) →
  let run := globalCfg zeroGlobal GetGlobalAnnotations SetGlobal UpdateGlobalCfgSnippet
               UpdateFrontendCfgSnippet Store StoreCR Cfg_Env in
  let desired := desiredGlobal (Defaults := Defaults) zeroGlobal GetGlobalAnnotations
                   Store StoreCR in
  let r1 := run c in
  let r2 := run (final r1) in
  LiveGlobal (final r1) = SetGlobal desired.1 Cfg_Env
  ∧ LiveLogTargets (final r1) = desired.2
  ∧ returned r2 = Some ((UpdateFrontendCfgSnippet ["http"; "https"; "stats"]).1,
                        UpdateGlobalCfgSnippet.1)
  ∧ SectionCalls (final r2) =
      SectionCalls (final r1) ++ [GlobalGetConfiguration; GlobalGetLogTargets]
  ∧ LiveGlobal (final r2) = LiveGlobal (final r1)
  ∧ LiveLogTargets (final r2) = LiveLogTargets (final r1).
Proof.
  intros Hfault run desired r1 r2.
  assert (H1 : LiveGlobal (final r1) = SetGlobal desired.1 Cfg_Env
               ∧ LiveLogTargets (final r1) = desired.2
               ∧ SectionFault (final r1) = SectionFault c).
  { unfold r1, run, globalCfg.
    unfold api_GlobalGetConfiguration, api_GlobalGetLogTargets, api_GlobalPushConfiguration,
      api_GlobalDeleteLogTargets, api_GlobalCreateLogTargets,
      sectionRequest, sectionCommand, bind, ret. simpl.
    rewrite !Hfault. simpl. fold desired.
    case_bool_decide as Hg; simpl; repeat (rewrite Hfault; simpl);
      (case_bool_decide as Hl; simpl; repeat (rewrite Hfault; simpl));
      repeat split; try reflexivity;
      symmetry; try apply dec_stable in Hg; try apply dec_stable in Hl; assumption. }
  destruct H1 as (Hg & Hl & Hf).
  split; [exact Hg|]. split; [exact Hl|].
  assert (Hfault' : ∀ call, SectionFault (final r1) call = false).
  { intros call. by rewrite Hf. }
  unfold r2, run, globalCfg.
  unfold api_GlobalGetConfiguration, api_GlobalGetLogTargets,
    sectionRequest, sectionCommand, bind, ret. simpl.
  fold desired.
  repeat (first [ rewrite Hfault' | rewrite Hg | rewrite Hl
                | rewrite bool_decide_eq_false_2 by auto ]; simpl).
  destruct UpdateGlobalCfgSnippet.1,
    (UpdateFrontendCfgSnippet ["http"; "https"; "stats"]).1; simpl;
    rewrite <- ?app_assoc; repeat split; reflexivity.
Qed.

(** X10.  The replacement of the log targets is not atomic.  When the
    desired log targets differ from the live ones, the live ones are
    deleted first; if the creation of the desired ones then fails, the
    error is only logged: the proxy is left without log targets, and
    restart is marked all the same. *)
Theorem globalCfg_log_targets_lost (c : @SectionsClient Global Defaults LogTarget) :
  let desired := desiredGlobal (Defaults := Defaults) zeroGlobal GetGlobalAnnotations
                   Store StoreCR in
  let r := globalCfg zeroGlobal GetGlobalAnnotations SetGlobal UpdateGlobalCfgSnippet
             UpdateFrontendCfgSnippet Store StoreCR Cfg_Env c in
  SectionFault c GlobalGetConfiguration = false →
  SectionFault c GlobalGetLogTargets = false →
  desired.2 ≠ LiveLogTargets c →
  SectionFault c GlobalDeleteLogTargets = false →
  SectionFault c (GlobalCreateLogTargets desired.2) = true →
  LiveLogTargets (final r) = []
  ∧ snd <$> returned r = Some true.
Proof.
  intros desired r Hg Hl Hne Hd Hc. unfold r, globalCfg.
  unfold api_GlobalGetConfiguration, api_GlobalGetLogTargets, api_GlobalPushConfiguration,
    api_GlobalDeleteLogTargets, api_GlobalCreateLogTargets,
    sectionRequest, sectionCommand, bind, ret. simpl.
  rewrite Hg. simpl. rewrite Hl. simpl. fold desired.
  rewrite (bool_decide_eq_true_2 (desired.2 ≠ LiveLogTargets c)) by exact Hne.
  case_bool_decide; simpl;
    try destruct (SectionFault c (GlobalPushConfiguration (SetGlobal desired.1 Cfg_Env)));
    simpl; rewrite Hd; simpl; rewrite Hc; simpl;
    destruct UpdateGlobalCfgSnippet.1; split; reflexivity.
Qed.

End SectionsExtra.

Lemma globalCfg_fetch_failure_witness :
  returned (SectionsExample.runGlobal SectionsExample.noCR true true
              (SectionsExample.client EmptyString [] EmptyString
                 SectionsFaultExample.logTargetsFetchFails))
  = Some (false, false).
Proof.
  apply (globalCfg_fetch_failure (Env := unit) EmptyString SectionsExample.globalHandlers
           (λ g _, g) (true, None) (λ _, (true, None)) SectionsExample.store
           SectionsExample.noCR tt
           (SectionsExample.client EmptyString [] EmptyString
              SectionsFaultExample.logTargetsFetchFails)).
  right. reflexivity.
Defined.

Lemma globalCfg_converges_witness :
  let r1 := SectionsExample.runGlobal SectionsExample.noCR false false
              (SectionsExample.client EmptyString [] EmptyString SectionsExample.noFault) in
  let r2 := SectionsExample.runGlobal SectionsExample.noCR false false (final r1) in
  LiveGlobal (final r1) = "2000"
  ∧ LiveLogTargets (final r1) = ["127.0.0.1"]
  ∧ returned r2 = Some (false, false).
Proof.
  pose proof (globalCfg_converges (Env := unit) EmptyString SectionsExample.globalHandlers
                (λ g _, g) (false, None) (λ _, (false, None)) SectionsExample.store
                SectionsExample.noCR tt
                (SectionsExample.client EmptyString [] EmptyString SectionsExample.noFault)
                (λ _, eq_refl)) as (Hg & Hl & Hr & _).
  split; [|split].
  - etransitivity; [exact Hg|]. vm_compute. reflexivity.
  - etransitivity; [exact Hl|]. vm_compute. reflexivity.
  - exact Hr.
Defined.

Lemma globalCfg_log_targets_lost_witness :
  let r := SectionsExample.runGlobal SectionsExample.noCR false false
             (SectionsExample.client "2000" ["10.0.0.1"] EmptyString
                SectionsFaultExample.logTargetsCreateFails) in
  LiveLogTargets (final r) = [] ∧ snd <$> returned r = Some true.
Proof.
  apply (globalCfg_log_targets_lost (Env := unit) EmptyString SectionsExample.globalHandlers
           (λ g _, g) (false, None) (λ _, (false, None)) SectionsExample.store
           SectionsExample.noCR tt
           (SectionsExample.client "2000" ["10.0.0.1"] EmptyString
              SectionsFaultExample.logTargetsCreateFails)).
  - reflexivity.
  - reflexivity.
  - vm_compute. discriminate.
  - reflexivity.
  - reflexivity.
Defined.

(** ** Default service *)

Section DefaultServiceExtra.
Variable ServiceCtx : Type.
Variable NewCtx : K8s → Ingress → option IngressPath → bool → ServiceCtx * error.
Variable GetStatus : ServiceCtx → Status.
Variable HandleBackend : ServiceCtx → K8s → M HAProxy (bool * string * error).
Variable HandleEndpoints : ServiceCtx → K8s → Certificates → M HAProxy bool.
Variable Store : K8s.

(** X11.  When [setDefaultService] returns an error, it reports no
    reload, even if the backend was created or a frontend was edited
    before the failure, and it has not touched the controller
    configuration: the backend is not marked active. *)
Theorem setDefaultService_error_no_reload ingress frontends w reload e :
  let r := setDefaultService ServiceCtx NewCtx GetStatus HandleBackend HandleEndpoints
             Store ingress frontends w in
  returned r = Some (reload, Some e) →
  reload = false ∧ (final r).1 = w.1.
Proof.
  intros r. destruct w as [cfg api]. subst r.
  remember (setDefaultService ServiceCtx NewCtx GetStatus HandleBackend HandleEndpoints
              Store ingress frontends (cfg, api)) as r eqn:Hr.
  unfold setDefaultService in Hr.
  destruct frontends as [|frontend0 rest]; [subst r; intros [=]|].
  unfold bind at 1 in Hr. unfold onApi at 1 in Hr. rewrite api_FrontendGet_run in Hr.
  cbn [fst snd] in Hr.
  revert Hr. generalize (logCall (FrontendGet frontend0) api). intros api0 Hr.
  destruct (if Fault api (FrontendGet frontend0) then _ else _) as [frontend [e0|]];
    [subst r; intros [= <- _]; by split|].
  destruct (NewCtx _ _ _ _) as [svc [e1|]]; [subst r; intros [= <- _]; by split|].
  case_bool_decide; [subst r; intros [=]|].
  unfold bind at 1 in Hr. unfold onApi at 1 in Hr. cbn [fst snd] in Hr.
  destruct (HandleBackend svc Store api0) as [[[bdReload backendName] err] api1|api1];
    [|subst r; intros [=]].
  destruct err as [e2|]; [subst r; intros [= <- _]; by split|].
  unfold bind at 1 in Hr.
  destruct (bool_decide (Frontend_DefaultBackend frontend ≠ backendName)).
  - unfold onApi at 1 in Hr. cbn [fst snd] in Hr.
    destruct (editDefaultBackend backendName (frontend0 :: rest) false api1)
      as [[ftReload err] api2|api2]; [|subst r; intros [=]].
    destruct err as [e3|]; [subst r; intros [= <- _]; by split|].
    unfold bind, onCfg, onApi, modify, get, ret in Hr. cbn [fst snd] in Hr.
    destruct (HandleEndpoints svc Store _ api2); subst r; intros [=].
  - unfold bind, onCfg, onApi, modify, get, ret in Hr. cbn [fst snd] in Hr.
    destruct (HandleEndpoints svc Store _ api1); subst r; intros [=].
Qed.

Lemma editDefaultBackend_run backendName frontends : ∀ ftReload api,
  (∀ c, Fault api c = false) →
  (∀ f, f ∈ frontends → hasFrontend api f) →
  ∃ api',
    editDefaultBackend backendName frontends ftReload api
      = Ret (ftReload || bool_decide (frontends ≠ []), None) api'
    ∧ (∀ g, Frontends api' !! g =
            if bool_decide (g ∈ frontends)
            then set_DefaultBackend backendName <$> Frontends api !! g
            else Frontends api !! g)
    ∧ Backends api' = Backends api
    ∧ Fault api' = Fault api.
Proof.
  induction frontends as [|f rest IH]; intros ftReload api Hfault Hhas.
  - exists api. simpl. rewrite orb_false_r. split; [reflexivity|].
    split; [|by split]. intros g.
    first [ reflexivity
          | rewrite bool_decide_eq_false_2; [reflexivity|apply not_elem_of_nil] ].
  - destruct (Hhas f) as (s & Hs & Hname); [left|].
    set (api1 := {| Frontends := <[f := set_DefaultBackend backendName s]> (Frontends api);
                    Backends := Backends api;
                    Calls := Calls api
                             ++ [FrontendGet f;
                                 FrontendEdit (Section_Frontend
                                                 (set_DefaultBackend backendName s))];
                    Fault := Fault api |}).
    destruct (IH true api1) as (api' & Hrun & Hfs & Hbs & Hf).
    { exact Hfault. }
    { intros g Hg. destruct (decide (g = f)) as [->|Hne].
      - exists (set_DefaultBackend backendName s). split; [|exact Hname].
        apply lookup_insert_eq.
      - destruct (Hhas g) as (sg & Hsg & Hng); [by right|].
        exists sg. split; [|exact Hng]. simpl. by rewrite lookup_insert_ne. }
    exists api'. simpl editDefaultBackend.
    erewrite bind_api; [|apply api_FrontendGet_run].
    rewrite Hfault, Hs. cbn beta iota.
    erewrite bind_api; cycle 1.
    { apply command_ok; [apply Hfault|]. simpl. rewrite Hname, Hs. reflexivity. }
    cbn beta iota.
    replace (set_Frontends _ _) with api1; cycle 1.
    { unfold api1, set_Frontends, logCall, set_DefaultBackend. simpl.
      rewrite Hname, <- app_assoc. reflexivity. }
    rewrite Hrun.
    split; [rewrite (bool_decide_eq_true_2 (f :: rest ≠ [])) by discriminate;
            by rewrite orb_true_r|].
    split; [|split; [exact Hbs|exact Hf]].
    intros g. rewrite Hfs. simpl Frontends.
    destruct (decide (g = f)) as [->|Hne].
    + rewrite lookup_insert_eq, Hs. rewrite (bool_decide_eq_true_2 (f ∈ f :: rest)) by left.
      destruct (bool_decide (f ∈ rest)); reflexivity.
    + rewrite lookup_insert_ne by congruence.
      destruct (decide (g ∈ rest)) as [Hin|Hin].
      * rewrite !bool_decide_eq_true_2; [reflexivity|by right|exact Hin].
      * rewrite !bool_decide_eq_false_2; [reflexivity| |exact Hin].
        rewrite elem_of_cons. intros [?|?]; congruence.
Qed.

(** X12.  When the default backend of the first listed frontend is not
    the backend of the service, every listed frontend is edited to point
    to it (nothing else of a frontend changes, the other frontends and
    the backends stay as [HandleBackend] left them); then the backend is
    marked active and the endpoints are handled, and reload is reported
    whatever the endpoints need. *)
Theorem setDefaultService_changes_default_backend
    ingress frontend0 rest cfg api s0 svc bdReload backendName api1 :
  let frontends := frontend0 :: rest in
  Fault api (FrontendGet frontend0) = false →
  Frontends api !! frontend0 = Some s0 →
  NewCtx Store ingress (Ingress_DefaultBackend ingress)
    (bool_decide (Frontend_Mode (Section_Frontend s0) = "tcp")) = (svc, None) →
  GetStatus svc ≠ DELETED →
  HandleBackend svc Store (logCall (FrontendGet frontend0) api)
    = Ret (bdReload, backendName, None) api1 →
  Frontend_DefaultBackend (Section_Frontend s0) ≠ backendName →
  (∀ c, Fault api1 c = false) →
  (∀ f, f ∈ frontends → hasFrontend api1 f) →
  ∃ api2,
    (∀ g, Frontends api2 !! g =
          if bool_decide (g ∈ frontends)
          then set_DefaultBackend backendName <$> Frontends api1 !! g
          else Frontends api1 !! g)
    ∧ Backends api2 = Backends api1
    ∧ setDefaultService ServiceCtx NewCtx GetStatus HandleBackend HandleEndpoints
        Store ingress frontends (cfg, api)
      = (let* _ := onApi (HandleEndpoints svc Store (Cfg_Certificates cfg)) in
         ret (true, None))
          (set_ActiveBackends ({[backendName]} ∪ Cfg_ActiveBackends cfg) cfg, api2).
Proof.
  intros frontends Hget Hs0 Hctx Hst Hbackend Hne Hfault Hhas.
  destruct (editDefaultBackend_run backendName frontends false api1 Hfault Hhas)
    as (api2 & Hrun & Hfs & Hbs & _).
  exists api2. split; [exact Hfs|]. split; [exact Hbs|].
  match goal with |- _ = ?r => set (rhs := r) end.
  unfold setDefaultService, frontends.
  erewrite bind_onApi; [|apply api_FrontendGet_run].
  rewrite Hget, Hs0. cbn beta iota. rewrite Hctx.
  rewrite bool_decide_eq_false_2 by exact Hst.
  erewrite bind_onApi; [|exact Hbackend]. cbn beta iota.
  rewrite (bool_decide_eq_true_2 _ Hne).
  erewrite bind_onApi; [|exact Hrun]. cbn beta iota.
  rewrite bind_modify. cbn beta. rewrite bind_get. cbn [fst snd].
  unfold rhs, bind, onApi. cbn [fst snd set_ActiveBackends Cfg_Certificates].
  destruct (HandleEndpoints svc Store (Cfg_Certificates cfg) api2) as [er api3|api3];
    [|reflexivity].
  unfold ret. simpl. by rewrite orb_true_r.
Qed.

(** X13.  Only the first listed frontend is compared with the backend of
    the service.  When its default backend is that backend already, no
    frontend is read or edited any more, whatever the default backends of
    the other listed frontends are: the endpoints are handled on the
    configuration as [HandleBackend] left it, and reload is reported
    only if the backend or the endpoints need it. *)
Theorem setDefaultService_checks_first_frontend_only
    ingress frontend0 rest cfg api s0 svc bdReload backendName api1 :
  Fault api (FrontendGet frontend0) = false →
  Frontends api !! frontend0 = Some s0 →
  NewCtx Store ingress (Ingress_DefaultBackend ingress)
    (bool_decide (Frontend_Mode (Section_Frontend s0) = "tcp")) = (svc, None) →
  GetStatus svc ≠ DELETED →
  HandleBackend svc Store (logCall (FrontendGet frontend0) api)
    = Ret (bdReload, backendName, None) api1 →
  Frontend_DefaultBackend (Section_Frontend s0) = backendName →
  setDefaultService ServiceCtx NewCtx GetStatus HandleBackend HandleEndpoints
    Store ingress (frontend0 :: rest) (cfg, api)
  = (let* endpointsReload := onApi (HandleEndpoints svc Store (Cfg_Certificates cfg)) in
     ret (bdReload || endpointsReload, None))
      (set_ActiveBackends ({[backendName]} ∪ Cfg_ActiveBackends cfg) cfg, api1).
Proof.
  intros Hget Hs0 Hctx Hst Hbackend Heq.
  match goal with |- _ = ?r => set (rhs := r) end.
  unfold setDefaultService.
  erewrite bind_onApi; [|apply api_FrontendGet_run].
  rewrite Hget, Hs0. cbn beta iota. rewrite Hctx.
  rewrite bool_decide_eq_false_2 by exact Hst.
  erewrite bind_onApi; [|exact Hbackend]. cbn beta iota.
  rewrite (bool_decide_eq_false_2 (Frontend_DefaultBackend (Section_Frontend s0)
                                   ≠ backendName)) by auto.
  rewrite bind_ret. cbn beta iota.
  rewrite bind_modify. cbn beta. rewrite bind_get. cbn [fst snd].
  unfold rhs, bind, onApi. cbn [fst snd set_ActiveBackends Cfg_Certificates].
  destruct (HandleEndpoints svc Store (Cfg_Certificates cfg) api1) as [er api3|api3];
    [|reflexivity].
  unfold ret. simpl. by rewrite orb_false_r.
Qed.

End DefaultServiceExtra.

Lemma setDefaultService_error_no_reload_witness :
  returned (ServiceExample.run (Example.cfg0, ServiceExample.emptyProxy))
    = Some (false, Some "client: frontend not found")
  ∧ (final (ServiceExample.run (Example.cfg0, ServiceExample.emptyProxy))).1 = Example.cfg0.
Proof.
  split; [vm_compute; reflexivity|].
  apply (setDefaultService_error_no_reload ServiceExample.ServiceCtx ServiceExample.NewCtx
           ServiceExample.GetStatus ServiceExample.HandleBackend
           ServiceExample.HandleEndpoints
           (Example.webStore ∅ ∅ [ {| ServicePort_Port := 80 |} ])
           ServiceExample.defaultIngress ["http"; "https"]
           (Example.cfg0, ServiceExample.emptyProxy) false "client: frontend not found").
  vm_compute. reflexivity.
Defined.

(** Both frontends point to another backend: both are edited. *)
Lemma setDefaultService_changes_default_backend_witness :
  let r := ServiceExample.run (Example.cfg0, ServiceExample.proxy "old" "old" (λ _, false)) in
  returned r = Some (true, None)
  ∧ Frontend_DefaultBackend ∘ Section_Frontend <$> Frontends (final r).2 !! "https"
    = Some "default-web-svc".
Proof.
  edestruct (setDefaultService_changes_default_backend
               ServiceExample.ServiceCtx ServiceExample.NewCtx
               ServiceExample.GetStatus ServiceExample.HandleBackend
               ServiceExample.HandleEndpoints
               (Example.webStore ∅ ∅ [ {| ServicePort_Port := 80 |} ])
               ServiceExample.defaultIngress "http" ["https"] Example.cfg0
               (ServiceExample.proxy "old" "old" (λ _, false)))
    as (api2 & Hfs & _ & Hrun).
  - reflexivity.
  - vm_compute. reflexivity.
  - vm_compute. reflexivity.
  - discriminate.
  - vm_compute. reflexivity.
  - vm_compute. discriminate.
  - reflexivity.
  - intros f Hin. apply elem_of_cons in Hin as [->|Hin];
      [|apply list_elem_of_singleton in Hin as ->];
      eexists; (split; [vm_compute; reflexivity|reflexivity]).
  - unfold ServiceExample.run. rewrite Hrun. split; [reflexivity|].
    simpl. rewrite Hfs. vm_compute. reflexivity.
Defined.

(** The HTTP frontend points to the backend of the service already; the
    HTTPS frontend, which points elsewhere, is left as it is. *)
Lemma setDefaultService_checks_first_frontend_only_witness :
  let r := ServiceExample.run
             (Example.cfg0, ServiceExample.proxy "default-web-svc" "old" (λ _, false)) in
  returned r = Some (true, None)
  ∧ Frontend_DefaultBackend ∘ Section_Frontend <$> Frontends (final r).2 !! "https"
    = Some "old".
Proof.
  unfold ServiceExample.run.
  erewrite (setDefaultService_checks_first_frontend_only
              ServiceExample.ServiceCtx ServiceExample.NewCtx
              ServiceExample.GetStatus ServiceExample.HandleBackend
              ServiceExample.HandleEndpoints
              (Example.webStore ∅ ∅ [ {| ServicePort_Port := 80 |} ])
              ServiceExample.defaultIngress "http" ["https"] Example.cfg0
              (ServiceExample.proxy "default-web-svc" "old" (λ _, false))
              (ServiceExample.frontendWith "http" "default-web-svc")
              "default-web-svc" true "default-web-svc"
              (final (ServiceExample.HandleBackend "default-web-svc"
                        (Example.webStore ∅ ∅ [ {| ServicePort_Port := 80 |} ])
                        (logCall (FrontendGet "http")
                           (ServiceExample.proxy "default-web-svc" "old" (λ _, false)))))).
  - vm_compute. split; reflexivity.
  - reflexivity.
  - vm_compute. reflexivity.
  - vm_compute. reflexivity.
  - discriminate.
  - vm_compute. reflexivity.
  - vm_compute. reflexivity.
Defined.

(** X14.  [handleDefaultService] acts only on a reference of the form
    [namespace/name], with both parts non-empty, to a service that the
    store knows in a namespace that it knows: for any other value of the
    parameter it returns no reload, issues no call and changes
    nothing. *)
Theorem handleDefaultService_acts_on_known_service_only
    (ServiceCtx : Type)
    (NewCtx : K8s → Ingress → option IngressPath → bool → ServiceCtx * error)
    (GetStatus : ServiceCtx → Status)
    (HandleBackend : ServiceCtx → K8s → M HAProxy (bool * string * error))
    (HandleEndpoints : ServiceCtx → K8s → Certificates → M HAProxy bool)
    (dsvcData : string) (store : K8s) (w : World) :
  handleDefaultService ServiceCtx NewCtx GetStatus HandleBackend HandleEndpoints
    dsvcData store w ≠ Ret false w →
  ∃ ns name namespace service,
    Split dsvcData "/"%char = [ns; name]
    ∧ ns ≠ EmptyString ∧ name ≠ EmptyString
    ∧ K8s_Namespaces store !! ns = Some namespace
    ∧ Namespace_Services namespace !! name = Some service.
Proof.
  unfold handleDefaultService. intros Hact.
  case_bool_decide as Hd; [by destruct Hact|].
  destruct (Split dsvcData "/"%char) as [|ns [|name [|x l]]];
    try (by destruct Hact).
  destruct (decide (ns = EmptyString)) as [->|Hns].
  { rewrite (bool_decide_eq_true_2 (EmptyString = EmptyString)) in Hact by reflexivity.
    by destruct Hact. }
  destruct (decide (name = EmptyString)) as [->|Hname].
  { rewrite (bool_decide_eq_true_2 (EmptyString = EmptyString)) in Hact by reflexivity.
    rewrite orb_true_r in Hact. by destruct Hact. }
  rewrite !bool_decide_eq_false_2 in Hact by assumption. simpl in Hact.
  destruct (K8s_Namespaces store !! ns) as [namespace|] eqn:Hn; [|by destruct Hact].
  destruct (Namespace_Services namespace !! name) as [service|] eqn:Hs;
    [|by destruct Hact].
  by exists ns, name, namespace, service.
Qed.

Lemma handleDefaultService_acts_on_known_service_only_witness :
  ∃ ns name namespace service,
    Split "default/web-svc" "/"%char = [ns; name]
    ∧ ns ≠ EmptyString ∧ name ≠ EmptyString
    ∧ K8s_Namespaces DefaultServiceExample.portlessStore !! ns = Some namespace
    ∧ Namespace_Services namespace !! name = Some service.
Proof.
  apply (handleDefaultService_acts_on_known_service_only
           ServiceExample.ServiceCtx ServiceExample.NewCtx
           ServiceExample.GetStatus ServiceExample.HandleBackend
           ServiceExample.HandleEndpoints
           "default/web-svc" DefaultServiceExample.portlessStore
           DefaultServiceExample.world).
  vm_compute. discriminate.
Defined.

(** ** Frames of the HTTPS handler *)

Lemma keepsSetting_ret {A B} (proj : ControllerCfg → A) (b : B) :
  respects (keepsSetting proj) (ret b).
Proof. intros w. reflexivity. Qed.

Lemma keepsSetting_panic {A B} (proj : ControllerCfg → A) :
  respects (keepsSetting proj) (@panic World B).
Proof. intros w. reflexivity. Qed.

Lemma keepsSetting_bind {A B C} (proj : ControllerCfg → A) (m : M World B)
    (f : B → M World C) :
  respects (keepsSetting proj) m → (∀ b, respects (keepsSetting proj) (f b)) →
  respects (keepsSetting proj) (bind m f).
Proof.
  intros Hm Hf w. unfold bind. specialize (Hm w).
  destruct (m w) as [b w'|w']; simpl in *; [|exact Hm].
  unfold keepsSetting in *. rewrite <- Hm. apply (Hf b w').
Qed.

Lemma keepsSetting_onApi {A B} (proj : ControllerCfg → A) (m : M HAProxy B) :
  respects (keepsSetting proj) (onApi m).
Proof. intros [c h]. unfold onApi, keepsSetting. simpl. by destruct (m h). Qed.

Lemma keepsSetting_get {A} (proj : ControllerCfg → A) :
  respects (keepsSetting proj) (onCfg get).
Proof. intros [c h]. reflexivity. Qed.

Lemma keepsSetting_modify {A} (proj : ControllerCfg → A) g :
  (∀ c, proj (g c) = proj c) → respects (keepsSetting proj) (onCfg (modify g)).
Proof. intros Hg [c h]. apply Hg. Qed.

Lemma keepsSetting_logger_Panic {A} (proj : ControllerCfg → A) e :
  respects (keepsSetting proj) (logger_Panic e).
Proof. destruct e; [apply keepsSetting_panic | apply keepsSetting_ret]. Qed.

Ltac settles :=
  repeat first
    [ apply keepsSetting_onApi
    | apply keepsSetting_get
    | apply keepsSetting_logger_Panic
    | apply keepsSetting_ret
    | apply keepsSetting_panic
    | apply keepsSetting_modify; intros ?; first [assumption | reflexivity | auto]
    | apply keepsSetting_bind; [| intros ?]
    | match goal with
      | |- respects _ (match ?x with _ => _ end) => destruct x
      | |- respects _ (let '(_, _) := ?x in _) => destruct x
      end ].

Lemma bindsOnly_refl frontend h : bindsOnly frontend h h.
Proof. by repeat split. Qed.

Lemma bindsOnly_trans frontend h1 h2 h3 :
  bindsOnly frontend h1 h2 → bindsOnly frontend h2 h3 → bindsOnly frontend h1 h3.
Proof.
  intros (Hb & Hf & Ho & Hh) (Hb' & Hf' & Ho' & Hh').
  split; [congruence|]. split; [congruence|]. split; [|congruence].
  intros g Hg. rewrite Ho', Ho by exact Hg. reflexivity.
Qed.

Lemma bindsOnly_logCall frontend c h : bindsOnly frontend h (logCall c h).
Proof. by repeat split. Qed.

Lemma api_FrontendBindEdit_frame frontend b h :
  bindsOnly frontend h (final (api_FrontendBindEdit frontend b h)).
Proof.
  unfold api_FrontendBindEdit, command.
  destruct (Fault h _); [apply bindsOnly_logCall|]. simpl.
  destruct (Frontends h !! frontend) as [s|] eqn:Hs; [|apply bindsOnly_logCall].
  destruct (hasBind _ _); [|apply bindsOnly_logCall].
  unfold bindsOnly, set_Frontends, logCall. simpl.
  split; [reflexivity|]. split; [reflexivity|]. split.
  - intros g Hg. by rewrite lookup_insert_ne.
  - by rewrite lookup_insert_eq, Hs.
Qed.

Section ClientAuthExtra.
Variable GetBoolValue : string → string → bool * error.

Lemma editClientAuth_frame frontend caFile verify binds : ∀ h,
  bindsOnly frontend h (final (editClientAuth frontend caFile verify binds h)).
Proof.
  induction binds as [|b rest IH]; intros h; [apply bindsOnly_refl|].
  simpl. unfold bind.
  pose proof (api_FrontendBindEdit_frame frontend (set_clientAuth caFile verify b) h) as Hb.
  destruct (api_FrontendBindEdit _ _ h) as [[e|] h'|h']; simpl in *; try exact Hb.
  eapply bindsOnly_trans; [exact Hb|apply IH].
Qed.

Lemma handleClientTLSAuth_keeps {A} (proj : ControllerCfg → A) h k :
  respects (keepsSetting proj) (handleClientTLSAuth GetBoolValue h k).
Proof. unfold handleClientTLSAuth. settles. Qed.

(** X15.  When client authentication is asked for and the HTTPS frontend
    has no bind, [handleClientTLSAuth] panics on [binds[0]], right after
    it fetched the binds. *)
Theorem handleClientTLSAuth_no_binds_panics h k cfg api s :
  GetValue "client-ca" [mainAnnotations k] ≠ EmptyString →
  Fault api (FrontendBindsGet (Cfg_FrontHTTPS cfg)) = false →
  Frontends api !! Cfg_FrontHTTPS cfg = Some s →
  Section_Binds s = [] →
  handleClientTLSAuth GetBoolValue h k (cfg, api)
  = Panic (cfg, logCall (FrontendBindsGet (Cfg_FrontHTTPS cfg)) api).
Proof.
  intros Href Hget Hs Hbinds. unfold handleClientTLSAuth.
  rewrite bool_decide_eq_false_2 by exact Href.
  rewrite bind_get. cbn [fst].
  unfold bind at 1. unfold onApi, api_FrontendBindsGet, bind, request. simpl.
  rewrite Hget, Hs. simpl. rewrite Hbinds.
  destruct (HandleTLSSecret _ _ _) as [caFile certErr].
  destruct (GetBoolValue _ _) as [enabled annErr]. reflexivity.
Qed.

(** X16.  Whatever the store, the live configuration and the failures of
    the client are, [handleClientTLSAuth] leaves the controller
    configuration as it is, and changes nothing of the live configuration
    but the binds of the HTTPS frontend: the backends, the other
    frontends, and the settings and switching rules of the HTTPS frontend
    stay as they are. *)
Theorem handleClientTLSAuth_frame h k w :
  let w' := final (handleClientTLSAuth GetBoolValue h k w) in
  w'.1 = w.1 ∧ bindsOnly (Cfg_FrontHTTPS w.1) w.2 w'.2.
Proof.
  intros w'. subst w'. destruct w as [cfg api]. cbn [fst snd].
  remember (handleClientTLSAuth GetBoolValue h k (cfg, api)) as r eqn:Hr.
  unfold handleClientTLSAuth in Hr.
  case_bool_decide; [subst r; split; [reflexivity|apply bindsOnly_refl]|].
  rewrite bind_get in Hr. cbn [fst] in Hr.
  unfold bind at 1 in Hr. unfold onApi at 1 in Hr. cbn [fst snd] in Hr.
  assert (Hget : ∃ x, api_FrontendBindsGet (Cfg_FrontHTTPS cfg) api
                      = Ret x (logCall (FrontendBindsGet (Cfg_FrontHTTPS cfg)) api)).
  { unfold api_FrontendBindsGet, bind, request.
    destruct (Fault api _); [by eexists|]. destruct (_ <$> _); by eexists. }
  destruct Hget as [[binds err] Hget]. rewrite Hget in Hr. clear Hget.
  pose proof (bindsOnly_logCall (Cfg_FrontHTTPS cfg)
                (FrontendBindsGet (Cfg_FrontHTTPS cfg)) api) as Hlog.
  revert Hr Hlog. generalize (logCall (FrontendBindsGet (Cfg_FrontHTTPS cfg)) api).
  intros api0 Hr Hlog.
  destruct err as [e|]; [by subst r|].
  destruct (HandleTLSSecret _ _ _) as [caFile certErr].
  destruct (GetBoolValue _ _) as [enabled annErr].
  destruct binds as [|b0 rest]; [by subst r|].
  destruct (_ && _); [by subst r|].
  destruct (bool_decide (caFile = EmptyString));
    unfold bind, onApi in Hr; cbn [fst snd] in Hr;
    match type of Hr with
    | context [editClientAuth ?f ?c ?v ?bs api0] =>
        pose proof (editClientAuth_frame f c v bs api0) as Hloop;
        destruct (editClientAuth f c v bs api0) as [[e|] api1|api1]
    end; subst r; simpl in *;
    (split; [reflexivity|eapply bindsOnly_trans; [exact Hlog|exact Hloop]]).
Qed.

(** X17.  With a CA file that resolves, client authentication is set
    once: after a run in which no call of the client failed, a second
    run, on the same store, only fetches the binds again; it changes
    nothing and asks for no reload. *)
Theorem handleClientTLSAuth_idempotent h k cfg api s :
  let a := clientAuth GetBoolValue k cfg in
  let front := Cfg_FrontHTTPS cfg in
  Auth_reference a ≠ EmptyString →
  Auth_caFile a ≠ EmptyString →
  Frontends api !! front = Some s →
  Section_Binds s ≠ [] →
  NoDup (Bind_Name <$> Section_Binds s) →
  (∀ c, Fault api c = false) →
  let r1 := handleClientTLSAuth GetBoolValue h k (cfg, api) in
  let r2 := handleClientTLSAuth GetBoolValue h k (final r1) in
  fst <$> returned r2 = Some false
  ∧ (final r2).1 = cfg
  ∧ Frontends (final r2).2 = Frontends (final r1).2
  ∧ Backends (final r2).2 = Backends (final r1).2
  ∧ Calls (final r2).2 = Calls (final r1).2 ++ [FrontendBindsGet front].
Proof.
  intros a front Href Hca Hs Hne Hnd Hfault r1 r2.
  assert (H1 : ∃ api1 s1,
             final r1 = (cfg, api1)
             ∧ Frontends api1 !! front = Some s1
             ∧ authUnchanged a (Section_Binds s1)
             ∧ Fault api1 = Fault api).
  { destruct (Section_Binds s) as [|b0 rest] eqn:Hb; [done|].
    destruct (decide (Bind_SslCafile b0 = Auth_caFile a ∧ Bind_Verify b0 = Auth_verify a))
      as [[Hc Hv]|Hchg].
    - unfold r1. rewrite (handleClientTLSAuth_unchanged GetBoolValue h k cfg api s);
        try assumption; [|apply Hfault|by exists b0, rest; rewrite Hb].
      eexists _, s. split; [reflexivity|]. split; [exact Hs|].
      split; [|reflexivity]. exists b0, rest. by rewrite Hb.
    - unfold r1.
      rewrite (handleClientTLSAuth_edits GetBoolValue h k cfg api s (b0 :: rest) []);
        try assumption.
      + eexists _, _. split; [reflexivity|]. split; [apply lookup_insert_eq|].
        split; [|reflexivity]. simpl. rewrite app_nil_r.
        exists (authEdit a b0), (authEdit a <$> rest). split; [reflexivity|].
        destruct (authEdit_fields a b0) as (Hf1 & Hf2 & _). split; [exact Hf1|].
        rewrite Hf2. by rewrite bool_decide_eq_false_2.
      + by rewrite app_nil_r.
      + rewrite app_nil_r. discriminate.
      + by rewrite app_nil_r.
      + rewrite Hb. intros (b & l & [= <- <-] & Hc & Hv). by apply Hchg.
      + apply Hfault.
      + intros b _. apply Hfault.
      + exact I. }
  destruct H1 as (api1 & s1 & Hr1 & Hs1 & Hun & Hf1).
  unfold r2. rewrite Hr1.
  rewrite (handleClientTLSAuth_unchanged GetBoolValue h k cfg api1 s1);
    try assumption; [|by rewrite Hf1].
  simpl. by repeat split.
Qed.

End ClientAuthExtra.

Lemma handleClientTLSAuth_no_binds_panics_witness :
  HandlerExample.runClientAuth HandlerExample.caStore ClientAuthExample.bindlessWorld
  = Panic (ClientAuthExample.bindlessWorld.1,
           logCall (FrontendBindsGet "https") ClientAuthExample.bindlessWorld.2).
Proof.
  apply (handleClientTLSAuth_no_binds_panics Example.parseBool HandlerExample.https
           HandlerExample.caStore ClientAuthExample.bindlessWorld.1
           ClientAuthExample.bindlessWorld.2 (HandlerExample.frontendSection "https" [])).
  - vm_compute. discriminate.
  - reflexivity.
  - vm_compute. reflexivity.
  - reflexivity.
Defined.

Lemma handleClientTLSAuth_idempotent_witness :
  let r1 := HandlerExample.runClientAuth HandlerExample.caStore
              (HandlerExample.caWorld HandlerExample.noFault) in
  let r2 := HandlerExample.runClientAuth HandlerExample.caStore (final r1) in
  fst <$> returned r2 = Some false
  ∧ Frontends (final r2).2 = Frontends (final r1).2.
Proof.
  pose proof (handleClientTLSAuth_idempotent Example.parseBool HandlerExample.https
                HandlerExample.caStore (HandlerExample.caWorld HandlerExample.noFault).1
                (HandlerExample.caWorld HandlerExample.noFault).2
                (HandlerExample.frontendSection "https" (bindList HandlerExample.https false)))
    as H.
  destruct H as (Hret & _ & Hfs & _).
  - vm_compute. discriminate.
  - vm_compute. discriminate.
  - vm_compute. reflexivity.
  - vm_compute. discriminate.
  - vm_compute. repeat constructor; rewrite ?elem_of_cons, ?elem_of_nil;
      intros H; repeat (destruct H as [H|H]; try discriminate H); done.
  - reflexivity.
  - split; [exact Hret|exact Hfs].
Defined.

(** ** Further properties of [Update] *)

Section UpdateExtra.
Variable GetBoolValue : string → string → bool * error.
Variable ParseTime : string → Z * error.
Variable GetMapPath_MAP_SNI : string.

Section Keeps.
Context {A : Type} (proj : ControllerCfg → A).
Hypothesis proj_rules : ∀ ops c, proj (set_HAProxyRules ops c) = proj c.
Hypothesis proj_flag : ∀ b c, proj (set_SSLPassthrough b c) = proj c.

Lemma toggleSSLPassthrough_keeps h p :
  respects (keepsSetting proj) (toggleSSLPassthrough h p).
Proof. unfold toggleSSLPassthrough. settles. Qed.

Lemma enableSSLPassthrough_keeps h :
  respects (keepsSetting proj) (enableSSLPassthrough h).
Proof. unfold enableSSLPassthrough. settles; try apply toggleSSLPassthrough_keeps. Qed.

Lemma disableSSLPassthrough_keeps h :
  respects (keepsSetting proj) (disableSSLPassthrough h).
Proof.
  unfold disableSSLPassthrough, HAProxyRules_DeleteFrontend.
  settles; try apply toggleSSLPassthrough_keeps.
Qed.

Lemma sslPassthroughRules_keeps h k :
  respects (keepsSetting proj) (sslPassthroughRules ParseTime GetMapPath_MAP_SNI h k).
Proof. unfold sslPassthroughRules, HAProxyRules_AddRule. settles. Qed.

Lemma updatePassthrough_keeps h k reload :
  respects (keepsSetting proj) (updatePassthrough ParseTime GetMapPath_MAP_SNI h k reload).
Proof.
  unfold updatePassthrough. settles;
    try first [ apply enableSSLPassthrough_keeps
              | apply disableSSLPassthrough_keeps
              | apply sslPassthroughRules_keeps ].
Qed.

Lemma afterOffload_keeps h k reload :
  respects (keepsSetting proj)
    (let* reload := updatePassthrough ParseTime GetMapPath_MAP_SNI h k reload in
     let* cfg := onCfg get in
     if Updated (Cfg_Certificates cfg) then ret (true, @None string) else ret (reload, None)).
Proof. settles; try apply updatePassthrough_keeps. Qed.

Hypothesis proj_offload : ∀ b c, proj (set_HTTPS b c) = proj c.

Lemma updateOffload_keeps h k :
  respects (keepsSetting proj) (updateOffload GetBoolValue h k).
Proof. unfold updateOffload. settles; try apply handleClientTLSAuth_keeps. Qed.

Lemma Update_keeps h k :
  respects (keepsSetting proj) (Update GetBoolValue ParseTime GetMapPath_MAP_SNI h k).
Proof.
  unfold Update. destruct (negb (HTTPS_Enabled h)); [apply keepsSetting_ret|].
  apply keepsSetting_bind; [apply updateOffload_keeps|].
  intros [early|reload]; [apply keepsSetting_ret|]. apply afterOffload_keeps.
Qed.

End Keeps.

(** X18.  Whether it returns or panics, and whatever the client does,
    [Update] leaves the names of the frontends and of the chaining
    backend, the rate-limit tables, the active backends and the
    certificates of the controller configuration as they are: of the
    configuration it only writes the offload flag, the passthrough flag
    and the rule registry. *)
Theorem Update_frame h k w :
  handlerFrame (final (Update GetBoolValue ParseTime GetMapPath_MAP_SNI h k w)).1
  = handlerFrame w.1.
Proof. by apply (Update_keeps handlerFrame). Qed.

Lemma updateOffload_flag h k w r w1 :
  updateOffload GetBoolValue h k w = Ret r w1 →
  Cfg_HTTPS w1.1 = FrontendCertsEnabled (Cfg_Certificates w.1).
Proof.
  destruct w as [cfg api]. unfold updateOffload. rewrite bind_get. cbn [fst].
  destruct (FrontendCertsEnabled (Cfg_Certificates cfg)) eqn:Hc;
    destruct (Cfg_HTTPS cfg) eqn:Hh; cbn [negb].
  - pose proof (handleClientTLSAuth_keeps GetBoolValue Cfg_HTTPS h k (cfg, api)) as Hk.
    unfold bind, ret. unfold keepsSetting in Hk.
    destruct (handleClientTLSAuth GetBoolValue h k (cfg, api)) as [[r0 [e|]] w2|w2];
      simpl in Hk; intros [= _ <-]; congruence.
  - unfold bind at 1. unfold bind at 1. unfold onApi at 1. cbn [fst snd].
    destruct (api_FrontendEnableSSLOffload _ _ _ api) as [[e|] api'|api'];
      [intros [=]| |intros [=]].
    pose proof (handleClientTLSAuth_keeps GetBoolValue Cfg_HTTPS h k
                  (set_HTTPS true cfg, api')) as Hk.
    unfold logger_Panic, bind, ret, onCfg, modify. cbn [fst snd].
    unfold keepsSetting in Hk.
    destruct (handleClientTLSAuth GetBoolValue h k (set_HTTPS true cfg, api'))
      as [[r0 [e|]] w2|w2];
      simpl in Hk; intros [= _ <-]; congruence.
  - unfold bind at 1. unfold onApi at 1. cbn [fst snd].
    destruct (api_FrontendDisableSSLOffload _ api) as [[e|] api'|api'];
      [intros [=]| |intros [=]].
    unfold logger_Panic, bind, ret, onCfg, modify. cbn [fst snd].
    intros [= _ <-]. reflexivity.
  - intros [= _ <-]. simpl. congruence.
Qed.

(** X19.  When [Update] returns, with HTTPS enabled, the offload flag of
    the controller configuration says whether the certificates manager
    has frontend certificates, also when the client-authentication step
    failed and on every later failure of the passthrough step. *)
Theorem Update_offload_flag h k w x :
  let r := Update GetBoolValue ParseTime GetMapPath_MAP_SNI h k w in
  HTTPS_Enabled h = true →
  returned r = Some x →
  Cfg_HTTPS (final r).1 = FrontendCertsEnabled (Cfg_Certificates w.1).
Proof.
  intros r Hen. subst r.
  remember (Update GetBoolValue ParseTime GetMapPath_MAP_SNI h k w) as r eqn:Hr.
  unfold Update in Hr. rewrite Hen in Hr. cbn [negb] in Hr.
  unfold bind at 1 in Hr.
  destruct (updateOffload GetBoolValue _ k w) as [[early|reload] w1|w1] eqn:Hoff;
    [| |subst r; intros [=]].
  - subst r. intros _. simpl. by eapply updateOffload_flag.
  - intros _. subst r. rewrite <- (updateOffload_flag _ _ _ _ _ Hoff).
    apply (afterOffload_keeps Cfg_HTTPS); reflexivity.
Qed.

(** X20.  The switch of SSL offload is not allowed to fail.  When the
    offload flag of the controller configuration does not agree with the
    certificates manager, and the call that switches offload over fails
    (or the HTTPS frontend is not there), [Update] panics, and the flag
    stays as it was. *)
Theorem Update_offload_switch_failure_panics h k cfg api :
  HTTPS_Enabled h = true →
  FrontendCertsEnabled (Cfg_Certificates cfg) = negb (Cfg_HTTPS cfg) →
  Fault api (offloadSwitch h k cfg) = true ∨ Frontends api !! Cfg_FrontHTTPS cfg = None →
  Update GetBoolValue ParseTime GetMapPath_MAP_SNI h k (cfg, api)
  = Panic (cfg, logCall (offloadSwitch h k cfg) api).
Proof.
  intros Hen Hc Hfail. unfold Update. rewrite Hen. cbn [negb].
  unfold updateOffload, offloadSwitch in *. rewrite !bind_bind, bind_get. cbn [fst].
  rewrite Hc. destruct (Cfg_HTTPS cfg); cbn [negb].
  - rewrite !bind_bind. unfold bind at 1. unfold onApi at 1. cbn [fst snd].
    unfold api_FrontendDisableSSLOffload, command.
    destruct Hfail as [-> | Hnone]; [reflexivity|].
    destruct (Fault api _); [reflexivity|]. simpl. by rewrite Hnone.
  - rewrite !bind_bind. unfold bind at 1. unfold onApi at 1. cbn [fst snd].
    unfold api_FrontendEnableSSLOffload, command.
    cbn [HTTPS_CertDir HTTPS_Alpn set_Alpn].
    destruct Hfail as [-> | Hnone]; [reflexivity|].
    destruct (Fault api _); [reflexivity|]. simpl. by rewrite Hnone.
Qed.

End UpdateExtra.

Lemma Update_offload_flag_witness :
  Cfg_HTTPS (final (HandlerExample.update (HandlerExample.store ∅)
                      (OffloadExample.pendingWorld HandlerExample.noFault))).1 = true.
Proof.
  apply (Update_offload_flag Example.parseBool HandlerExample.parseTime
           HandlerExample.sniMap HandlerExample.https (HandlerExample.store ∅)
           (OffloadExample.pendingWorld HandlerExample.noFault) (true, None)).
  - reflexivity.
  - vm_compute. reflexivity.
Defined.

Lemma Update_offload_switch_failure_panics_witness :
  HandlerExample.update (HandlerExample.store ∅)
    (OffloadExample.pendingWorld OffloadExample.offloadFails)
  = Panic ((OffloadExample.pendingWorld OffloadExample.offloadFails).1,
           logCall (FrontendEnableSSLOffload "https" "/etc/haproxy/certs" EmptyString)
             (OffloadExample.pendingWorld OffloadExample.offloadFails).2).
Proof.
  unfold HandlerExample.update, OffloadExample.pendingWorld.
  rewrite Update_offload_switch_failure_panics.
  - vm_compute. reflexivity.
  - reflexivity.
  - reflexivity.
  - left. reflexivity.
Defined.

(** ** The passthrough step of [Update] *)

Section PassthroughExtra.
Variable GetBoolValue : string → string → bool * error.
Variable ParseTime : string → Z * error.
Variable GetMapPath_MAP_SNI : string.

Lemma rulesOf_again frontend rules : ∀ acc,
  Forall (λ r, r ∈ acc) rules →
  rulesOf frontend ((λ r, AddRule r false frontend) <$> rules) acc = acc.
Proof.
  induction rules as [|r rules IH]; intros acc Hall; [reflexivity|].
  apply Forall_cons in Hall as [Hr Hall]. simpl.
  rewrite decide_True by reflexivity. rewrite decide_True by exact Hr. by apply IH.
Qed.

(** X21.  In the steady state of passthrough (the flag is set, the
    passthrough frontend is in place, offload and client authentication
    have nothing to do), [Update] issues no call but the fetch of the
    passthrough frontend, and asks for a reload only if the certificates
    were updated.  It hands the five passthrough rules to the registry
    again on every pass, which leaves the rules of the passthrough
    frontend as they are. *)
Theorem Update_passthrough_in_place h k cfg api fs :
  let front := Cfg_FrontSSL cfg in
  let rules := passthroughRules ParseTime GetMapPath_MAP_SNI k in
  let r := Update GetBoolValue ParseTime GetMapPath_MAP_SNI h k (cfg, api) in
  HTTPS_Enabled h = true →
  FrontendCertsEnabled (Cfg_Certificates cfg) = Cfg_HTTPS cfg →
  GetValue "client-ca" [mainAnnotations k] = EmptyString →
  Cfg_SSLPassthrough cfg = true →
  Fault api (FrontendGet front) = false →
  Frontends api !! front = Some fs →
  returned r = Some (Updated (Cfg_Certificates cfg), None)
  ∧ (final r).2 = logCall (FrontendGet front) api
  ∧ Cfg_HAProxyRules (final r).1
    = Cfg_HAProxyRules cfg ++ ((λ rule, AddRule rule false front) <$> rules)
  ∧ (rulesOf front (Cfg_HAProxyRules cfg) [] = rules →
     rulesOf front (Cfg_HAProxyRules (final r).1) [] = rules).
Proof.
  intros front rules r Hen Hq Hca Hflag Hget Hfs.
  assert (Hr : r = Ret (Updated (Cfg_Certificates cfg), None)
                 (set_HAProxyRules
                    (Cfg_HAProxyRules cfg ++ ((λ rule, AddRule rule false front) <$> rules))
                    cfg,
                  logCall (FrontendGet front) api)).
  { unfold r, Update. rewrite Hen. change (negb true) with false. cbv iota.
    unfold bind at 1. rewrite updateOffload_quiescent by assumption.
    unfold updatePassthrough.
    rewrite !bind_bind, bind_get. cbn beta. simpl fst.
    rewrite bind_bind. erewrite bind_onApi; [|apply api_FrontendGet_run].
    fold front. rewrite Hget, Hfs, Hflag. cbn beta iota.
    rewrite !bind_bind, bind_ret, bind_bind. unfold bind at 1.
    rewrite sslPassthroughRules_run. simpl fst. simpl snd.
    rewrite bind_ret, bind_get. simpl.
    by destruct (Updated (Cfg_Certificates cfg)). }
  rewrite Hr. cbn [final returned fst snd Cfg_HAProxyRules set_HAProxyRules].
  split; [reflexivity|]. split; [reflexivity|]. split; [reflexivity|].
  intros Hreg. rewrite rulesOf_app, Hreg. apply (rulesOf_again front rules rules).
  apply Forall_forall. auto.
Qed.

(** X22.  The errors of [enableSSLPassthrough] do not reach the caller of
    [Update].  When passthrough is asked for and the fetch of the
    passthrough frontend fails, then whatever [enableSSLPassthrough]
    returns, be it an error, [Update] goes on: it sets the passthrough
    flag, hands the passthrough rules to the registry, and returns a
    reload and no error. *)
Theorem Update_swallows_enable_error h k cfg api e w1 :
  let front := Cfg_FrontSSL cfg in
  let h' := set_Alpn (GetValue "tls-alpn" [mainAnnotations k]) h in
  HTTPS_Enabled h = true →
  FrontendCertsEnabled (Cfg_Certificates cfg) = Cfg_HTTPS cfg →
  GetValue "client-ca" [mainAnnotations k] = EmptyString →
  Cfg_SSLPassthrough cfg = true →
  Fault api (FrontendGet front) = true ∨ Frontends api !! front = None →
  enableSSLPassthrough h' (cfg, logCall (FrontendGet front) api) = Ret e w1 →
  Update GetBoolValue ParseTime GetMapPath_MAP_SNI h k (cfg, api)
  = Ret (true, None)
      (set_HAProxyRules
         (Cfg_HAProxyRules w1.1
          ++ ((λ rule, AddRule rule false (Cfg_FrontSSL w1.1))
                <$> passthroughRules ParseTime GetMapPath_MAP_SNI k))
         (set_SSLPassthrough true w1.1),
       w1.2).
Proof.
  intros front h' Hen Hq Hca Hflag Hget Henable.
  unfold Update. rewrite Hen. change (negb true) with false. cbv iota. fold h'.
  unfold bind at 1. rewrite updateOffload_quiescent by assumption.
  unfold updatePassthrough.
  rewrite !bind_bind, bind_get. cbn beta. simpl fst.
  rewrite bind_bind. erewrite bind_onApi; [|apply api_FrontendGet_run].
  fold front. rewrite Hflag.
  assert (Herr : ∃ e0, (if Fault api (FrontendGet front)
                        then (zeroFrontend, Some "client: frontend not found")
                        else match Frontends api !! front with
                             | Some s => (Section_Frontend s, None)
                             | None => (zeroFrontend, Some "client: frontend not found")
                             end) = (zeroFrontend, Some e0)).
  { destruct Hget as [-> | ->]; [by eexists|]. destruct (Fault api _); by eexists. }
  destruct Herr as [e0 ->]. cbn beta iota.
  rewrite !bind_bind. unfold bind at 1. rewrite Henable.
  destruct w1 as [cfg1 api1].
  rewrite !bind_bind, bind_modify. cbn beta. simpl fst. simpl snd.
  rewrite bind_ret, !bind_bind. unfold bind at 1. rewrite sslPassthroughRules_run.
  simpl fst. simpl snd. rewrite bind_ret, bind_get. simpl.
  by destruct (Updated (Cfg_Certificates cfg1)).
Qed.

(** X23.  Disabling passthrough undoes enabling it.  On a proxy whose
    HTTPS frontend has the binds that the handler gives it, with no
    passthrough frontend and no chaining backend, and a client that does
    not fail, [enableSSLPassthrough] followed by [disableSSLPassthrough]
    leaves the frontends and the backends of the live configuration
    exactly as they were. *)
Theorem passthrough_round_trip h cfg api s :
  let r1 := enableSSLPassthrough h (cfg, api) in
  let r2 := disableSSLPassthrough h (final r1) in
  Frontends api !! Cfg_FrontSSL cfg = None →
  Backends api !! Cfg_BackSSL cfg = None →
  Frontends api !! Cfg_FrontHTTPS cfg = Some s →
  Section_Binds s = toggledBinds h cfg false →
  HTTPS_IPv4 h = true → HTTPS_IPv6 h = true →
  (∀ c, Fault api c = false) →
  Cfg_FrontSSL cfg ≠ Cfg_FrontHTTPS cfg →
  returned r1 = Some None
  ∧ returned r2 = Some None
  ∧ Frontends (final r2).2 = Frontends api
  ∧ Backends (final r2).2 = Backends api.
Proof.
  intros r1 r2 Hssl Hback Hhttps Hbinds Hv4 Hv6 Hfault Hne.
  assert (Hb : ∃ b4 b6, Section_Binds s = [b4; b6]
                        ∧ Bind_Name b4 = "v4" ∧ Bind_Name b6 = "v6").
  { rewrite Hbinds. unfold toggledBinds, bindList. rewrite Hv4, Hv6.
    destruct (Cfg_HTTPS cfg); simpl; eexists _, _; by repeat split. }
  destruct Hb as (b4 & b6 & Hb & Hn4 & Hn6).
  pose proof (enableSSLPassthrough_run h cfg api s b4 b6 Hssl Hback Hhttps Hb Hn4 Hn6
                Hv4 Hv6 Hfault Hne []) as H1.
  rewrite app_nil_r in H1.
  replace {| Frontends := Frontends api; Backends := Backends api;
             Calls := Calls api; Fault := Fault api |} with api in H1 by by destruct api.
  unfold r2, r1. rewrite H1. cbn [final returned].
  split; [reflexivity|].
  match goal with
  | |- context [disableSSLPassthrough h
                  (cfg, {| Frontends := ?F; Backends := ?B;
                           Calls := Calls api ++ ?C; Fault := ?X |})] =>
      pose proof (disableSSLPassthrough_run h cfg
                    {| Frontends := F; Backends := B; Calls := Calls api; Fault := X |}
                    (set_Binds (toggledBinds h cfg true) s)) as H2
  end.
  cbn [Frontends Backends Calls Fault] in H2.
  erewrite (H2 (nth 0 (toggledBinds h cfg true) b4) (nth 1 (toggledBinds h cfg true) b6)).
  - cbn [final returned fst snd Frontends Backends].
    split; [reflexivity|]. split.
    + apply map_eq. intros i.
      destruct (decide (i = Cfg_FrontHTTPS cfg)) as [->|Hi].
      * rewrite lookup_insert_eq, Hhttps. f_equal.
        destruct s as [f binds sw]. unfold set_Binds. simpl in *. by rewrite Hbinds.
      * rewrite lookup_insert_ne by congruence.
        destruct (decide (i = Cfg_FrontSSL cfg)) as [->|Hi'].
        -- by rewrite lookup_delete_eq, Hssl.
        -- by rewrite lookup_delete_ne, !lookup_insert_ne by congruence.
    + apply map_eq. intros i.
      destruct (decide (i = Cfg_BackSSL cfg)) as [->|Hi].
      * by rewrite lookup_delete_eq, Hback.
      * by rewrite lookup_delete_ne, lookup_insert_ne by congruence.
  - by rewrite lookup_insert_ne, lookup_insert_eq by congruence.
  - by rewrite lookup_insert_eq.
  - by rewrite lookup_insert_eq.
  - unfold toggledBinds, bindList. rewrite Hv4, Hv6.
    destruct (Cfg_HTTPS cfg); reflexivity.
  - unfold toggledBinds, bindList. rewrite Hv4, Hv6.
    destruct (Cfg_HTTPS cfg); reflexivity.
  - unfold toggledBinds, bindList. rewrite Hv4, Hv6.
    destruct (Cfg_HTTPS cfg); reflexivity.
  - exact Hv4.
  - exact Hv6.
  - exact Hfault.
  - exact Hne.
Qed.

End PassthroughExtra.

(** A second pass of [Update] over the world that the first pass left,
    with passthrough in place. *)
Lemma Update_passthrough_in_place_witness :
  let w1 := final (HandlerExample.update (HandlerExample.store ∅)
                     HandlerExample.passthroughOnWorld) in
  let r := HandlerExample.update (HandlerExample.store ∅) w1 in
  returned r = Some (false, None)
  ∧ (final r).2 = logCall (FrontendGet "ssl") w1.2.
Proof.
  intros w1 r.
  edestruct (Update_passthrough_in_place Example.parseBool HandlerExample.parseTime
               HandlerExample.sniMap HandlerExample.https (HandlerExample.store ∅)
               w1.1 w1.2) as (H1 & H2 & _).
  - reflexivity.
  - reflexivity.
  - reflexivity.
  - reflexivity.
  - reflexivity.
  - vm_compute. reflexivity.
  - split; [exact H1|exact H2].
Defined.

(** The client refuses to create the passthrough frontend; [Update]
    reports a reload and no error. *)
Lemma Update_swallows_enable_error_witness :
  returned (enableSSLPassthrough HandlerExample.https
              (PassthroughExample.refusedWorld.1,
               logCall (FrontendGet "ssl") PassthroughExample.refusedWorld.2))
  = Some (Some "client: call failed")
  ∧ returned (HandlerExample.update (HandlerExample.store ∅)
                PassthroughExample.refusedWorld)
    = Some (true, None).
Proof.
  split; [vm_compute; reflexivity|].
  unfold HandlerExample.update, PassthroughExample.refusedWorld.
  erewrite (Update_swallows_enable_error Example.parseBool HandlerExample.parseTime
              HandlerExample.sniMap HandlerExample.https (HandlerExample.store ∅)).
  - reflexivity.
  - reflexivity.
  - reflexivity.
  - reflexivity.
  - reflexivity.
  - right. reflexivity.
  - vm_compute. reflexivity.
Defined.

Lemma passthrough_round_trip_witness :
  let w := HandlerExample.passthroughOnWorld in
  let r1 := enableSSLPassthrough HandlerExample.https w in
  let r2 := disableSSLPassthrough HandlerExample.https (final r1) in
  Frontends (final r2).2 = Frontends w.2 ∧ Backends (final r2).2 = Backends w.2.
Proof.
  intros w r1 r2.
  destruct (passthrough_round_trip HandlerExample.https w.1 w.2
              (HandlerExample.frontendSection "https" (bindList HandlerExample.https false)))
    as (_ & _ & Hf & Hb).
  - reflexivity.
  - reflexivity.
  - reflexivity.
  - reflexivity.
  - reflexivity.
  - reflexivity.
  - reflexivity.
  - discriminate.
  - split; [exact Hf|exact Hb].
Defined.

(** ** One path of an ingress *)

Section IngressPathExtra.
Variable ServiceCtx : Type.
Variable NewCtx : K8s → Ingress → option IngressPath → bool → ServiceCtx * error.
Variable GetStatus : ServiceCtx → Status.
Variable GetService : ServiceCtx → Service.
Variable HandleBackend : ServiceCtx → K8s → M HAProxy (bool * string * error).
Variable HandleEndpoints : ServiceCtx → K8s → Certificates → M HAProxy bool.
Variable GetBoolValue : string → string → bool * error.
Variable RuleID : Type.
Variable Maps : Type.
Variable CustomRoute : Type.
Variable AddHostPathRoute : @Route RuleID → Maps → Maps * error.
Variable AddCustomRoute :
  @Route RuleID → string → gmap string CustomRoute * HAProxy →
  (gmap string CustomRoute * HAProxy) * (bool * error).
Variable Store : K8s.

(** X24.  When [handleIngressPath] returns an error, it reports no
    reload, even if the backend was created or a custom route was dropped
    before the failure, and the backend of the path is not marked
    active. *)
Theorem handleIngressPath_error_no_reload ingress host path ruleIDs s reload e :
  let r := handleIngressPath ServiceCtx NewCtx GetStatus GetService HandleBackend
             HandleEndpoints GetBoolValue RuleID Maps CustomRoute AddHostPathRoute
             AddCustomRoute Store ingress host path ruleIDs s in
  returned r = Some (reload, Some e) →
  reload = false
  ∧ Cfg_ActiveBackends (Path_World (final r)).1 = Cfg_ActiveBackends (Path_World s).1.
Proof.
  intros r. subst r. destruct s as [[cfg api] routes maps].
  remember (handleIngressPath ServiceCtx NewCtx GetStatus GetService HandleBackend
              HandleEndpoints GetBoolValue RuleID Maps CustomRoute AddHostPathRoute
              AddCustomRoute Store ingress host path ruleIDs
              {| Path_World := (cfg, api); Path_CustomRoutes := routes;
                 Path_MapFiles := maps |}) as r eqn:Hr.
  unfold handleIngressPath in Hr.
  unfold bind at 1 in Hr. unfold onPathWorld at 1 in Hr. unfold onCfg at 1 in Hr.
  cbn [Path_World Path_CustomRoutes Path_MapFiles fst snd] in Hr.
  rewrite sslPassthroughEnabled_run in Hr.
  destruct (passthroughSources Store ingress path) as [sources|];
    [|subst r; intros [=]].
  assert (Hcfg : ∃ cfg0, Cfg_ActiveBackends cfg0 = Cfg_ActiveBackends cfg
                         ∧ (if resolvesTrue GetBoolValue sources
                            then Ret true (set_SSLPassthrough true cfg)
                            else Ret false cfg)
                           = Ret (resolvesTrue GetBoolValue sources) cfg0).
  { destruct (resolvesTrue GetBoolValue sources); eexists; (split; [|reflexivity]);
      reflexivity. }
  destruct Hcfg as (cfg0 & Hact & Hrun). rewrite Hrun in Hr. clear Hrun.
  cbn beta iota in Hr. cbn [Path_World fst]. rewrite <- Hact. clear Hact.
  destruct (NewCtx _ _ _ _) as [svc [e0|]]; [subst r; intros [= <- _]; by split|].
  case_bool_decide; [subst r; intros [=]|].
  unfold bind at 1 in Hr. unfold onPathWorld at 1 in Hr. unfold onApi at 1 in Hr.
  cbn [Path_World Path_CustomRoutes Path_MapFiles fst snd] in Hr.
  destruct (HandleBackend svc Store api) as [[[bReload backendName] err] api1|api1];
    [|subst r; intros [=]].
  destruct err as [e1|]; [subst r; intros [= <- _]; by split|].
  unfold bind at 1 in Hr. unfold routeStep in Hr.
  cbn [Route_BackendName] in Hr.
  destruct (bool_decide (GetValue "route-acl" _ = EmptyString)).
  - cbn [Path_World Path_CustomRoutes Path_MapFiles] in Hr.
    destruct (match routes !! backendName with
              | Some _ => _
              | None => _
              end) as [routes' routeReload].
    destruct (AddHostPathRoute _ maps) as [maps' [e2|]];
      [subst r; intros [= <- _]; by split|].
    unfold bind, onPathWorld, onCfg, onApi, modify, get, ret in Hr.
    cbn [Path_World Path_CustomRoutes Path_MapFiles fst snd] in Hr.
    destruct (HandleEndpoints svc Store _ api1); subst r; intros [=].
  - cbn [Path_World Path_CustomRoutes Path_MapFiles fst snd] in Hr.
    destruct (AddCustomRoute _ _ _) as [[routes' api2] [routeReload [e2|]]];
      [subst r; intros [= <- _]; by split|].
    unfold bind, onPathWorld, onCfg, onApi, modify, get, ret in Hr.
    cbn [Path_World Path_CustomRoutes Path_MapFiles fst snd] in Hr.
    destruct (HandleEndpoints svc Store _ api2); subst r; intros [=].
Qed.

(** X25.  When the service of the path carries no [route-acl] annotation
    while a custom route is registered for its backend, that custom route
    is dropped before the host-path route is added.  If the addition then
    fails, the error is returned with no reload, although the custom
    route is gone; if it succeeds, a returning run reports a reload. *)
Theorem handleIngressPath_drops_stale_custom_route
    ingress host path ruleIDs cfg api routes maps sources svc
    backendReload backendName api1 cr maps' err :
  let passthrough := resolvesTrue GetBoolValue sources in
  let ingRoute :=
    {| Route_Host := host; Route_Path := path; Route_HAProxyRules := ruleIDs;
       Route_BackendName := backendName; Route_SSLPassthrough := passthrough |} in
  let r := handleIngressPath ServiceCtx NewCtx GetStatus GetService HandleBackend
             HandleEndpoints GetBoolValue RuleID Maps CustomRoute AddHostPathRoute
             AddCustomRoute Store ingress host path ruleIDs
             {| Path_World := (cfg, api); Path_CustomRoutes := routes;
                Path_MapFiles := maps |} in
  passthroughSources Store ingress path = Some sources →
  NewCtx Store ingress path passthrough = (svc, None) →
  GetStatus svc ≠ DELETED →
  HandleBackend svc Store api = Ret (backendReload, backendName, None) api1 →
  GetValue "route-acl" [Service_Annotations (GetService svc)] = EmptyString →
  routes !! backendName = Some cr →
  AddHostPathRoute ingRoute maps = (maps', err) →
  Path_CustomRoutes (final r) = delete backendName routes
  ∧ (∀ e, err = Some e → returned r = Some (false, Some e))
  ∧ (err = None → ∀ x, returned r = Some x → x = (true, None)).
Proof.
  intros passthrough ingRoute r Hsrc Hctx Hst Hbackend Hacl Hroute Hadd.
  subst r.
  remember (handleIngressPath ServiceCtx NewCtx GetStatus GetService HandleBackend
              HandleEndpoints GetBoolValue RuleID Maps CustomRoute AddHostPathRoute
              AddCustomRoute Store ingress host path ruleIDs
              {| Path_World := (cfg, api); Path_CustomRoutes := routes;
                 Path_MapFiles := maps |}) as r eqn:Hr.
  unfold handleIngressPath in Hr.
  unfold bind at 1 in Hr. unfold onPathWorld at 1 in Hr. unfold onCfg at 1 in Hr.
  cbn [Path_World Path_CustomRoutes Path_MapFiles fst snd] in Hr.
  rewrite sslPassthroughEnabled_run, Hsrc in Hr. fold passthrough in Hr.
  assert (Hcfg : ∃ cfg0, (if passthrough
                          then Ret true (set_SSLPassthrough true cfg)
                          else Ret false cfg)
                         = Ret passthrough cfg0).
  { destruct passthrough; by eexists. }
  destruct Hcfg as (cfg0 & Hrun). rewrite Hrun in Hr. clear Hrun.
  cbn beta iota in Hr. rewrite Hctx in Hr.
  rewrite bool_decide_eq_false_2 in Hr by exact Hst.
  unfold bind at 1 in Hr. unfold onPathWorld at 1 in Hr. unfold onApi at 1 in Hr.
  cbn [Path_World Path_CustomRoutes Path_MapFiles fst snd] in Hr.
  rewrite Hbackend in Hr. cbn beta iota in Hr.
  unfold bind at 1 in Hr. unfold routeStep in Hr.
  rewrite Hacl in Hr.
  rewrite (bool_decide_eq_true_2 (EmptyString = EmptyString)) in Hr by reflexivity.
  cbn [Path_World Path_CustomRoutes Path_MapFiles Route_BackendName] in Hr.
  rewrite Hroute in Hr. fold ingRoute in Hr. rewrite Hadd in Hr.
  destruct err as [e|].
  - subst r. simpl. split; [reflexivity|]. split; [|discriminate].
    by intros e' [= <-].
  - unfold bind, onPathWorld, onCfg, onApi, modify, get, ret in Hr.
    cbn [Path_World Path_CustomRoutes Path_MapFiles fst snd] in Hr.
    destruct (HandleEndpoints svc Store _ api1) as [er api2|api2]; subst r; simpl.
    + split; [reflexivity|]. split; [discriminate|].
      intros _ x [= <-]. by rewrite orb_true_r.
    + split; [reflexivity|]. split; [discriminate|]. intros _ x [=].
Qed.

End IngressPathExtra.

Lemma handleIngressPath_error_no_reload_witness :
  returned (RouteExample.run EmptyString RouteExample.staleState)
    = Some (false, Some "route: empty host")
  ∧ Cfg_ActiveBackends
      (Path_World (final (RouteExample.run EmptyString RouteExample.staleState))).1 = ∅.
Proof.
  split; [vm_compute; reflexivity|].
  apply (handleIngressPath_error_no_reload ServiceExample.ServiceCtx ServiceExample.NewCtx
           ServiceExample.GetStatus RouteExample.GetService ServiceExample.HandleBackend
           ServiceExample.HandleEndpoints Example.parseBool Rule RouteExample.Maps
           RouteExample.CustomRoute RouteExample.AddHostPathRoute
           RouteExample.AddCustomRoute RouteExample.store (Example.webIngress ∅)
           EmptyString (Some Example.webPath) [] RouteExample.staleState
           false "route: empty host").
  vm_compute. reflexivity.
Defined.

(** The stale custom route is dropped, and the refused route costs the
    reload. *)
Lemma handleIngressPath_drops_stale_custom_route_witness :
  Path_CustomRoutes (final (RouteExample.run EmptyString RouteExample.staleState)) = ∅
  ∧ returned (RouteExample.run EmptyString RouteExample.staleState)
    = Some (false, Some "route: empty host")
  ∧ returned (RouteExample.run "example.com" RouteExample.staleState) = Some (true, None).
Proof.
  split; [|split].
  - edestruct (handleIngressPath_drops_stale_custom_route
                 ServiceExample.ServiceCtx ServiceExample.NewCtx
                 ServiceExample.GetStatus RouteExample.GetService
                 ServiceExample.HandleBackend ServiceExample.HandleEndpoints
                 Example.parseBool Rule RouteExample.Maps RouteExample.CustomRoute
                 RouteExample.AddHostPathRoute RouteExample.AddCustomRoute
                 RouteExample.store (Example.webIngress ∅) EmptyString (Some Example.webPath) []
                 Example.cfg0 ServiceExample.emptyProxy
                 ({[ "default-web-svc" := "path_beg /api" ]} : gmap string string) [])
      as (Hroutes & _ & _).
    + vm_compute. reflexivity.
    + vm_compute. reflexivity.
    + discriminate.
    + vm_compute. reflexivity.
    + vm_compute. reflexivity.
    + vm_compute. reflexivity.
    + vm_compute. reflexivity.
    + etransitivity; [exact Hroutes|]. vm_compute. reflexivity.
  - vm_compute. reflexivity.
  - vm_compute. reflexivity.
Defined.

(** ** The global pass *)

Section GlobalPassExtra.
Context {Global Defaults LogTarget Env : Type}.
Context `{EqDecision Global, EqDecision Defaults, EqDecision LogTarget}.
Variable zeroGlobal : Global.
Variable zeroDefaults : Defaults.
Variable GetGlobalAnnotations : list (@GlobalAnnotation Global LogTarget).
Variable GetDefaultsAnnotations : list (@DefaultsAnnotation Defaults).
Variable SetGlobal : Global → Env → Global.
Variable SetDefaults : Defaults → Defaults.
Variable UpdateGlobalCfgSnippet : bool * error.
Variable UpdateFrontendCfgSnippet : list string → bool * error.
Variable ServiceCtx : Type.
Variable NewCtx : K8s → Ingress → option IngressPath → bool → ServiceCtx * error.
Variable GetStatus : ServiceCtx → Status.
Variable HandleBackend : ServiceCtx → K8s → M HAProxy (bool * string * error).
Variable HandleEndpoints : ServiceCtx → K8s → Certificates → M HAProxy bool.
Variable defaultBackendService : string.
Variable GetBoolValue : string → string → bool * error.
Variable GetFrontendAnnotations : Ingress → K8s → list FrontendAnnotation.
Variable RuleID : Type.
Variable GetID : Rule → RuleID.
Variable Store : K8s.
Variable StoreCR : @CR Global Defaults.
Variable Cfg_Env : Env.

Lemma globalCfg_returns (c : @SectionsClient Global Defaults LogTarget) :
  ∃ x c', globalCfg zeroGlobal GetGlobalAnnotations SetGlobal UpdateGlobalCfgSnippet
            UpdateFrontendCfgSnippet Store StoreCR Cfg_Env c = Ret x c'.
Proof.
  unfold globalCfg.
  unfold api_GlobalGetConfiguration, api_GlobalGetLogTargets, api_GlobalPushConfiguration,
    api_GlobalDeleteLogTargets, api_GlobalCreateLogTargets,
    sectionRequest, sectionCommand, bind, ret. simpl.
  destruct (SectionFault c GlobalGetConfiguration); simpl; [by eexists _, _|].
  destruct (SectionFault c GlobalGetLogTargets); simpl; [by eexists _, _|].
  destruct (bool_decide (_ ≠ LiveGlobal c)); simpl;
    try destruct (SectionFault c (GlobalPushConfiguration _)); simpl;
    destruct (bool_decide (_ ≠ LiveLogTargets c)); simpl;
    try destruct (SectionFault c GlobalDeleteLogTargets); simpl;
    try destruct (SectionFault c (GlobalCreateLogTargets _)); simpl;
    by eexists _, _.
Qed.

Lemma defaultsCfg_returns (c : @SectionsClient Global Defaults LogTarget) :
  ∃ x c', defaultsCfg zeroDefaults GetDefaultsAnnotations SetDefaults Store StoreCR c
          = Ret x c'.
Proof.
  unfold defaultsCfg.
  unfold api_DefaultsGetConfiguration, api_DefaultsPushConfiguration,
    sectionRequest, sectionCommand, bind, ret. simpl.
  destruct (SectionFault c DefaultsGetConfiguration); simpl; [by eexists _, _|].
  destruct (bool_decide (_ ≠ LiveDefaults c)); simpl;
    try destruct (SectionFault c (DefaultsPushConfiguration _)); simpl;
    by eexists _, _.
Qed.

Lemma handleIngressAnnotations_returns ingress cfg :
  ∃ ids cfg',
    handleIngressAnnotations GetBoolValue GetFrontendAnnotations RuleID GetID Store
      ingress cfg = Ret ids cfg'.
Proof.
  rewrite handleIngressAnnotations_unfold.
  destruct (attachRules_effect GetBoolValue RuleID GetID Store ingress
              (negb (bool_decide (ingress = zeroIngress)))
              (processAnnotations
                 (if bool_decide (ingress = zeroIngress)
                  then mainAnnotations Store else Ingress_Annotations ingress)
                 (GetFrontendAnnotations ingress Store) [])
              [Cfg_FrontHTTP cfg; Cfg_FrontHTTPS cfg] [] cfg) as (cfg' & Hrun & _).
  by eexists _, _.
Qed.

(** X26.  The global pass runs its five steps one after the other, and
    no failure of a step keeps the next from running: the Global and the
    Defaults sections are synchronised on the client whatever happens
    afterwards, and unless [handleDefaultService] panics the rules of the
    config map are registered after it.  Restart is what [globalCfg]
    says; reload is asked for when [globalCfg], [defaultsCfg] or
    [handleDefaultService] ask for it. *)
Theorem handleGlobalConfig_steps (p : @Pass Global Defaults LogTarget) :
  let g := globalCfg zeroGlobal GetGlobalAnnotations SetGlobal UpdateGlobalCfgSnippet
             UpdateFrontendCfgSnippet Store StoreCR Cfg_Env p.1 in
  let d := defaultsCfg zeroDefaults GetDefaultsAnnotations SetDefaults Store StoreCR
             (final g) in
  let s := handleDefaultService ServiceCtx NewCtx GetStatus HandleBackend HandleEndpoints
             defaultBackendService Store p.2 in
  let a := handleIngressAnnotations GetBoolValue GetFrontendAnnotations RuleID GetID
             Store zeroIngress (final s).1 in
  let r := handleGlobalConfig zeroGlobal zeroDefaults GetGlobalAnnotations
             GetDefaultsAnnotations SetGlobal SetDefaults UpdateGlobalCfgSnippet
             UpdateFrontendCfgSnippet ServiceCtx NewCtx GetStatus HandleBackend
             HandleEndpoints defaultBackendService GetBoolValue GetFrontendAnnotations
             RuleID GetID Store StoreCR Cfg_Env p in
  (final r).1 = final d
  ∧ match returned s with
    | None => returned r = None ∧ (final r).2 = final s
    | Some serviceReload =>
        (final r).2 = (final a, (final s).2)
        ∧ ∃ reload restart defaultsReload,
            returned g = Some (reload, restart)
            ∧ returned d = Some defaultsReload
            ∧ returned r = Some (serviceReload || (defaultsReload || reload), restart)
    end.
Proof.
  intros g d s a r. destruct p as [c w]. cbn [fst snd] in *.
  assert (Hr : r = handleGlobalConfig zeroGlobal zeroDefaults GetGlobalAnnotations
                     GetDefaultsAnnotations SetGlobal SetDefaults UpdateGlobalCfgSnippet
                     UpdateFrontendCfgSnippet ServiceCtx NewCtx GetStatus HandleBackend
                     HandleEndpoints defaultBackendService GetBoolValue
                     GetFrontendAnnotations RuleID GetID Store StoreCR Cfg_Env (c, w))
    by reflexivity.
  clearbody r. unfold handleGlobalConfig in Hr.
  destruct (globalCfg_returns c) as ([reload restart] & c1 & Hg).
  fold g in Hg. subst d. rewrite Hg. cbn [final].
  destruct (defaultsCfg_returns c1) as (dr & c2 & Hd). rewrite Hd.
  unfold bind at 1 in Hr. unfold onSections at 1 in Hr. cbn [fst snd] in Hr.
  fold g in Hr. rewrite Hg in Hr. cbn beta iota in Hr.
  unfold bind at 1 in Hr. unfold onSections at 1 in Hr. cbn [fst snd] in Hr.
  rewrite Hd in Hr.
  unfold bind at 1 in Hr. unfold onWorld at 1 in Hr. cbn [fst snd] in Hr.
  assert (Hcert : ∃ x, handleDefaultCert Store w = Ret x w).
  { unfold handleDefaultCert. case_bool_decide; [by eexists|].
    destruct w. by eexists. }
  destruct Hcert as [x Hcert]. rewrite Hcert in Hr.
  unfold bind at 1 in Hr. unfold onWorld at 1 in Hr. cbn [fst snd] in Hr.
  subst a. fold s in Hr.
  destruct s as [sr w1|w1]; cbn [final returned].
  - unfold bind at 1 in Hr. unfold onWorld at 1 in Hr. unfold onCfg at 1 in Hr.
    cbn [fst snd] in Hr.
    destruct (handleIngressAnnotations_returns zeroIngress w1.1) as (ids & cfg' & Ha).
    rewrite Ha in Hr |- *. subst r. cbn [final returned fst snd ret].
    split; [reflexivity|]. split; [reflexivity|].
    by exists reload, restart, dr.
  - subst r. by repeat split.
Qed.

End GlobalPassExtra.

(** ** Passthrough and the HTTPS binds *)

Section StrandedExtra.
Variable GetBoolValue : string → string → bool * error.
Variable ParseTime : string → Z * error.
Variable GetMapPath_MAP_SNI : string.

(** X27.  Enabling passthrough pushes freshly built binds to the HTTPS
    frontend: whatever the binds carried before, client authentication
    included, afterwards they are on the loopback addresses, accept the
    proxy protocol, and carry neither a CA file nor a verify mode. *)
Theorem enableSSLPassthrough_resets_https_binds h cfg api s b4 b6 :
  let r := enableSSLPassthrough h (cfg, api) in
  Frontends api !! Cfg_FrontSSL cfg = None →
  Backends api !! Cfg_BackSSL cfg = None →
  Frontends api !! Cfg_FrontHTTPS cfg = Some s →
  Section_Binds s = [b4; b6] → Bind_Name b4 = "v4" → Bind_Name b6 = "v6" →
  HTTPS_IPv4 h = true → HTTPS_IPv6 h = true →
  (∀ c, Fault api c = false) →
  Cfg_FrontSSL cfg ≠ Cfg_FrontHTTPS cfg →
  ∃ s',
    Frontends (final r).2 !! Cfg_FrontHTTPS cfg = Some s'
    ∧ Bind_Address <$> Section_Binds s' = ["127.0.0.1"; "::1"]
    ∧ Forall (λ b, Bind_AcceptProxy b = true
                   ∧ Bind_SslCafile b = EmptyString ∧ Bind_Verify b = EmptyString)
        (Section_Binds s').
Proof.
  intros r Hssl Hback Hhttps Hb Hn4 Hn6 Hv4 Hv6 Hfault Hne.
  pose proof (enableSSLPassthrough_run h cfg api s b4 b6 Hssl Hback Hhttps Hb Hn4 Hn6
                Hv4 Hv6 Hfault Hne []) as H1.
  rewrite app_nil_r in H1.
  replace {| Frontends := Frontends api; Backends := Backends api;
             Calls := Calls api; Fault := Fault api |} with api in H1 by by destruct api.
  unfold r. rewrite H1. cbn [final snd Frontends].
  eexists. split; [apply lookup_insert_eq|].
  unfold toggledBinds, bindList. rewrite Hv4, Hv6.
  destruct (Cfg_HTTPS cfg); simpl; (split; [reflexivity|]); by repeat constructor.
Qed.

Lemma disableSSLPassthrough_backend_failure h cfg api fs :
  Fault api (FrontendDelete (Cfg_FrontSSL cfg)) = false →
  Frontends api !! Cfg_FrontSSL cfg = Some fs →
  Fault api (BackendDelete (Cfg_BackSSL cfg)) = true
  ∨ Backends api !! Cfg_BackSSL cfg = None →
  ∃ e,
    disableSSLPassthrough h (cfg, api)
    = Ret (Some e)
        (set_HAProxyRules (Cfg_HAProxyRules cfg ++ [DeleteFrontend (Cfg_FrontSSL cfg)]) cfg,
         {| Frontends := delete (Cfg_FrontSSL cfg) (Frontends api);
            Backends := Backends api;
            Calls := Calls api ++ [FrontendDelete (Cfg_FrontSSL cfg);
                                   BackendDelete (Cfg_BackSSL cfg)];
            Fault := Fault api |}).
Proof.
  intros Hdel Hfs Hfail. unfold disableSSLPassthrough.
  rewrite bind_get. cbn [fst].
  erewrite bind_onApi; cycle 1.
  { apply command_ok; [exact Hdel|]. simpl. rewrite Hfs. reflexivity. }
  cbn beta iota. unfold HAProxyRules_DeleteFrontend. rewrite bind_modify.
  cbn [fst snd].
  unfold bind, onApi, api_BackendDelete, command, set_Frontends, logCall.
  cbn [fst snd Fault Backends Frontends Calls].
  rewrite <- app_assoc. unfold ret.
  destruct Hfail as [-> | Hnone]; [by eexists|].
  rewrite Hnone.
  destruct (Fault api (BackendDelete (Cfg_BackSSL cfg))); by eexists.
Qed.

(** X28.  Switching passthrough off is not retried.  When the deletion of
    the chaining backend fails after the passthrough frontend was
    deleted, the HTTPS binds are not moved back; [Update] returns a
    reload and no error, and the next pass, which finds no passthrough
    frontend, only fetches it: the HTTPS frontend stays as it was while
    passthrough was on. *)
Theorem Update_failed_backend_delete_strands_binds h k cfg api fs :
  let r1 := Update GetBoolValue ParseTime GetMapPath_MAP_SNI h k (cfg, api) in
  let r2 := Update GetBoolValue ParseTime GetMapPath_MAP_SNI h k (final r1) in
  HTTPS_Enabled h = true →
  FrontendCertsEnabled (Cfg_Certificates cfg) = Cfg_HTTPS cfg →
  GetValue "client-ca" [mainAnnotations k] = EmptyString →
  Updated (Cfg_Certificates cfg) = false →
  Cfg_SSLPassthrough cfg = false →
  Fault api (FrontendGet (Cfg_FrontSSL cfg)) = false →
  Fault api (FrontendDelete (Cfg_FrontSSL cfg)) = false →
  Frontends api !! Cfg_FrontSSL cfg = Some fs →
  Fault api (BackendDelete (Cfg_BackSSL cfg)) = true
  ∨ Backends api !! Cfg_BackSSL cfg = None →
  returned r1 = Some (true, None)
  ∧ Frontends (final r1).2 = delete (Cfg_FrontSSL cfg) (Frontends api)
  ∧ returned r2 = Some (false, None)
  ∧ Frontends (final r2).2 = Frontends (final r1).2
  ∧ Calls (final r2).2 = Calls (final r1).2 ++ [FrontendGet (Cfg_FrontSSL cfg)].
Proof.
  intros r1 r2 Hen Hq Hca Hup Hflag Hget Hdel Hfs Hfail.
  destruct (disableSSLPassthrough_backend_failure
              (set_Alpn (GetValue "tls-alpn" [mainAnnotations k]) h) cfg
              (logCall (FrontendGet (Cfg_FrontSSL cfg)) api) fs Hdel Hfs Hfail)
    as (e & Hdis).
  assert (H1 : r1 = Ret (true, None)
                 (set_SSLPassthrough false
                    (set_HAProxyRules
                       (Cfg_HAProxyRules cfg ++ [DeleteFrontend (Cfg_FrontSSL cfg)]) cfg),
                  {| Frontends := delete (Cfg_FrontSSL cfg) (Frontends api);
                     Backends := Backends api;
                     Calls := (Calls api ++ [FrontendGet (Cfg_FrontSSL cfg)])
                              ++ [FrontendDelete (Cfg_FrontSSL cfg);
                                  BackendDelete (Cfg_BackSSL cfg)];
                     Fault := Fault api |})).
  { unfold r1, Update. rewrite Hen. change (negb true) with false. cbv iota.
    unfold bind at 1. rewrite updateOffload_quiescent by assumption.
    unfold updatePassthrough.
    rewrite !bind_bind, bind_get. cbn beta. simpl fst.
    rewrite bind_bind. erewrite bind_onApi; [|apply api_FrontendGet_run].
    rewrite Hget, Hfs, Hflag. cbn beta iota.
    rewrite !bind_bind. unfold bind at 1. rewrite Hdis.
    rewrite !bind_bind, bind_modify. cbn beta. simpl fst. simpl snd.
    rewrite bind_ret, bind_get. simpl. by rewrite Hup. }
  unfold r2. rewrite H1. cbn [final returned fst snd Frontends Calls].
  split; [reflexivity|]. split; [reflexivity|].
  rewrite Update_quiescent; try assumption; try reflexivity.
  - cbn [final returned fst snd Frontends Calls logCall]. by repeat split.
  - cbn [Frontends]. apply lookup_delete_eq.
Qed.

End StrandedExtra.

(** The HTTPS binds of [authenticatedWorld] carry a CA file; after
    passthrough was enabled they do not. *)
Lemma enableSSLPassthrough_resets_https_binds_witness :
  let r := enableSSLPassthrough HandlerExample.https StrandedExample.authenticatedWorld in
  ∃ s',
    Frontends (final r).2 !! "https" = Some s'
    ∧ Bind_Address <$> Section_Binds s' = ["127.0.0.1"; "::1"]
    ∧ Forall (λ b, Bind_AcceptProxy b = true
                   ∧ Bind_SslCafile b = EmptyString ∧ Bind_Verify b = EmptyString)
        (Section_Binds s').
Proof.
  apply (enableSSLPassthrough_resets_https_binds HandlerExample.https
           StrandedExample.authenticatedWorld.1 StrandedExample.authenticatedWorld.2
           (HandlerExample.frontendSection "https"
              (set_clientAuth HandlerExample.caPath "required"
                 <$> bindList HandlerExample.https false))
           (set_clientAuth HandlerExample.caPath "required"
              (mkBind "0.0.0.0" 443 "v4" false false))
           (set_clientAuth HandlerExample.caPath "required"
              (mkBind "::" 443 "v6" false true))); try reflexivity.
  discriminate.
Defined.

Lemma Update_failed_backend_delete_strands_binds_witness :
  let r1 := HandlerExample.update (HandlerExample.store ∅) StrandedExample.strandedWorld in
  let r2 := HandlerExample.update (HandlerExample.store ∅) (final r1) in
  returned r1 = Some (true, None)
  ∧ returned r2 = Some (false, None)
  ∧ Bind_Address <$> HandlerExample.httpsBinds (final r2) = ["127.0.0.1"; "::1"].
Proof.
  intros r1 r2.
  destruct (Update_failed_backend_delete_strands_binds Example.parseBool
              HandlerExample.parseTime HandlerExample.sniMap HandlerExample.https
              (HandlerExample.store ∅) StrandedExample.strandedWorld.1
              StrandedExample.strandedWorld.2
              (HandlerExample.frontendSection "ssl" (bindList HandlerExample.https false)))
    as (H1 & _ & H2 & Hf & _); try reflexivity.
  - left. reflexivity.
  - split; [exact H1|]. split; [exact H2|]. vm_compute. reflexivity.
Defined.
